(** * Schedule resolution engine of the timetable application

    A shallow embedding of [api.js] (class [TimetableAPI]) and of the variant
    selection and schedule assembly of [script.js] (class [TimetableApp]),
    followed by the properties of the specification, stated and proved on
    it.

    The static tables of [timetable-data.js] ([TIMETABLE_DATA],
    [SUBJECT_SCHEDULE], [DAY_ROTATION], [SPECIAL_DATES]) are configuration:
    they are parameters of the development (record [Globals]).  What the
    JavaScript host decides (the clock, the reading of a date string, the
    collation of strings) is a parameter as well (record [Host]). *)

From Stdlib Require Import ZArith Lia Ascii.
From stdpp Require Import gmap strings list pretty sorting.

Local Open Scope Z_scope.

(** ** The JavaScript host *)

Module JS.

(** A JavaScript number as the code meets it: an integer or [NaN]. *)
Inductive Number :=
| Num (z : Z)
| NaN.

Global Instance Number_eq_dec : EqDecision Number.
Proof. solve_decision. Defined.

(** Truthiness, as used by [||], [!], [if] and [?:]. *)
Class Truthy (A : Type) := truthy : A → bool.

(** The only falsy string is the empty one. *)
Global Instance string_truthy : Truthy string :=
  λ s, match s with EmptyString => false | String _ _ => true end.
(** The falsy numbers are [0] and [NaN]. *)
Global Instance Z_truthy : Truthy Z := λ z, negb (z =? 0).
Global Instance Number_truthy : Truthy Number :=
  λ x, match x with Num z => truthy z | NaN => false end.
(** [None] stands for [undefined] or [null]; both are falsy. *)
Global Instance option_truthy `{Truthy A} : Truthy (option A) :=
  λ o, match o with Some a => truthy a | None => false end.

(** [x || null]. *)
Definition orNull `{Truthy A} (x : option A) : option A :=
  if truthy x then x else None.

(** [x || d] where [d] is a plain value. *)
Definition orElse `{Truthy A} (x : option A) (d : A) : A :=
  match x with
  | Some a => if truthy a then a else d
  | None => d
  end.

(** Arithmetic; [NaN] is absorbing. *)
Definition lift2 (f : Z → Z → Z) (x y : Number) : Number :=
  match x, y with
  | Num a, Num b => Num (f a b)
  | _, _ => NaN
  end.
Definition num_add := lift2 Z.add.
Definition num_sub := lift2 Z.sub.
Definition num_mul := lift2 Z.mul.

(** [Math.floor(x / k)] for a positive integer constant [k]. *)
Definition floorDiv (x : Number) (k : Z) : Number :=
  match x with Num a => Num (a / k) | NaN => NaN end.

(** [Math.max(0, x)]. *)
Definition max0 (x : Number) : Number :=
  match x with Num a => Num (Z.max 0 a) | NaN => NaN end.

(** *** Strings *)

(** [s.padStart(n, c)] for a one-character filler. *)
Definition padStart (n : nat) (c : ascii) (s : string) : string :=
  String.string_of_list_ascii (replicate (n - String.length s)%nat c) +:+ s.

(** [n.toString()] for an integer. *)
Definition toString (z : Z) : string := pretty z.

(** [s.split(c)] for a one-character separator. *)
Fixpoint split_go (sep : ascii) (cur : string) (s : string) : list string :=
  match s with
  | EmptyString => [String.rev cur]
  | String c s' =>
      if Ascii.eqb c sep then String.rev cur :: split_go sep EmptyString s'
      else split_go sep (String c cur) s'
  end.
Definition split (sep : ascii) (s : string) : list string :=
  split_go sep EmptyString s.

(** The value of the longest prefix of decimal digits, if there is one. *)
Fixpoint digits (s : string) (acc : option Z) : option Z :=
  match s with
  | EmptyString => acc
  | String c s' =>
      match Ascii.is_nat c with
      | Some d => digits s' (Some (10 * default 0 acc + Z.of_nat d))
      | None => acc
      end
  end.

Fixpoint all_digits (s : string) : bool :=
  match s with
  | EmptyString => true
  | String c s' => bool_decide (is_Some (Ascii.is_nat c)) && all_digits s'
  end.

(** [parseInt(x)] on the decimal fragment: the leading digits, [NaN] when
    there are none or when [x] is [undefined].  Signs, leading blanks and
    radix prefixes do not occur in [HH:MM] times and are not modelled. *)
Definition parseInt (x : option string) : Number :=
  match x with
  | Some s => match digits s None with Some z => Num z | None => NaN end
  | None => NaN
  end.

(** [Number(s)] on the decimal fragment: the empty string is [0], a string
    of digits is its value, anything else in the fragment is [NaN]. *)
Definition toNumber (s : string) : Number :=
  if all_digits s then Num (default 0 (digits s None)) else NaN.

(** *** Dates

    A time value is a number of milliseconds of local time, counted from
    1970-01-01T00:00 local.  The zone offset is taken constant, so that it
    cancels in every difference the program computes. *)

Definition msPerMinute : Z := 60000.
Definition msPerHour : Z := 3600000.
Definition msPerDay : Z := 86400000.

Definition Day (t : Z) : Z := t / msPerDay.

(** [date.getDay()]: 0 is Sunday, 6 is Saturday; 1970-01-01 was a Thursday. *)
Definition getDay (t : Z) : Z := (Day t + 4) mod 7.
Definition getHours (t : Z) : Z := (t / msPerHour) mod 24.
Definition getMinutes (t : Z) : Z := (t / msPerMinute) mod 60.

(** Day number to civil date (proleptic Gregorian calendar). *)
Definition civil_from_days (z : Z) : Z * Z * Z :=
  let z := z + 719468 in
  let era := z / 146097 in
  let doe := z - era * 146097 in
  let yoe := (doe - doe / 1460 + doe / 36524 - doe / 146096) / 365 in
  let doy := doe - (365 * yoe + yoe / 4 - yoe / 100) in
  let mp := (5 * doy + 2) / 153 in
  let d := doy - (153 * mp + 2) / 5 + 1 in
  let m := if mp <? 10 then mp + 3 else mp - 9 in
  let y := yoe + era * 400 in
  (if m <=? 2 then y + 1 else y, m, d).

(** Civil date to day number. *)
Definition days_from_civil (y m d : Z) : Z :=
  let y := if m <=? 2 then y - 1 else y in
  let era := y / 400 in
  let yoe := y - era * 400 in
  let doy := (153 * (if 2 <? m then m - 3 else m + 9) + 2) / 5 + d - 1 in
  let doe := yoe * 365 + yoe / 4 - yoe / 100 + doy in
  era * 146097 + doe - 719468.

Definition getFullYear (t : Z) : Z := (civil_from_days (Day t)).1.1.
(** [date.getMonth()] counts from 0. *)
Definition getMonth (t : Z) : Z := (civil_from_days (Day t)).1.2 - 1.
Definition getDate (t : Z) : Z := (civil_from_days (Day t)).2.

(** [date.setHours(h, m, 0, 0)]: the same day at [h:m:00.000]; an
    argument that is [NaN] makes the date invalid. *)
Definition setHours (t : Z) (h m : Number) : Number :=
  num_add (Num (Day t * msPerDay))
    (num_add (num_mul h (Num msPerHour)) (num_mul m (Num msPerMinute))).
Global Arguments setHours : simpl never.

(** [date.setDate(n)]: day [n] of the month of [date], counted on from
    the first of that month when [n] is not a day of it; the time of day
    is kept. *)
Definition setDate (t : Z) (n : Z) : Z :=
  (days_from_civil (getFullYear t) (getMonth t + 1) 1 + (n - 1)) * msPerDay
  + t mod msPerDay.

(** The first five characters of [date.toTimeString()]: [HH:MM]. *)
Definition toTimeString5 (t : Z) : string :=
  padStart 2 "0" (toString (getHours t)) +:+ ":" +:+ padStart 2 "0" (toString (getMinutes t)).

(** *** What the host decides

    [clock n] is the time value of the [n]-th evaluation of [new Date()],
    [parseDate s] the time value of [new Date(s)] ([None] for an invalid
    date: the accepted formats depend on the engine), [localeCompare] the
    collation of [String.prototype.localeCompare]. *)
Record Host := {
  clock : nat → Z;
  parseDate : string → option Z;
  localeCompare : string → string → comparison
}.

(** Computations that read the clock: the state counts the readings. *)
Definition Eff (A : Type) : Type := nat → A * nat.

Definition ret {A} (a : A) : Eff A := λ n, (a, n).
Definition bind {A B} (m : Eff A) (k : A → Eff B) : Eff B :=
  λ n, let (a, n') := m n in k a n'.

(** [new Date()]. *)
Definition newDate (h : Host) : Eff Z := λ n, (clock h n, S n).

(** [Array.prototype.sort(cmp)]: the sort is stable (ECMAScript 2019), so
    for a comparator that orders the elements its result is the one that
    stable insertion gives.  [cmp a b = Gt] is a positive result. *)
Fixpoint sortInsert {A} (cmp : A → A → comparison) (x : A) (l : list A) : list A :=
  match l with
  | [] => [x]
  | y :: l' => match cmp x y with
               | Gt => y :: sortInsert cmp x l'
               | _ => x :: l
               end
  end.
Fixpoint arraySort {A} (cmp : A → A → comparison) (l : list A) : list A :=
  match l with
  | [] => []
  | x :: l' => sortInsert cmp x (arraySort cmp l')
  end.

(** The relational operators on strings: code units are compared one
    by one (here bytes, the same order on ASCII text such as times);
    [a >= b] is [!(a < b)], [a <= b] is [!(b < a)]. *)
Definition str_lt (a b : string) : bool := String.ltb a b.
Definition str_gt (a b : string) : bool := str_lt b a.
Definition str_le (a b : string) : bool := negb (str_lt b a).
Definition str_ge (a b : string) : bool := negb (str_lt a b).

(** [for (const x of a) { if (p x) { r = x; break; } }] from [r = null]. *)
Fixpoint firstMatch {A} (p : A → bool) (a : list A) : option A :=
  match a with
  | [] => None
  | x :: a' => if p x then Some x else firstMatch p a'
  end.

(** [a.forEach((x, i) => out.push(f x i))], threading the array [out]. *)
Fixpoint forEachPush {A B} (f : A → nat → B) (i : nat) (a : list A) (out : list B) : list B :=
  match a with
  | [] => out
  | x :: a' => forEachPush f (S i) a' (out ++ [f x i])
  end.

End JS.

Notation "'let*' x ':=' m 'in' k" := (JS.bind m (λ x, k))
  (at level 10, x name, m at level 100, k at level 200, only parsing).

(** ** The data model *)

(** A period or the assembly: [{start, end}], with a [name] when the
    table gives one. *)
Record Period := { p_name : option string; p_start : string; p_end : string }.
(** A break: [{name, start, end}]. *)
Record Break := { b_name : string; b_start : string; b_end : string }.
(** An entry of [TIMETABLE_DATA]. *)
Record Timetable := {
  preSchoolAssembly : option Period;
  periods : list Period;
  breaks : list Break
}.

Global Instance Period_eq_dec : EqDecision Period.
Proof. solve_decision. Defined.
Global Instance Break_eq_dec : EqDecision Break.
Proof. solve_decision. Defined.

(** The tables of [timetable-data.js], as the globals of the page.  A
    table is read at a date string or at a variant name, never at a name
    that objects inherit, so that reading it is a lookup in a finite map;
    a day cycle is a number, a special-date tag is a string. *)
Record Globals := {
  TIMETABLE_DATA : gmap string Timetable;
  SUBJECT_SCHEDULE : gmap Z (gmap Z string);
  DAY_ROTATION : gmap string Z;
  SPECIAL_DATES : gmap string string
}.

(** The uniform envelope [{success, timestamp, data?, error?}]; the
    time stamp is kept as the time value that [toISOString] renders, and
    [error] holds the [message] of the error object. *)
Record Response (D : Type) := {
  success : bool;
  timestamp : Z;
  data : option D;
  error : option string
}.
Arguments success {D} _.
Arguments timestamp {D} _.
Arguments data {D} _.
Arguments error {D} _.

(** ** api.js: class TimetableAPI *)

Module API.
Import JS.

Record TimetableAPI := {
  timetableData : gmap string Timetable;
  subjectSchedule : gmap Z (gmap Z string);
  dayRotation : gmap string Z;
  specialDates : gmap string string
}.

(** The constructor copies the four globals. *)
Definition new (w : Globals) : TimetableAPI :=
  {| timetableData := TIMETABLE_DATA w;
     subjectSchedule := SUBJECT_SCHEDULE w;
     dayRotation := DAY_ROTATION w;
     specialDates := SPECIAL_DATES w |}.

(** An element of a schedule; [periodNumber] is present on periods only. *)
Record ScheduleItem := {
  type : string;
  name : string;
  displayName : string;
  periodNumber : option Z;
  start : string;
  end_ : string;
  subject : string;
  duration : Number
}.

Global Instance ScheduleItem_eq_dec : EqDecision ScheduleItem.
Proof. solve_decision. Defined.

(** The day record; [None] in the last four fields is an absent field. *)
Record DayData := {
  date : string;
  dayOfWeek : option string;
  dayOfWeekNumber : Z;
  dayCycle : option Z;
  timetableType : string;
  timetableTypeName : string;
  isSchoolDay : bool;
  isWeekend : bool;
  schedule : list ScheduleItem;
  d_periods : option nat;
  d_breaks : option nat;
  d_preSchoolAssembly : option Period;
  message : option string
}.

Section methods.
Context (h : Host) (this : TimetableAPI).

Definition calculateDuration (start end_ : string) : Number :=
  let s := toNumber <$> split ":" start in
  let e := toNumber <$> split ":" end_ in
  let startH := default NaN (s !! 0%nat) in
  let startM := default NaN (s !! 1%nat) in
  let endH := default NaN (e !! 0%nat) in
  let endM := default NaN (e !! 1%nat) in
  num_sub (num_add (num_mul endH (Num 60)) endM) (num_add (num_mul startH (Num 60)) startM).

(** The subject of a period: [this.subjectSchedule[dayCycle]?.[n] || '課程']. *)
Definition subjectFor (dayCycle : option Z) (periodNumber : Z) : string :=
  orElse (c ← dayCycle; row ← subjectSchedule this !! c; row !! periodNumber) "課程".

Definition assemblyItem (a : Period) : ScheduleItem :=
  {| type := "assembly"; name := "朝會"; displayName := "朝會";
     periodNumber := None;
     start := p_start a; end_ := p_end a;
     subject := "Pre-School Assembly";
     duration := calculateDuration (p_start a) (p_end a) |}.

Definition periodItem (dayCycle : option Z) (period : Period) (index : nat) : ScheduleItem :=
  let periodNumber := Z.of_nat index + 1 in
  let subject := subjectFor dayCycle periodNumber in
  {| type := "period";
     name := "第" +:+ toString periodNumber +:+ "節";
     displayName := "P" +:+ toString periodNumber;
     periodNumber := Some periodNumber;
     start := p_start period; end_ := p_end period;
     subject := subject;
     duration := calculateDuration (p_start period) (p_end period) |}.

Definition breakItem (breakTime : Break) (_ : nat) : ScheduleItem :=
  {| type := "break"; name := b_name breakTime; displayName := b_name breakTime;
     periodNumber := None;
     start := b_start breakTime; end_ := b_end breakTime;
     subject := b_name breakTime;
     duration := calculateDuration (b_start breakTime) (b_end breakTime) |}.

(** The comparator of [schedule.sort]. *)
Definition byStart (a b : ScheduleItem) : comparison :=
  localeCompare h (start a) (start b).

Definition buildSchedule (timetable : Timetable) (dayCycle : option Z) : list ScheduleItem :=
  let schedule := [] in
  let schedule :=
    match preSchoolAssembly timetable with
    | Some a => schedule ++ [assemblyItem a]
    | None => schedule
    end in
  let schedule := forEachPush (periodItem dayCycle) 0 (periods timetable) schedule in
  let schedule := forEachPush breakItem 0 (breaks timetable) schedule in
  arraySort byStart schedule.

Definition getDayOfWeekName (day : Z) : option string :=
  ["星期日"; "星期一"; "星期二"; "星期三"; "星期四"; "星期五"; "星期六"] !! Z.to_nat day.

Definition typeNames : list (string * string) :=
  [("normal", "正常時間表");
   ("specialA", "特殊時間表A - 學期初");
   ("specialB", "特殊時間表B");
   ("specialC", "特殊時間表C - 長集會");
   ("specialD", "特殊時間表D - 社際聚會");
   ("specialE", "特殊時間表E - 資訊日準備");
   ("none", "非上課日")].

Definition getTimetableTypeName (type : string) : string :=
  orElse ((list_to_map typeNames : gmap string string) !! type) type.

Definition errorResponse {D} (message : string) : Eff (Response D) :=
  let* ts := newDate h in
  ret {| success := false; timestamp := ts; data := None; error := Some message |}.

(** The variant chosen for a parsed date (lines 36-48 of [getByDate]). *)
Definition resolveType (dayOfWeek : Z) (dayCycle : option Z) (specialType : option string) : string :=
  let isWeekend := (dayOfWeek =? 0) || (dayOfWeek =? 6) in
  match specialType with
  | Some t => "special" +:+ t
  | None =>
      if isWeekend || negb (truthy dayCycle) then "none"
      else if dayOfWeek =? 5 then "specialB"
      else "normal"
  end.

Definition getByDate (dateStr : string) : Eff (Response DayData) :=
  match parseDate h (dateStr +:+ "T00:00:00") with
  | None => errorResponse "Invalid date format. Use YYYY-MM-DD"
  | Some date_ =>
      let dayOfWeek_ := getDay date_ in
      let isWeekend_ := (dayOfWeek_ =? 0) || (dayOfWeek_ =? 6) in
      let dayCycle_ := orNull (dayRotation this !! dateStr) in
      let specialType := orNull (specialDates this !! dateStr) in
      let timetableType_ := resolveType dayOfWeek_ dayCycle_ specialType in
      let isSchoolDay_ := negb (bool_decide (timetableType_ = "none")) in
      let timetable := timetableData this !! timetableType_ in
      let* ts := newDate h in
      let response sched np nb asm msg :=
        {| success := true; timestamp := ts;
           data := Some
             {| date := dateStr;
                dayOfWeek := getDayOfWeekName dayOfWeek_;
                dayOfWeekNumber := dayOfWeek_;
                dayCycle := dayCycle_;
                timetableType := timetableType_;
                timetableTypeName := getTimetableTypeName timetableType_;
                isSchoolDay := isSchoolDay_;
                isWeekend := isWeekend_;
                schedule := sched;
                d_periods := np; d_breaks := nb;
                d_preSchoolAssembly := asm;
                message := msg |};
           error := None |} in
      match isSchoolDay_, timetable with
      | true, Some timetable =>
          ret (response (buildSchedule timetable dayCycle_)
                 (Some (length (periods timetable))) (Some (length (breaks timetable)))
                 (preSchoolAssembly timetable) None)
      | _, _ =>
          ret (response [] None None None
                 (Some (if isWeekend_ then "週末休息" else "非上課日")))
      end
  end.

Definition formatDateToISO (date : Z) : string :=
  let year := getFullYear date in
  let month := padStart 2 "0" (toString (getMonth date + 1)) in
  let day := padStart 2 "0" (toString (getDate date)) in
  toString year +:+ "-" +:+ month +:+ "-" +:+ day.

Definition formatTimeForComparison (date : Z) : string := toTimeString5 date.

(** The result is the time value of the date returned, [NaN] when the
    date is invalid. *)
Definition parseTimeToDate (timeStr : string) : Eff Number :=
  let* today := newDate h in
  let parts := split ":" timeStr in
  let hours := parts !! 0%nat in
  let minutes := parts !! 1%nat in
  ret (setHours today (parseInt hours) (parseInt minutes)).

Definition isTimeInRange (current start end_ : string) : bool :=
  str_ge current start && str_le current end_.

Definition formatSeconds (seconds : Z) : string :=
  let h := seconds / 3600 in
  let m := Z.rem seconds 3600 / 60 in
  let s := Z.rem seconds 60 in
  padStart 2 "0" (toString h) +:+ ":" +:+ padStart 2 "0" (toString m)
    +:+ ":" +:+ padStart 2 "0" (toString s).

Definition getToday : Eff (Response DayData) :=
  let* now := newDate h in
  getByDate (formatDateToISO now).

(** The two shapes of the [data] of [getCurrent]. *)
Record NoSchoolData := {
  ns_date : string;
  ns_currentTime : string;
  ns_message : string
}.
Record LocatedData := {
  lo_date : string;
  lo_currentTime : string;
  lo_dayCycle : option Z;
  lo_status : string;
  lo_currentPeriod : option ScheduleItem;
  lo_nextPeriod : option ScheduleItem;
  lo_remainingSeconds : option Number;
  lo_remainingFormatted : option string
}.
Inductive CurrentData :=
| NoSchool (d : NoSchoolData)
| Located (d : LocatedData).

(** Reading a field of either shape; a field that is [null] or not there
    reads [None]. *)
Definition status (c : CurrentData) : string :=
  match c with NoSchool _ => "no-school" | Located d => lo_status d end.
Definition currentPeriod (c : CurrentData) : option ScheduleItem :=
  match c with NoSchool _ => None | Located d => lo_currentPeriod d end.
Definition nextPeriod (c : CurrentData) : option ScheduleItem :=
  match c with NoSchool _ => None | Located d => lo_nextPeriod d end.
Definition remainingSeconds (c : CurrentData) : option Number :=
  match c with NoSchool _ => None | Located d => lo_remainingSeconds d end.
Definition remainingFormatted (c : CurrentData) : option string :=
  match c with NoSchool _ => None | Located d => lo_remainingFormatted d end.

(** [Math.max(0, Math.floor((endTime - now) / 1000))]. *)
Definition remaining (endTime : Number) (now : Z) : Number :=
  max0 (floorDiv (num_sub endTime (Num now)) 1000).
Global Arguments remaining : simpl never.

Definition getCurrent : Eff (Response CurrentData) :=
  let* now := newDate h in
  let today := formatDateToISO now in
  let currentTime := formatTimeForComparison now in
  let* todayData := getByDate today in
  let noSchool :=
    let* ts := newDate h in
    ret {| success := true; timestamp := ts;
           data := Some (NoSchool
             {| ns_date := today;
                ns_currentTime := currentTime;
                ns_message := orElse (d ← data todayData; message d) "今日沒有課程" |});
           error := None |} in
  match data todayData with
  | Some d =>
      if negb (success todayData) || negb (isSchoolDay d) then noSchool
      else
        let schedule_ := schedule d in
        let currentPeriod_ :=
          firstMatch (λ item, isTimeInRange currentTime (start item) (end_ item)) schedule_ in
        let status_ := from_option type "free" currentPeriod_ in
        let nextPeriod_ := firstMatch (λ item, str_gt (start item) currentTime) schedule_ in
        let* remainingSeconds_ :=
          match currentPeriod_ with
          | Some item =>
              let* endTime := parseTimeToDate (end_ item) in
              ret (Some (remaining endTime now))
          | None => ret None
          end in
        let* ts := newDate h in
        ret {| success := true; timestamp := ts;
               data := Some (Located
                 {| lo_date := today;
                    lo_currentTime := currentTime;
                    lo_dayCycle := dayCycle d;
                    lo_status := status_;
                    lo_currentPeriod := currentPeriod_;
                    lo_nextPeriod := nextPeriod_;
                    lo_remainingSeconds := remainingSeconds_;
                    lo_remainingFormatted :=
                      match remainingSeconds_ with
                      | Some (Num z) => if truthy z then Some (formatSeconds z) else None
                      | _ => None
                      end |});
               error := None |}
  | None => noSchool
  end.

Record WeekData := {
  weekStart : string;
  weekEnd : string;
  days : list (option DayData)
}.

(** The loop of [getWeek], at index [i] with [count] rounds to go. *)
Fixpoint weekLoop (monday : Z) (i count : nat) (weekData : list (Response DayData))
    : Eff (list (Response DayData)) :=
  match count with
  | O => ret weekData
  | S count' =>
      let date := setDate monday (getDate monday + Z.of_nat i) in
      let dateStr := formatDateToISO date in
      let* r := getByDate dateStr in
      weekLoop monday (S i) count' (weekData ++ [r])
  end.

(** [afterElapsed t ms] stands for [new Date(t.getTime() + ms)] as a
    time value of local time.  The host decides it: it is [t + ms] when
    the zone offset is the same at both instants, and an hour more or
    less across a change of daylight saving time. *)
Definition getWeek (afterElapsed : Z → Z → Z) : Eff (Response WeekData) :=
  let* today := newDate h in
  let dayOfWeek := getDay today in
  let monday :=
    setDate today (getDate today - (if dayOfWeek =? 0 then 6 else dayOfWeek - 1)) in
  let* weekData := weekLoop monday 0 7 [] in
  let* ts := newDate h in
  ret {| success := true; timestamp := ts;
         data := Some {| weekStart := formatDateToISO monday;
                         weekEnd :=
                           formatDateToISO (afterElapsed monday (6 * 24 * 60 * 60 * 1000));
                         days := data <$> weekData |};
         error := None |}.

End methods.
End API.

(** ** api.js: [buildSchedule] and the objects in its reach

    [buildSchedule(timetable, dayCycle)] creates an array, pushes new
    objects into it and sorts it in place; it reads the definition that
    [timetable] refers to and the subject table of the instance.  Here
    the objects live in a store and every statement is a step on the
    store, so that what a call writes, and where, is there to see.  The
    elements pushed are new objects that nothing else refers to: they are
    kept as values.  The arrays that [calculateDuration] makes of the
    parts of a time are out of reach when it returns, and are not kept. *)

Module Mem.
Import JS.

(** The definitions of the catalog, each under its reference; the
    subject table [this.subjectSchedule]; the arrays of slots created so
    far, each under its reference; the number of clock readings made. *)
Record Store := {
  definitions : gmap nat Timetable;
  subjectSchedule : gmap Z (gmap Z string);
  arrays : gmap nat (list API.ScheduleItem);
  clockReads : nat
}.

(** A statement: a result and the store it leaves. *)
Definition M (A : Type) : Type := Store → A * Store.
Definition ret {A} (a : A) : M A := λ st, (a, st).
Definition bind {A B} (m : M A) (k : A → M B) : M B :=
  λ st, let (a, st') := m st in k a st'.

(** The store with the array [v] under the reference [r]. *)
Definition setArray (r : nat) (v : list API.ScheduleItem) (st : Store) : Store :=
  {| definitions := definitions st;
     subjectSchedule := subjectSchedule st;
     arrays := <[r := v]> (arrays st);
     clockReads := clockReads st |}.

(** [[]]: a new array, under a reference that is not in use. *)
Definition newArray : M nat :=
  λ st, let r := fresh (dom (arrays st)) in (r, setArray r [] st).

(** [a.push(x)]. *)
Definition push (a : nat) (x : API.ScheduleItem) : M unit :=
  λ st, (tt, setArray a (default [] (arrays st !! a) ++ [x]) st).

(** [a.sort(cmp)]: the array is sorted in place. *)
Definition sort (a : nat) (cmp : API.ScheduleItem → API.ScheduleItem → comparison) : M unit :=
  λ st, (tt, setArray a (arraySort cmp (default [] (arrays st !! a))) st).

(** [timetable.f]: a field of the definition that [timetable] refers to;
    a call is made on a reference that holds a definition. *)
Definition field {A} (timetable : nat) (f : Timetable → A) : M (option A) :=
  λ st, (f <$> definitions st !! timetable, st).

(** [this.subjectSchedule[dayCycle]?.[n]]. *)
Definition subjectOf (dayCycle : option Z) (n : Z) : M (option string) :=
  λ st, (c ← dayCycle; row ← subjectSchedule st !! c; row !! n, st).

(** [a.forEach((x, i) => f x i)]. *)
Fixpoint forEach {A} (f : A → nat → M unit) (i : nat) (a : list A) : M unit :=
  match a with
  | [] => ret tt
  | x :: a' => bind (f x i) (λ _, forEach f (S i) a')
  end.

Definition buildSchedule (h : Host) (timetable : nat) (dayCycle : option Z) : M nat :=
  bind newArray (λ schedule,
  bind (field timetable preSchoolAssembly) (λ assembly,
  bind (match assembly with
        | Some (Some a) => push schedule (API.assemblyItem a)
        | _ => ret tt
        end) (λ _,
  bind (field timetable periods) (λ ps,
  bind (forEach (λ period index,
                   let periodNumber := Z.of_nat index + 1 in
                   bind (subjectOf dayCycle periodNumber) (λ s,
                   let subject := orElse s "課程" in
                   push schedule
                     {| API.type := "period";
                        API.name := "第" +:+ toString periodNumber +:+ "節";
                        API.displayName := "P" +:+ toString periodNumber;
                        API.periodNumber := Some periodNumber;
                        API.start := p_start period; API.end_ := p_end period;
                        API.subject := subject;
                        API.duration :=
                          API.calculateDuration (p_start period) (p_end period) |}))
                0 (default [] ps)) (λ _,
  bind (field timetable breaks) (λ bs,
  bind (forEach (λ breakTime index, push schedule (API.breakItem breakTime index))
                0 (default [] bs)) (λ _,
  bind (sort schedule (API.byStart h)) (λ _,
  ret schedule)))))))).

End Mem.

(** ** script.js: class TimetableApp *)

Module App.
Import JS.

(** An element of the list that [buildScheduleItems] renders: the spread
    of the table entry ([start], [end] and [name], if it has one) and the
    three fields added. *)
Record Item := {
  start : string;
  end_ : string;
  name : option string;
  type : string;
  displayName : string;
  subject : string
}.

Global Instance Item_eq_dec : EqDecision Item.
Proof. solve_decision. Defined.

Section methods.
Context (h : Host) (w : Globals).

Definition calculateDayCycle (dateStr : string) : option Z :=
  orNull (DAY_ROTATION w !! dateStr).

Definition isNonSchoolDay (dateStr : string) : bool :=
  match parseDate h (dateStr +:+ "T00:00:00") with
  | None => false
  | Some date =>
      let dayOfWeek := getDay date in
      if (dayOfWeek =? 0) || (dayOfWeek =? 6) then true
      else negb (truthy (DAY_ROTATION w !! dateStr))
           && negb (truthy (SPECIAL_DATES w !! dateStr))
  end.

Definition getTimetableTypeForDate (dateStr : string) : string :=
  match orNull (SPECIAL_DATES w !! dateStr) with
  | Some t => "special" +:+ t
  | None =>
      if isNonSchoolDay dateStr then "none"
      else
        match parseDate h (dateStr +:+ "T00:00:00") with
        | Some date => if getDay date =? 5 then "specialB" else "normal"
        | None => "normal"
        end
  end.

(** [this.dayCycle] is the field that [updateTimetable] sets from
    [calculateDayCycle]; it is an argument here. *)
Definition subjectFor (this_dayCycle : option Z) (periodNumber : Z) : string :=
  orElse (c ← this_dayCycle; row ← SUBJECT_SCHEDULE w !! c; row !! periodNumber) "課程".

Definition assemblyItem (a : Period) : Item :=
  {| start := p_start a; end_ := p_end a; name := p_name a;
     type := "assembly"; displayName := "朝會"; subject := "Pre-School Assembly" |}.

Definition periodItem (this_dayCycle : option Z) (period : Period) (index : nat) : Item :=
  let subject := subjectFor this_dayCycle (Z.of_nat index + 1) in
  {| start := p_start period; end_ := p_end period; name := p_name period;
     type := "period";
     displayName := "第" +:+ toString (Z.of_nat index + 1) +:+ "節";
     subject := subject |}.

Definition breakItem (breakTime : Break) (_ : nat) : Item :=
  {| start := b_start breakTime; end_ := b_end breakTime;
     name := Some (b_name breakTime);
     type := "break"; displayName := b_name breakTime; subject := b_name breakTime |}.

Definition byStart (a b : Item) : comparison :=
  localeCompare h (start a) (start b).

Definition buildScheduleItems (this_dayCycle : option Z) (timetable : Timetable) : list Item :=
  let allItems := [] in
  let allItems :=
    match preSchoolAssembly timetable with
    | Some a => allItems ++ [assemblyItem a]
    | None => allItems
    end in
  let allItems := forEachPush (periodItem this_dayCycle) 0 (periods timetable) allItems in
  let allItems := forEachPush breakItem 0 (breaks timetable) allItems in
  arraySort byStart allItems.

End methods.
End App.

(** ** script.js: the live panel of TimetableApp *)

Module Live.
Import JS.

(** [currentPeriodInfo] and [nextPeriodInfo]: [{type, name, start, end,
    subject}].  A [name] or a [subject] that is copied from a table entry
    is [undefined] when the entry has none. *)
Record PeriodInfo := {
  type : string;
  name : option string;
  start : string;
  end_ : string;
  subject : option string
}.

Global Instance PeriodInfo_eq_dec : EqDecision PeriodInfo.
Proof. solve_decision. Defined.

(** An element of [allTimeSlots]: the spread of the table entry and the
    two fields added. *)
Record Slot := {
  s_start : string;
  s_end : string;
  s_name : option string;
  s_type : string;
  s_periodNumber : Z
}.

Section methods.
Context (h : Host) (w : Globals).

Definition isTimeInRange (current start end_ : string) : bool :=
  str_ge current start && str_le current end_.

Definition formatTimeForComparison (date : Z) : string := toTimeString5 date.

Definition parseTimeToDate (timeStr : string) : Eff Number :=
  let* today := newDate h in
  let parts := split ":" timeStr in
  let hours := parts !! 0%nat in
  let minutes := parts !! 1%nat in
  ret (setHours today (parseInt hours) (parseInt minutes)).

(** The loop of [findCurrentPeriod] over [timetable.periods], from index
    [i]; [None] when the loop ends without a [return]. *)
Fixpoint checkPeriods (this_dayCycle : option Z) (currentTimeStr : string) (i : nat)
    (ps : list Period) : option PeriodInfo :=
  match ps with
  | [] => None
  | period :: rest =>
      if isTimeInRange currentTimeStr (p_start period) (p_end period) then
        let subject := App.subjectFor w this_dayCycle (Z.of_nat i + 1) in
        Some {| type := "period";
                name := Some ("第" +:+ toString (Z.of_nat i + 1) +:+ "節");
                start := p_start period; end_ := p_end period;
                subject := Some subject |}
      else checkPeriods this_dayCycle currentTimeStr (S i) rest
  end.

(** The loop over [timetable.breaks]. *)
Fixpoint checkBreaks (currentTimeStr : string) (bs : list Break) : option PeriodInfo :=
  match bs with
  | [] => None
  | breakTime :: rest =>
      if isTimeInRange currentTimeStr (b_start breakTime) (b_end breakTime) then
        Some {| type := "break"; name := Some (b_name breakTime);
                start := b_start breakTime; end_ := b_end breakTime;
                subject := Some (b_name breakTime) |}
      else checkBreaks currentTimeStr rest
  end.

Definition freeInfo : PeriodInfo :=
  {| type := "free"; name := Some "空堂時間"; start := ""; end_ := "";
     subject := Some "目前沒有課程" |}.

Definition findCurrentPeriod (this_dayCycle : option Z) (currentTimeStr : string)
    (timetable : Timetable) : PeriodInfo :=
  match checkPeriods this_dayCycle currentTimeStr 0 (periods timetable) with
  | Some r => r
  | None =>
      match checkBreaks currentTimeStr (breaks timetable) with
      | Some r => r
      | None =>
          match preSchoolAssembly timetable with
          | Some a =>
              if isTimeInRange currentTimeStr (p_start a) (p_end a) then
                {| type := "assembly"; name := Some "朝會";
                   start := p_start a; end_ := p_end a;
                   subject := Some "Pre-School Assembly" |}
              else freeInfo
          | None => freeInfo
          end
      end
  end.

Definition assemblySlot (a : Period) : Slot :=
  {| s_start := p_start a; s_end := p_end a; s_name := p_name a;
     s_type := "assembly"; s_periodNumber := 0 |}.

Definition periodSlot (period : Period) (index : nat) : Slot :=
  {| s_start := p_start period; s_end := p_end period; s_name := p_name period;
     s_type := "period"; s_periodNumber := Z.of_nat index + 1 |}.

Definition breakSlot (breakTime : Break) (_ : nat) : Slot :=
  {| s_start := b_start breakTime; s_end := b_end breakTime;
     s_name := Some (b_name breakTime);
     s_type := "break"; s_periodNumber := 0 |}.

Definition byStart (a b : Slot) : comparison :=
  localeCompare h (s_start a) (s_start b).

Definition allTimeSlots (timetable : Timetable) : list Slot :=
  let allTimeSlots := [] in
  let allTimeSlots :=
    match preSchoolAssembly timetable with
    | Some a => allTimeSlots ++ [assemblySlot a]
    | None => allTimeSlots
    end in
  let allTimeSlots := forEachPush periodSlot 0 (periods timetable) allTimeSlots in
  let allTimeSlots := forEachPush breakSlot 0 (breaks timetable) allTimeSlots in
  arraySort byStart allTimeSlots.

(** The object that the loop of [findNextPeriod] returns for a slot. *)
Definition nextInfo (this_dayCycle : option Z) (slot : Slot) : PeriodInfo :=
  let subject :=
    if String.eqb (s_type slot) "period"
    then Some (App.subjectFor w this_dayCycle (s_periodNumber slot))
    else s_name slot in
  {| type := s_type slot;
     name := if String.eqb (s_type slot) "period"
             then Some ("第" +:+ toString (s_periodNumber slot) +:+ "節")
             else if String.eqb (s_type slot) "assembly" then Some "朝會"
             else s_name slot;
     start := s_start slot; end_ := s_end slot;
     subject := subject |}.

Definition findNextPeriod (this_dayCycle : option Z) (currentTimeStr : string)
    (timetable : Timetable) : option PeriodInfo :=
  nextInfo this_dayCycle
    <$> firstMatch (λ slot, str_gt (s_start slot) currentTimeStr) (allTimeSlots timetable).

(** [labels[type] || '']. *)
Definition countdownLabel (type : string) : string :=
  orElse ((list_to_map [("period", "下課倒計時"); ("break", "小息結束倒計時");
                        ("assembly", "朝會結束倒計時")] : gmap string string) !! type) "".

(** [h.toString().padStart(2, '0')] for a number that may be [NaN]. *)
Definition pad2 (x : Number) : string :=
  match x with Num z => padStart 2 "0" (toString z) | NaN => "NaN" end.

(** [updateCountdown]: the texts that it writes to [countdown-display]
    and to [countdown-label]. *)
Definition updateCountdown (this_currentPeriodInfo : option PeriodInfo)
    : Eff (string * string) :=
  match this_currentPeriodInfo with
  | None => ret ("--:--:--", "")
  | Some info =>
      if negb (truthy (end_ info)) then ret ("--:--:--", "")
      else
        let* now := newDate h in
        let* endTime := parseTimeToDate (end_ info) in
        let timeDiff := num_sub endTime (Num now) in
        if match timeDiff with Num d => (d <=? 0) | NaN => false end
        then ret ("00:00:00", "時間已到")
        else
          let hours := floorDiv timeDiff (1000 * 60 * 60) in
          let minutes :=
            floorDiv (match timeDiff with
                      | Num d => Num (Z.rem d (1000 * 60 * 60)) | NaN => NaN end)
                     (1000 * 60) in
          let seconds :=
            floorDiv (match timeDiff with
                      | Num d => Num (Z.rem d (1000 * 60)) | NaN => NaN end)
                     1000 in
          ret (pad2 hours +:+ ":" +:+ pad2 minutes +:+ ":" +:+ pad2 seconds,
               countdownLabel (type info))
  end.

Definition getTimetableTypeText (timetableType : string) : string :=
  orElse ((list_to_map [("specialA", "特殊時間表A - 學期初");
                        ("specialB", "特殊時間表B");
                        ("specialC", "特殊時間表C - 長集會");
                        ("specialD", "特殊時間表D - 社際聚會");
                        ("specialE", "特殊時間表E - 資訊日準備");
                        ("none", "非上課日")] : gmap string string) !! timetableType)
         "正常時間表".

End methods.
End Live.

(** ** notifications.js: class NotificationManager *)

Module Notifications.
Import JS.

(** What the browser decides: whether [Notification] exists, the value of
    [Notification.permission], and the outcome of
    [Notification.requestPermission()], an answer or the message of the
    error it throws. *)
Record Browser := {
  supported : bool;
  browserPermission : string;
  promptAnswer : string + string
}.

(** The argument of [show]; a field that is left out is [None]. *)
Record Options := {
  o_title : string;
  o_body : string;
  o_icon : option string;
  o_badge : option string;
  o_tag : option string;
  o_requireInteraction : option bool
}.

(** A notification as [show] constructs it. *)
Record Notification := {
  title : string;
  body : string;
  icon : string;
  badge : string;
  tag : string;
  requireInteraction : bool;
  silent : bool;
  vibrate : list Z
}.

(** What a method does to the world around the manager. *)
Inductive Event :=
| Shown (n : Notification)
| IntervalSet (ms : Z)
| IntervalCleared
| TimeoutSet (key : string) (delay : Number).

(** The fields of the manager; [scheduledNotifications] maps keys to
    [true], so it is the set of its keys; [checkInterval] is [true] when
    it holds a timer. *)
Record Manager := {
  permission : string;
  enabled : bool;
  reminderMinutes : Number;
  scheduledNotifications : gset string;
  checkInterval : bool
}.

(** The manager, [localStorage] and the events so far, oldest first. *)
Record World := {
  this : Manager;
  localStorage : gmap string string;
  events : list Event
}.

(** The result of [requestPermission] and of [enable]. *)
Record Result := {
  r_success : bool;
  r_permission : option string;
  r_reason : option string;
  r_message : option string
}.

Definition set_this (f : Manager → Manager) (st : World) : World :=
  {| this := f (this st); localStorage := localStorage st; events := events st |}.
Definition setItem (k v : string) (st : World) : World :=
  {| this := this st; localStorage := <[k := v]> (localStorage st); events := events st |}.
Definition emit (e : list Event) (st : World) : World :=
  {| this := this st; localStorage := localStorage st; events := events st ++ e |}.

(** [x > 0] and [x <= y] on numbers: false when one is [NaN]. *)
Definition num_pos (x : Number) : bool :=
  match x with Num a => 0 <? a | NaN => false end.
Definition num_le (x y : Number) : bool :=
  match x, y with Num a, Num b => a <=? b | _, _ => false end.
(** [Math.min] and [Math.max]. *)
Definition num_min := lift2 Z.min.
Definition num_max := lift2 Z.max.
(** [x.toString()] for a number. *)
Definition numToString (x : Number) : string :=
  match x with Num a => toString a | NaN => "NaN" end.

Section methods.
Context (h : Host) (b : Browser) (api : option API.TimetableAPI).

Definition constructor (storage : gmap string string) : Manager :=
  {| permission := if supported b then browserPermission b else "denied";
     enabled := bool_decide (storage !! "notifications-enabled" = Some "true");
     reminderMinutes :=
       (let x := parseInt (storage !! "reminder-minutes") in
        if truthy x then x else Num 5);
     scheduledNotifications := ∅;
     checkInterval := false |}.

Definition show (options : Options) (st : World) : World :=
  if negb (bool_decide (permission (this st) = "granted")) then st
  else emit [Shown {| title := o_title options;
                      body := o_body options;
                      icon := orElse (o_icon options) "./icons/icon-192.png";
                      badge := orElse (o_badge options) "./icons/icon-72.png";
                      tag := orElse (o_tag options) "timetable-notification";
                      requireInteraction := default false (o_requireInteraction options);
                      silent := false;
                      vibrate := [200; 100; 200] |}] st.

Definition showTestNotification (st : World) : World :=
  if negb (bool_decide (permission (this st) = "granted")) then st
  else show {| o_title := "通知已啟用 ✓"; o_body := "您將在課堂開始前收到提醒";
               o_icon := Some "./icons/icon-192.png"; o_badge := None;
               o_tag := Some "test-notification"; o_requireInteraction := None |} st.

Definition newline : string := String (ascii_of_nat 10) EmptyString.

Definition checkUpcomingClasses (st : World) : Eff World :=
  if negb (enabled (this st)) || negb (bool_decide (permission (this st) = "granted"))
  then ret st
  else
    match api with
    | None => ret st
    | Some api =>
        let* current := API.getCurrent h api in
        match (if success current then c ← data current; API.nextPeriod c else None) with
        | None => ret st
        | Some next =>
            if negb (bool_decide (API.type next = "period")) then ret st
            else
              let* now := newDate h in
              let parts := toNumber <$> split ":" (API.start next) in
              let hours := default NaN (parts !! 0%nat) in
              let minutes := default NaN (parts !! 1%nat) in
              let* startTime := newDate h in
              let startTime := setHours startTime hours minutes in
              let minutesUntilStart := floorDiv (num_sub startTime (Num now)) 60000 in
              if num_pos minutesUntilStart
                 && num_le minutesUntilStart (reminderMinutes (this st))
              then
                let notificationKey := API.start next +:+ "-" +:+ API.name next in
                if bool_decide (notificationKey ∈ scheduledNotifications (this st))
                then ret st
                else
                  let st :=
                    set_this (λ m, {| permission := permission m; enabled := enabled m;
                                      reminderMinutes := reminderMinutes m;
                                      scheduledNotifications :=
                                        {[notificationKey]} ∪ scheduledNotifications m;
                                      checkInterval := checkInterval m |}) st in
                  let st :=
                    show {| o_title := API.name next +:+ " 即將開始";
                            o_body := API.subject next +:+ newline
                                      +:+ numToString minutesUntilStart
                                      +:+ " 分鐘後開始 (" +:+ API.start next +:+ ")";
                            o_icon := None; o_badge := None;
                            o_tag := Some ("class-reminder-" +:+ API.start next);
                            o_requireInteraction := Some true |} st in
                  ret (emit [TimeoutSet notificationKey
                               (num_mul (num_add minutesUntilStart (Num 1)) (Num 60000))] st)
              else ret st
        end
    end.

(** The callback of the timer that [checkUpcomingClasses] sets. *)
Definition timeoutFired (notificationKey : string) (st : World) : World :=
  set_this (λ m, {| permission := permission m; enabled := enabled m;
                    reminderMinutes := reminderMinutes m;
                    scheduledNotifications := scheduledNotifications m ∖ {[notificationKey]};
                    checkInterval := checkInterval m |}) st.

Definition startNotificationChecker (st : World) : Eff World :=
  let st := if checkInterval (this st) then emit [IntervalCleared] st else st in
  let st :=
    emit [IntervalSet 30000]
      (set_this (λ m, {| permission := permission m; enabled := enabled m;
                         reminderMinutes := reminderMinutes m;
                         scheduledNotifications := scheduledNotifications m;
                         checkInterval := true |}) st) in
  checkUpcomingClasses st.

Definition stopNotificationChecker (st : World) : World :=
  if checkInterval (this st)
  then emit [IntervalCleared]
         (set_this (λ m, {| permission := permission m; enabled := enabled m;
                            reminderMinutes := reminderMinutes m;
                            scheduledNotifications := scheduledNotifications m;
                            checkInterval := false |}) st)
  else st.

Definition clearAllScheduled (st : World) : World :=
  set_this (λ m, {| permission := permission m; enabled := enabled m;
                    reminderMinutes := reminderMinutes m;
                    scheduledNotifications := ∅;
                    checkInterval := checkInterval m |}) st.

Definition requestPermission (st : World) : Result * World :=
  if negb (supported b)
  then ({| r_success := false; r_permission := None;
           r_reason := Some "not-supported"; r_message := None |}, st)
  else if bool_decide (permission (this st) = "granted")
  then ({| r_success := true; r_permission := Some "granted";
           r_reason := None; r_message := None |}, st)
  else if bool_decide (permission (this st) = "denied")
  then ({| r_success := false; r_permission := None; r_reason := Some "denied";
           r_message := Some "通知權限已被拒絕，請在瀏覽器設定中開啟" |}, st)
  else
    match promptAnswer b with
    | inl result =>
        let st :=
          set_this (λ m, {| permission := result; enabled := enabled m;
                            reminderMinutes := reminderMinutes m;
                            scheduledNotifications := scheduledNotifications m;
                            checkInterval := checkInterval m |}) st in
        if bool_decide (result = "granted")
        then ({| r_success := true; r_permission := Some "granted";
                 r_reason := None; r_message := None |}, showTestNotification st)
        else ({| r_success := false; r_permission := None;
                 r_reason := Some result; r_message := None |}, st)
    | inr message =>
        ({| r_success := false; r_permission := None;
            r_reason := Some "error"; r_message := Some message |}, st)
    end.

Definition enable (st : World) : Eff (Result * World) :=
  let (permResult, st) := requestPermission st in
  if r_success permResult then
    let st :=
      set_this (λ m, {| permission := permission m; enabled := true;
                        reminderMinutes := reminderMinutes m;
                        scheduledNotifications := scheduledNotifications m;
                        checkInterval := checkInterval m |}) st in
    let st := setItem "notifications-enabled" "true" st in
    let* st := startNotificationChecker st in
    ret ({| r_success := true; r_permission := None;
            r_reason := None; r_message := None |}, st)
  else ret (permResult, st).

Definition disable (st : World) : World :=
  let st :=
    set_this (λ m, {| permission := permission m; enabled := false;
                      reminderMinutes := reminderMinutes m;
                      scheduledNotifications := scheduledNotifications m;
                      checkInterval := checkInterval m |}) st in
  let st := setItem "notifications-enabled" "false" st in
  let st := stopNotificationChecker st in
  clearAllScheduled st.

Definition setReminderTime (minutes : Number) (st : World) : World :=
  let st :=
    set_this (λ m, {| permission := permission m; enabled := enabled m;
                      reminderMinutes := num_max (Num 1) (num_min (Num 30) minutes);
                      scheduledNotifications := scheduledNotifications m;
                      checkInterval := checkInterval m |}) st in
  setItem "reminder-minutes" (numToString (reminderMinutes (this st))) st.

Definition notifySpecialSchedule (timetableType typeName : string) (st : World) : World :=
  if negb (enabled (this st)) || negb (bool_decide (permission (this st) = "granted"))
  then st
  else if negb (bool_decide (timetableType = "normal"))
          && negb (bool_decide (timetableType = "none"))
  then show {| o_title := "今日特殊時間表"; o_body := typeName;
               o_icon := None; o_badge := None;
               o_tag := Some "special-schedule"; o_requireInteraction := Some false |} st
  else st.

End methods.
End Notifications.

(** ** A reference host and a sample configuration

    The properties below hold for every host and every configuration.
    The host and the tables of this section, a sample in the shape of the
    data model around the dates 2025-12-15, 2025-12-19 and 2025-12-20,
    serve to run the program on concrete dates and times. *)

Module Ref.
Import JS.

(** A strict reader of [YYYY-MM-DDT00:00:00]: four, two and two digits
    that name a day of the calendar. *)
Definition isoParse (s : string) : option Z :=
  match split "T" s with
  | [d; "00:00:00"] =>
      match split "-" d with
      | [ys; ms; ds] =>
          if bool_decide (String.length ys = 4%nat) && bool_decide (String.length ms = 2%nat)
             && bool_decide (String.length ds = 2%nat)
             && all_digits ys && all_digits ms && all_digits ds
          then
            let y := default 0 (digits ys None) in
            let m := default 0 (digits ms None) in
            let d := default 0 (digits ds None) in
            let n := days_from_civil y m d in
            if bool_decide (civil_from_days n = (y, m, d)) then Some (n * msPerDay) else None
          else None
      | _ => None
      end
  | _ => None
  end.

(** The clock shows [t0] at the first reading and a millisecond more at
    each further one; strings are collated by code unit. *)
Definition host (t0 : Z) : Host :=
  {| clock := λ n, t0 + Z.of_nat n;
     parseDate := isoParse;
     localeCompare := String.compare |}.

(** A reader of [YYYY-MM-DDT00:00:00] that takes any day from 01 to 31
    in any month from 01 to 12 and counts the days on from the first of
    the month, as V8 does: 30 February is 2 March.  A host with this
    reader reads strings that name no day of the calendar. *)
Definition rollingParse (s : string) : option Z :=
  match split "T" s with
  | [d; "00:00:00"] =>
      match split "-" d with
      | [ys; ms; ds] =>
          if bool_decide (String.length ys = 4%nat) && bool_decide (String.length ms = 2%nat)
             && bool_decide (String.length ds = 2%nat)
             && all_digits ys && all_digits ms && all_digits ds
          then
            let y := default 0 (digits ys None) in
            let m := default 0 (digits ms None) in
            let d := default 0 (digits ds None) in
            if (1 <=? m) && (m <=? 12) && (1 <=? d) && (d <=? 31)
            then Some (days_from_civil y m d * msPerDay) else None
          else None
      | _ => None
      end
  | _ => None
  end.

Definition rollingHost (t0 : Z) : Host :=
  {| clock := λ n, t0 + Z.of_nat n;
     parseDate := rollingParse;
     localeCompare := String.compare |}.

(** The time value of [y-m-d] at [hh:mm:ss.ms]. *)
Definition at_ (y m d hh mm ss ms : Z) : Z :=
  days_from_civil y m d * msPerDay + hh * msPerHour + mm * msPerMinute + ss * 1000 + ms.

Definition slot (s e : string) : Period :=
  {| p_name := None; p_start := s; p_end := e |}.

Definition normalDay : Timetable :=
  {| preSchoolAssembly :=
       Some {| p_name := Some "朝會"; p_start := "08:15"; p_end := "08:40" |};
     periods := [ slot "08:40" "09:20"; slot "09:20" "10:00"; slot "10:20" "11:00" ];
     breaks := [ {| b_name := "小息"; b_start := "10:00"; b_end := "10:20" |} ] |}.

Definition fridayDay : Timetable :=
  {| preSchoolAssembly := None;
     periods := [ slot "08:30" "09:05"; slot "09:05" "09:40" ];
     breaks := [ {| b_name := "小息"; b_start := "09:40"; b_end := "09:55" |} ] |}.

(** Times that are valid, with three slots that start together: not a
    valid definition, but one on which the order among equal start times
    shows. *)
Definition tiedDay : Timetable :=
  {| preSchoolAssembly := Some (slot "08:40" "08:50");
     periods := [ slot "08:40" "09:20"; slot "08:00" "08:40" ];
     breaks := [ {| b_name := "小息"; b_start := "08:40"; b_end := "08:45" |} ] |}.

(** 2025-12-15 is a Monday, 2025-12-19 and 2025-12-12 are Fridays,
    2025-12-20 and 2025-12-13 are Saturdays, 2025-12-21 is a Sunday. *)
Definition globals : Globals :=
  {| TIMETABLE_DATA :=
       list_to_map [("normal", normalDay); ("specialB", fridayDay); ("specialC", fridayDay)];
     SUBJECT_SCHEDULE :=
       list_to_map [(6, list_to_map [(1, "ICT WKC 316"); (2, "MATH")]);
                    (2, list_to_map [(1, "ENG")])];
     DAY_ROTATION :=
       list_to_map [("2025-12-15", 6); ("2025-12-19", 2); ("2025-12-13", 3); ("2025-12-21", 4)];
     SPECIAL_DATES :=
       list_to_map [("2025-12-13", "C"); ("2025-12-16", "C")] |}.

Definition api : API.TimetableAPI := API.new globals.

(** A configuration whose only period ends a minute before midnight, for
    runs that cross the end of the day. *)
Definition lateDay : Timetable :=
  {| preSchoolAssembly := None; periods := [ slot "23:00" "23:59" ]; breaks := [] |}.

Definition lateApi : API.TimetableAPI :=
  API.new {| TIMETABLE_DATA := list_to_map [("normal", lateDay)];
             SUBJECT_SCHEDULE := ∅;
             DAY_ROTATION := list_to_map [("2025-12-15", 6)];
             SPECIAL_DATES := ∅ |}.

End Ref.

(** ** Vocabulary of the specification *)

Module Spec.
Import JS.

(** The hour and the minute that a string of two digits, a colon and two
    digits shows. *)
Definition clockOf (s : string) : option (Z * Z) :=
  match s with
  | String a (String b (String ":" (String c (String d EmptyString)))) =>
      match Ascii.is_nat a, Ascii.is_nat b, Ascii.is_nat c, Ascii.is_nat d with
      | Some a, Some b, Some c, Some d =>
          Some (Z.of_nat (10 * a + b), Z.of_nat (10 * c + d))
      | _, _, _, _ => None
      end
  | _ => None
  end.

(** A wall-clock time [HH:MM], 24-hour, zero-padded. *)
Definition validTime (s : string) : bool :=
  match clockOf s with
  | Some (hh, mm) => (hh <? 24) && (mm <? 60)
  | None => false
  end.

(** The time value of the wall-clock time [e] on the day of [now]. *)
Definition endOfSlotToday (now : Z) (e : string) : Z :=
  let '(hh, mm) := default (0, 0) (clockOf e) in
  Day now * msPerDay + hh * msPerHour + mm * msPerMinute.

(** Whole seconds from [now] to [e], none when [e] is past. *)
Definition remainingAt (e now : Z) : Z := Z.max 0 ((e - now) / 1000).

(** The pairs (start, end) of a definition: assembly, periods, breaks. *)
Definition slotsOf (tbl : Timetable) : list (string * string) :=
  option_list ((λ a, (p_start a, p_end a)) <$> preSchoolAssembly tbl)
  ++ ((λ p, (p_start p, p_end p)) <$> periods tbl)
  ++ ((λ b, (b_start b, b_end b)) <$> breaks tbl).

(** Every time of the definition is a valid time. *)
Definition timesWellFormed (tbl : Timetable) : bool :=
  forallb (λ x, validTime x.1 && validTime x.2) (slotsOf tbl).

(** Two slots do not overlap: one ends no later than the other starts. *)
Definition apart (x y : string * string) : bool :=
  str_le x.2 y.1 || str_le y.2 x.1.

Fixpoint pairwiseApart (l : list (string * string)) : bool :=
  match l with
  | [] => true
  | x :: l' => forallb (apart x) l' && pairwiseApart l'
  end.

(** The invariant of a definition: valid times, [start < end] for every
    slot, no two slots overlap. *)
Definition validTimetable (tbl : Timetable) : bool :=
  timesWellFormed tbl
  && forallb (λ x, str_lt x.1 x.2) (slotsOf tbl)
  && pairwiseApart (slotsOf tbl).

Definition validCatalog (m : gmap string Timetable) : bool :=
  forallb (λ x, validTimetable x.2) (map_to_list m).

(** On valid times the collation of the host is the order of the code
    units. *)
Definition collatesTimes (h : Host) : Prop :=
  ∀ a b, validTime a = true → validTime b = true →
         localeCompare h a b = String.compare a b.

(** The order of the catalog: the assembly if there is one, the periods
    numbered from 1 in the order of the definition, the breaks. *)
Definition catalogOrder (this : API.TimetableAPI) (tbl : Timetable) (dayCycle : option Z)
    : list API.ScheduleItem :=
  option_list (API.assemblyItem <$> preSchoolAssembly tbl)
  ++ imap (λ i p, API.periodItem this dayCycle p i) (periods tbl)
  ++ ((λ b, API.breakItem b 0) <$> breaks tbl).

Definition catalogOrderItems (w : Globals) (dayCycle : option Z) (tbl : Timetable)
    : list App.Item :=
  option_list (App.assemblyItem <$> preSchoolAssembly tbl)
  ++ imap (λ i p, App.periodItem w dayCycle p i) (periods tbl)
  ++ ((λ b, App.breakItem b 0) <$> breaks tbl).

(** The day record that [getCurrent] asks for when its first clock
    reading is the [n]-th, and the schedule in it. *)
Definition todayData (h : Host) (this : API.TimetableAPI) (n : nat) : Response API.DayData :=
  (API.getByDate h this (API.formatDateToISO (clock h n)) (S n)).1.

Definition todaySchedule (h : Host) (this : API.TimetableAPI) (n : nat) : list API.ScheduleItem :=
  from_option API.schedule [] (data (todayData h this n)).

(** [now] lies in the slot, both ends included. *)
Definition inSlot (now : string) (x : API.ScheduleItem) : Prop :=
  String.le (API.start x) now ∧ String.le now (API.end_ x).

(** A list is in ascending order of a key, for the order of the code
    units; equal keys are allowed. *)
Definition ascending {A} (key : A → string) (l : list A) : Prop :=
  StronglySorted (λ a b, String.le (key a) (key b)) l.

(** The elements of [l] whose key is [k], in the order of [l]. *)
Definition withKey {A} (key : A → string) (k : string) (l : list A) : list A :=
  filter (λ a, key a = k) l.

(** A schedule that is sorted and made of proper, valid, pairwise apart
    slots. *)
Definition wellFormedSchedule (sched : list API.ScheduleItem) : Prop :=
  ascending API.start sched
  ∧ pairwiseApart ((λ x, (API.start x, API.end_ x)) <$> sched) = true
  ∧ ∀ x, x ∈ sched →
         str_lt (API.start x) (API.end_ x) = true
         ∧ validTime (API.start x) = true ∧ validTime (API.end_ x) = true.

End Spec.

(** ** Further vocabulary *)

Module Vocab.
Import JS.

(** The number of elements of a schedule that have a given [type]. *)
Definition countOf (ty : string) (l : list API.ScheduleItem) : nat :=
  length (filter (λ x, API.type x = ty) l).

(** A slot starts after [now], strictly. *)
Definition startsAfter (now : string) (x : API.ScheduleItem) : Prop :=
  String.le now (API.start x) ∧ now ≠ API.start x.

(** The minute of the day that a valid time shows. *)
Definition minutesOfDay (s : string) : Z :=
  let '(hh, mm) := default (0, 0) (Spec.clockOf s) in hh * 60 + mm.

(** A slot of the query interface as the page describes one. *)
Definition infoOf (x : API.ScheduleItem) : Live.PeriodInfo :=
  {| Live.type := API.type x; Live.name := Some (API.name x);
     Live.start := API.start x; Live.end_ := API.end_ x;
     Live.subject := Some (API.subject x) |}.

(** The page's description [p] of a slot is that of the slot [x] of the
    query interface: the same type, name, start and end, and the same
    subject, except on the assembly, whose subject on the page is the
    [name] that the definition gives it, if any. *)
Definition sameSlot (tbl : Timetable) (p : Live.PeriodInfo) (x : API.ScheduleItem) : Prop :=
  Live.type p = API.type x
  ∧ Live.name p = Some (API.name x)
  ∧ Live.start p = API.start x
  ∧ Live.end_ p = API.end_ x
  ∧ (API.type x ≠ "assembly" → Live.subject p = Some (API.subject x))
  ∧ (API.type x = "assembly" →
     ∃ a, preSchoolAssembly tbl = Some a ∧ Live.subject p = p_name a).

(** The names of the properties that every object inherits from
    [Object.prototype].  Reading a table of the page at one of them gives
    the inherited member, which is truthy, not [undefined]; at every
    other string a table is read as the finite map of its own entries. *)
Definition inheritedNames : list string :=
  ["constructor"; "__proto__"; "hasOwnProperty"; "isPrototypeOf";
   "propertyIsEnumerable"; "toLocaleString"; "toString"; "valueOf";
   "__defineGetter__"; "__defineSetter__"; "__lookupGetter__"; "__lookupSetter__"].

(** The string is the name of no inherited property. *)
Definition ownNameOnly (k : string) : bool :=
  negb (bool_decide (k ∈ inheritedNames)).

(** One call of a method of the manager, or the firing of a timer that
    [checkUpcomingClasses] has set. *)
Inductive step (h : Host) (b : Notifications.Browser) (api : option API.TimetableAPI)
    : Notifications.World → Notifications.World → Prop :=
| step_show o st : step h b api st (Notifications.show o st)
| step_showTestNotification st : step h b api st (Notifications.showTestNotification st)
| step_checkUpcomingClasses st n :
    step h b api st (Notifications.checkUpcomingClasses h api st n).1
| step_timeoutFired key st : step h b api st (Notifications.timeoutFired key st)
| step_requestPermission st : step h b api st (Notifications.requestPermission b st).2
| step_enable st n : step h b api st (Notifications.enable h b api st n).1.2
| step_disable st : step h b api st (Notifications.disable st)
| step_setReminderTime minutes st : step h b api st (Notifications.setReminderTime minutes st)
| step_notifySpecialSchedule ty name st :
    step h b api st (Notifications.notifySpecialSchedule ty name st).

(** The world when the script has run: the manager as constructed from
    the storage, no event yet. *)
Definition loaded (b : Notifications.Browser) (storage : gmap string string)
    : Notifications.World :=
  {| Notifications.this := Notifications.constructor b storage;
     Notifications.localStorage := storage;
     Notifications.events := [] |}.

(** Notifications have been shown, keys are scheduled and the checker
    runs only with the permission granted, the last two only when
    enabled. *)
Definition consistent (st : Notifications.World) : Prop :=
  ((∃ e, Notifications.Shown e ∈ Notifications.events st) →
   Notifications.permission (Notifications.this st) = "granted")
  ∧ (Notifications.scheduledNotifications (Notifications.this st) ≠ ∅ →
     Notifications.enabled (Notifications.this st) = true
     ∧ Notifications.permission (Notifications.this st) = "granted")
  ∧ (Notifications.checkInterval (Notifications.this st) = true →
     Notifications.enabled (Notifications.this st) = true
     ∧ Notifications.permission (Notifications.this st) = "granted").

(** The number that a string of two decimal digits shows. *)
Definition twoDigits (s : string) : option Z :=
  match s with
  | String a (String b EmptyString) =>
      match Ascii.is_nat a, Ascii.is_nat b with
      | Some a, Some b => Some (Z.of_nat (10 * a + b))
      | _, _ => None
      end
  | _ => None
  end.

(** The number of seconds that a string of the form [HH:MM:SS] shows. *)
Definition secondsOf (s : string) : option Z :=
  match s with
  | String a (String b (String ":" (String c (String d (String ":"
      (String e (String f EmptyString))))))) =>
      match Ascii.is_nat a, Ascii.is_nat b, Ascii.is_nat c, Ascii.is_nat d,
            Ascii.is_nat e, Ascii.is_nat f with
        | Some a, Some b, Some c, Some d, Some e, Some f =>
          Some (Z.of_nat (10 * a + b) * 3600 + Z.of_nat (10 * c + d) * 60
                + Z.of_nat (10 * e + f))
      | _, _, _, _, _, _ => None
      end
  | _ => None
  end.

End Vocab.

(** * Properties *)

Import JS Spec.

(** ** Variant selection *)

Section variant.
Context (h : Host) (w : Globals).

Lemma orNull_Some_str (t : string) : t ≠ "" → orNull (Some t) = Some t.
Proof. by destruct t. Qed.

Lemma orNull_Some_Z (c : Z) : c ≠ 0 → orNull (Some c) = Some c.
Proof.
  intros Hc. unfold orNull, truthy, option_truthy, truthy, Z_truthy.
  by destruct (Z.eqb_spec c 0).
Qed.

(** What [getByDate] answers for a date that the host reads. *)
Lemma getByDate_type (dateStr : string) (t : Z) (n : nat) :
  parseDate h (dateStr +:+ "T00:00:00") = Some t →
  API.timetableType <$> data (API.getByDate h (API.new w) dateStr n).1
  = Some (API.resolveType (getDay t) (orNull (DAY_ROTATION w !! dateStr))
                          (orNull (SPECIAL_DATES w !! dateStr))).
Proof.
  intros Hp. unfold API.getByDate. rewrite Hp. cbn.
  by repeat case_match.
Qed.

End variant.

(** C1 — Override precedence.  For every date that the host reads and that
    has an entry in the special-date table (a tag, that is a non-empty
    string), both variant resolutions, [getTimetableTypeForDate] and the
    [timetableType] of [getByDate], return ["special"] followed by the tag.
    Nothing is assumed on the weekday of the date or on its day-cycle
    entry: the date may be a Friday, a Saturday or a Sunday, and may or may
    not have a day cycle. *)
Theorem override_precedence (h : Host) (w : Globals) (dateStr tag : string) (t : Z) :
  SPECIAL_DATES w !! dateStr = Some tag →
  tag ≠ "" →
  parseDate h (dateStr +:+ "T00:00:00") = Some t →
  App.getTimetableTypeForDate h w dateStr = "special" +:+ tag
  ∧ ∀ n, API.timetableType <$> data (API.getByDate h (API.new w) dateStr n).1
         = Some ("special" +:+ tag).
Proof.
  intros Hs Htag Hp. split.
  - unfold App.getTimetableTypeForDate. by rewrite Hs, orNull_Some_str.
  - intros n. rewrite (getByDate_type h w dateStr t n Hp).
    by rewrite Hs, orNull_Some_str.
Qed.

(** 2025-12-13 is a Saturday with a day-cycle entry and the override [C]. *)
Lemma override_precedence_witness :
  SPECIAL_DATES Ref.globals !! "2025-12-13" = Some "C"
  ∧ DAY_ROTATION Ref.globals !! "2025-12-13" = Some 3
  ∧ getDay <$> parseDate (Ref.host 0) "2025-12-13T00:00:00" = Some 6
  ∧ App.getTimetableTypeForDate (Ref.host 0) Ref.globals "2025-12-13" = "specialC"
  ∧ ∀ n, API.timetableType <$> data (API.getByDate (Ref.host 0) Ref.api "2025-12-13" n).1
         = Some "specialC".
Proof.
  split; [by vm_compute|]. split; [by vm_compute|]. split; [by vm_compute|].
  apply (override_precedence (Ref.host 0) Ref.globals "2025-12-13" "C" 1765584000000).
  - by vm_compute.
  - discriminate.
  - by vm_compute.
Defined.

(** C2, as stated, fails: 2025-12-12 is a Friday without an override, and
    without a day-cycle entry; both resolutions answer ["none"]. *)
Lemma friday_without_cycle_is_none :
  getDay <$> parseDate (Ref.host 0) "2025-12-12T00:00:00" = Some 5
  ∧ SPECIAL_DATES Ref.globals !! "2025-12-12" = None
  ∧ App.getTimetableTypeForDate (Ref.host 0) Ref.globals "2025-12-12" = "none"
  ∧ API.timetableType <$> data (API.getByDate (Ref.host 0) Ref.api "2025-12-12" 0%nat).1
    = Some "none"
  ∧ "none" ≠ "specialB".
Proof. repeat split; by vm_compute. Qed.

(** C2 — Friday rule, amended.  For every Friday that the host reads, that
    has no override and that has a day-cycle entry (a non-zero number),
    both variant resolutions return ["specialB"]. *)
Theorem friday_variant (h : Host) (w : Globals) (dateStr : string) (t c : Z) :
  parseDate h (dateStr +:+ "T00:00:00") = Some t →
  getDay t = 5 →
  SPECIAL_DATES w !! dateStr = None →
  DAY_ROTATION w !! dateStr = Some c →
  c ≠ 0 →
  App.getTimetableTypeForDate h w dateStr = "specialB"
  ∧ ∀ n, API.timetableType <$> data (API.getByDate h (API.new w) dateStr n).1
         = Some "specialB".
Proof.
  intros Hp Hd Hs Hc Hc0. split.
  - unfold App.getTimetableTypeForDate, App.isNonSchoolDay.
    rewrite Hs, Hp, Hd, Hc. cbn.
    unfold truthy, Z_truthy. by destruct (Z.eqb_spec c 0).
  - intros n. rewrite (getByDate_type h w dateStr t n Hp).
    rewrite Hs, Hc, orNull_Some_Z by done.
    unfold API.resolveType. rewrite Hd. cbn.
    unfold truthy, Z_truthy. by destruct (Z.eqb_spec c 0).
Qed.

Lemma friday_variant_witness :
  getDay <$> parseDate (Ref.host 0) "2025-12-19T00:00:00" = Some 5
  ∧ App.getTimetableTypeForDate (Ref.host 0) Ref.globals "2025-12-19" = "specialB"
  ∧ ∀ n, API.timetableType <$> data (API.getByDate (Ref.host 0) Ref.api "2025-12-19" n).1
         = Some "specialB".
Proof.
  split; [by vm_compute|].
  apply (friday_variant (Ref.host 0) Ref.globals "2025-12-19" 1766102400000 2).
  - by vm_compute.
  - by vm_compute.
  - by vm_compute.
  - by vm_compute.
  - lia.
Defined.

(** C3, as stated, fails: 2025-12-13 is a Saturday that carries the
    override [C]; both resolutions answer ["specialC"]. *)
Lemma overridden_saturday_is_special :
  getDay <$> parseDate (Ref.host 0) "2025-12-13T00:00:00" = Some 6
  ∧ App.getTimetableTypeForDate (Ref.host 0) Ref.globals "2025-12-13" = "specialC"
  ∧ API.timetableType <$> data (API.getByDate (Ref.host 0) Ref.api "2025-12-13" 0%nat).1
    = Some "specialC"
  ∧ "specialC" ≠ "none".
Proof. repeat split; by vm_compute. Qed.

(** C3 — Weekend rule, amended.  For every Saturday or Sunday that the
    host reads and that has no override, [isNonSchoolDay] holds and both
    variant resolutions return ["none"], whatever the day-cycle table
    says about the date. *)
Theorem weekend_without_override_is_none (h : Host) (w : Globals) (dateStr : string) (t : Z) :
  parseDate h (dateStr +:+ "T00:00:00") = Some t →
  getDay t = 0 ∨ getDay t = 6 →
  SPECIAL_DATES w !! dateStr = None →
  App.isNonSchoolDay h w dateStr = true
  ∧ App.getTimetableTypeForDate h w dateStr = "none"
  ∧ ∀ n, API.timetableType <$> data (API.getByDate h (API.new w) dateStr n).1
         = Some "none".
Proof.
  intros Hp Hd Hs.
  assert (Hw : (getDay t =? 0) || (getDay t =? 6) = true).
  { destruct Hd as [-> | ->]; done. }
  assert (Hn : App.isNonSchoolDay h w dateStr = true).
  { unfold App.isNonSchoolDay. by rewrite Hp, Hw. }
  split; [done|]. split.
  - unfold App.getTimetableTypeForDate. by rewrite Hs, Hn.
  - intros n. rewrite (getByDate_type h w dateStr t n Hp), Hs.
    unfold API.resolveType. cbn. by rewrite Hw.
Qed.

(** 2025-12-21 is a Sunday with a day-cycle entry and no override. *)
Lemma weekend_without_override_is_none_witness :
  DAY_ROTATION Ref.globals !! "2025-12-21" = Some 4
  ∧ App.isNonSchoolDay (Ref.host 0) Ref.globals "2025-12-21" = true
  ∧ App.getTimetableTypeForDate (Ref.host 0) Ref.globals "2025-12-21" = "none"
  ∧ ∀ n, API.timetableType <$> data (API.getByDate (Ref.host 0) Ref.api "2025-12-21" n).1
         = Some "none".
Proof.
  split; [by vm_compute|].
  apply (weekend_without_override_is_none (Ref.host 0) Ref.globals "2025-12-21" 1766275200000).
  - by vm_compute.
  - left. by vm_compute.
  - by vm_compute.
Defined.

(** ** The envelope of [getByDate] *)

(** C8 — Input error, amended.  For every string that the host does not
    read as a date, [getByDate] returns (it is a total function) the envelope with
    [success] false, the time stamp of the one clock reading it makes, no
    [data] (hence no date, schedule or variant field) and the message
    ["Invalid date format. Use YYYY-MM-DD"]. *)
Theorem invalid_date_envelope (h : Host) (this : API.TimetableAPI) (dateStr : string) (n : nat) :
  parseDate h (dateStr +:+ "T00:00:00") = None →
  API.getByDate h this dateStr n
  = ({| success := false; timestamp := clock h n; data := None;
        error := Some "Invalid date format. Use YYYY-MM-DD" |}, S n).
Proof. intros Hp. unfold API.getByDate. by rewrite Hp. Qed.

Lemma invalid_date_envelope_witness :
  parseDate (Ref.host 7) "2025-13-40T00:00:00" = None
  ∧ API.getByDate (Ref.host 7) Ref.api "2025-13-40" 0%nat
    = ({| success := false; timestamp := 7; data := None;
          error := Some "Invalid date format. Use YYYY-MM-DD" |}, 1%nat).
Proof.
  split; [by vm_compute|].
  apply (invalid_date_envelope (Ref.host 7) Ref.api "2025-13-40" 0%nat).
  by vm_compute.
Defined.

(** C8, as stated, fails on strings that are no valid date but that the
    host reads.  ["2025-02-30"] names no day of the calendar: the strict
    reader does not read it.  A host that counts the days on, as V8 does,
    reads it as Sunday 2 March 2025, and [getByDate] answers [success]
    true with the full record of a weekend, under the date
    ["2025-02-30"]. *)
Lemma february_30_is_read :
  Ref.isoParse "2025-02-30T00:00:00" = None
  ∧ parseDate (Ref.rollingHost 7) "2025-02-30T00:00:00" = Some (Ref.at_ 2025 3 2 0 0 0 0)
  ∧ ∃ d, API.getByDate (Ref.rollingHost 7) Ref.api "2025-02-30" 0%nat
         = ({| success := true; timestamp := 7; data := Some d; error := None |}, 1%nat)
         ∧ API.date d = "2025-02-30"
         ∧ API.dayOfWeekNumber d = 0
         ∧ API.isWeekend d = true
         ∧ API.timetableType d = "none"
         ∧ API.schedule d = [].
Proof.
  split; [by vm_compute|]. split; [by vm_compute|].
  eexists. split; [by vm_compute|]. repeat split; by vm_compute.
Qed.

(** C9 — Non-school day record.  For every date that the host reads and
    whose resolved variant is ["none"], [getByDate] returns [success] true
    with a day record in which [isSchoolDay] is false, the schedule is
    empty, the message is ["週末休息"] on a Saturday or Sunday and
    ["非上課日"] otherwise, and the [periods], [breaks] and
    [preSchoolAssembly] fields are absent. *)
Theorem non_school_day_record (h : Host) (this : API.TimetableAPI) (dateStr : string)
    (t : Z) (n : nat) :
  parseDate h (dateStr +:+ "T00:00:00") = Some t →
  API.timetableType <$> data (API.getByDate h this dateStr n).1 = Some "none" →
  ∃ d, API.getByDate h this dateStr n
       = ({| success := true; timestamp := clock h n; data := Some d; error := None |}, S n)
    ∧ API.isSchoolDay d = false
    ∧ API.isWeekend d = bool_decide (getDay t = 0 ∨ getDay t = 6)
    ∧ API.schedule d = []
    ∧ API.message d = Some (if API.isWeekend d then "週末休息" else "非上課日")
    ∧ API.d_periods d = None
    ∧ API.d_breaks d = None
    ∧ API.d_preSchoolAssembly d = None.
Proof.
  intros Hp. unfold API.getByDate. rewrite Hp. cbn.
  set (ty := API.resolveType _ _ _).
  assert (Hwk : (getDay t =? 0) || (getDay t =? 6) = bool_decide (getDay t = 0 ∨ getDay t = 6)).
  { destruct (Z.eqb_spec (getDay t) 0) as [->|?]; [done|].
    destruct (Z.eqb_spec (getDay t) 6) as [->|?]; [done|].
    cbn. symmetry. apply bool_decide_eq_false. lia. }
  intros Hty.
  assert (ty = "none") as Hnone.
  { revert Hty. by repeat case_match; cbn; intros [= ->]. }
  rewrite bool_decide_eq_true_2 by done. cbn.
  eexists. split; [reflexivity|]. cbn. by rewrite Hwk.
Qed.

(** 2025-12-20 is a Saturday without entries. *)
Lemma non_school_day_record_witness :
  ∃ d, API.getByDate (Ref.host 7) Ref.api "2025-12-20" 0%nat
       = ({| success := true; timestamp := 7; data := Some d; error := None |}, 1%nat)
    ∧ API.isSchoolDay d = false
    ∧ API.isWeekend d = bool_decide (getDay 1766188800000 = 0 ∨ getDay 1766188800000 = 6)
    ∧ API.schedule d = []
    ∧ API.message d = Some (if API.isWeekend d then "週末休息" else "非上課日")
    ∧ API.d_periods d = None
    ∧ API.d_breaks d = None
    ∧ API.d_preSchoolAssembly d = None.
Proof.
  apply (non_school_day_record (Ref.host 7) Ref.api "2025-12-20" 1766188800000 0%nat).
  - by vm_compute.
  - by vm_compute.
Defined.

(** ** The stable sort *)

Lemma compare_refl (s : string) : String.compare s s = Eq.
Proof.
  induction s as [|c s IH]; [done|]. cbn.
  unfold Ascii.compare. by rewrite N.compare_refl.
Qed.

Lemma compare_Gt_le (a b : string) : String.compare a b = Gt → String.le b a.
Proof.
  intros Hc. destruct (total String.le a b) as [Hab|]; [|done].
  unfold String.le, String.leb in Hab. by rewrite Hc in Hab.
Qed.

Lemma compare_not_Gt_le (a b : string) : String.compare a b ≠ Gt → String.le a b.
Proof. unfold String.le, String.leb. by destruct (String.compare a b). Qed.

Section comparator.
Context {A : Type}.

Lemma sortInsert_perm (c : A → A → comparison) (x : A) (l : list A) :
  sortInsert c x l ≡ₚ x :: l.
Proof.
  induction l as [|y l IH]; [done|]. cbn.
  destruct (c x y); [done..|]. rewrite IH. apply Permutation_swap.
Qed.

Lemma arraySort_perm (c : A → A → comparison) (l : list A) : arraySort c l ≡ₚ l.
Proof.
  induction l as [|x l IH]; [done|]. cbn. by rewrite sortInsert_perm, IH.
Qed.

(** The result depends on the comparator only through the pairs of
    elements of the list. *)
Lemma sortInsert_ext (c1 c2 : A → A → comparison) (x : A) (l : list A) :
  (∀ y, y ∈ l → c1 x y = c2 x y) → sortInsert c1 x l = sortInsert c2 x l.
Proof.
  induction l as [|y l IH]; intros Hc; [done|]. cbn.
  rewrite (Hc y) by set_solver. rewrite IH; [done|].
  intros z Hz. apply Hc. set_solver.
Qed.

Lemma arraySort_ext (c1 c2 : A → A → comparison) (l : list A) :
  (∀ x y, x ∈ l → y ∈ l → c1 x y = c2 x y) → arraySort c1 l = arraySort c2 l.
Proof.
  induction l as [|x l IH]; intros Hc; [done|]. cbn.
  rewrite IH by (intros; apply Hc; set_solver).
  apply sortInsert_ext. intros y Hy. apply Hc; [set_solver|].
  rewrite arraySort_perm in Hy. set_solver.
Qed.

End comparator.

Section sorting.
Context {A : Type} (key : A → string).

Let cmp (a b : A) : comparison := String.compare (key a) (key b).

Lemma sortInsert_ascending (x : A) (l : list A) :
  ascending key l → ascending key (sortInsert cmp x l).
Proof.
  unfold ascending. induction l as [|y l IH]; intros Hl; cbn.
  { repeat constructor. }
  apply StronglySorted_cons in Hl as [Hy Hl].
  destruct (cmp x y) eqn:Hc.
  - apply StronglySorted_cons. split; [|by apply StronglySorted_cons].
    assert (String.le (key x) (key y)) as Hxy.
    { apply compare_not_Gt_le. by unfold cmp in Hc; rewrite Hc. }
    constructor; [done|]. eapply Forall_impl; [exact Hy|].
    intros z Hz. cbn in Hz. by etrans.
  - apply StronglySorted_cons. split; [|by apply StronglySorted_cons].
    assert (String.le (key x) (key y)) as Hxy.
    { apply compare_not_Gt_le. by unfold cmp in Hc; rewrite Hc. }
    constructor; [done|]. eapply Forall_impl; [exact Hy|].
    intros z Hz. cbn in Hz. by etrans.
  - apply StronglySorted_cons. split; [|by apply IH].
    rewrite sortInsert_perm. constructor; [|done].
    by apply compare_Gt_le.
Qed.

Lemma arraySort_ascending (l : list A) : ascending key (arraySort cmp l).
Proof.
  induction l as [|x l IH]; cbn; [constructor|].
  by apply sortInsert_ascending.
Qed.

Lemma withKey_sortInsert (k : string) (x : A) (l : list A) :
  withKey key k (sortInsert cmp x l) = withKey key k (x :: l).
Proof.
  unfold withKey. induction l as [|y l IH]; [done|]. cbn.
  destruct (cmp x y) eqn:Hc; [done..|].
  assert (key x ≠ key y) as Hne.
  { intros He. unfold cmp in Hc. by rewrite He, compare_refl in Hc. }
  rewrite filter_cons, IH, !filter_cons.
  destruct (decide (key y = k)) as [Hy|Hy], (decide (key x = k)) as [Hx|Hx];
    [exfalso; apply Hne; by rewrite Hx, Hy | done..].
Qed.

Lemma withKey_arraySort (k : string) (l : list A) :
  withKey key k (arraySort cmp l) = withKey key k l.
Proof.
  induction l as [|x l IH]; [done|].
  change (arraySort cmp (x :: l)) with (sortInsert cmp x (arraySort cmp l)).
  rewrite withKey_sortInsert. unfold withKey in *.
  by rewrite !filter_cons, IH.
Qed.

End sorting.

Lemma forEachPush_imap {A B} (f : A → nat → B) (i : nat) (a : list A) (out : list B) :
  forEachPush f i a out = out ++ imap (λ j x, f x (i + j)%nat) a.
Proof.
  revert i out. induction a as [|x a IH]; intros i out; cbn.
  { by rewrite app_nil_r. }
  rewrite IH, <- app_assoc. cbn. rewrite Nat.add_0_r.
  do 2 f_equal. apply imap_ext. intros j y _. cbn. f_equal. lia.
Qed.

(** ** The schedule builder *)

Lemma slots_imap {A} (f : nat → Period → A) (sl : A → string * string) (l : list Period) :
  (∀ i p, sl (f i p) = (p_start p, p_end p)) →
  sl <$> imap f l = (λ p, (p_start p, p_end p)) <$> l.
Proof.
  revert f. induction l as [|p l IH]; intros f Hf; [done|].
  cbn. rewrite Hf. f_equal. apply IH. intros i q. apply Hf.
Qed.

Lemma imap_ignore {A B} (f : nat → A → B) (g : A → B) (l : list A) :
  (∀ j x, f j x = g x) → imap f l = g <$> l.
Proof. intros Hf. rewrite <- imap_const. apply imap_ext. intros j x _. apply Hf. Qed.

Lemma forallb_elem_of {A} (p : A → bool) (l : list A) (x : A) :
  forallb p l = true → x ∈ l → p x = true.
Proof.
  intros Hl Hx. apply list_elem_of_In in Hx.
  by apply (proj1 (forallb_forall p l) Hl).
Qed.

Section builder.
Context (h : Host) (this : API.TimetableAPI) (w : Globals).
Context (tbl : Timetable) (dayCycle : option Z).

Lemma buildSchedule_catalogOrder :
  API.buildSchedule h this tbl dayCycle
  = arraySort (API.byStart h) (catalogOrder this tbl dayCycle).
Proof.
  unfold API.buildSchedule, catalogOrder. rewrite !forEachPush_imap.
  rewrite (imap_ignore _ (λ b, API.breakItem b 0)), <- app_assoc by done.
  by destruct (preSchoolAssembly tbl).
Qed.

Lemma buildScheduleItems_catalogOrder :
  App.buildScheduleItems h w dayCycle tbl
  = arraySort (App.byStart h) (catalogOrderItems w dayCycle tbl).
Proof.
  unfold App.buildScheduleItems, catalogOrderItems. rewrite !forEachPush_imap.
  rewrite (imap_ignore _ (λ b, App.breakItem b 0)), <- app_assoc by done.
  by destruct (preSchoolAssembly tbl).
Qed.

Lemma catalogOrder_slots :
  (λ x, (API.start x, API.end_ x)) <$> catalogOrder this tbl dayCycle = slotsOf tbl.
Proof.
  unfold catalogOrder, slotsOf. rewrite !fmap_app. f_equal; [|f_equal].
  - by destruct (preSchoolAssembly tbl).
  - by apply slots_imap.
  - rewrite <- list_fmap_compose. by apply list_fmap_ext.
Qed.

Lemma catalogOrderItems_slots :
  (λ x, (App.start x, App.end_ x)) <$> catalogOrderItems w dayCycle tbl = slotsOf tbl.
Proof.
  unfold catalogOrderItems, slotsOf. rewrite !fmap_app. f_equal; [|f_equal].
  - by destruct (preSchoolAssembly tbl).
  - by apply slots_imap.
  - rewrite <- list_fmap_compose. by apply list_fmap_ext.
Qed.

Lemma catalogOrder_validTime (x : API.ScheduleItem) :
  timesWellFormed tbl = true → x ∈ catalogOrder this tbl dayCycle →
  validTime (API.start x) = true ∧ validTime (API.end_ x) = true.
Proof.
  intros Hwf Hx.
  apply (list_elem_of_fmap_2 (λ x, (API.start x, API.end_ x))) in Hx.
  rewrite catalogOrder_slots in Hx.
  apply (forallb_elem_of _ _ _ Hwf) in Hx. by apply andb_prop in Hx.
Qed.

Lemma catalogOrderItems_validTime (x : App.Item) :
  timesWellFormed tbl = true → x ∈ catalogOrderItems w dayCycle tbl →
  validTime (App.start x) = true ∧ validTime (App.end_ x) = true.
Proof.
  intros Hwf Hx.
  apply (list_elem_of_fmap_2 (λ x, (App.start x, App.end_ x))) in Hx.
  rewrite catalogOrderItems_slots in Hx.
  apply (forallb_elem_of _ _ _ Hwf) in Hx. by apply andb_prop in Hx.
Qed.

(** With times that the host collates by code unit, [schedule.sort] is
    the stable sort for the order of the code units of [start]. *)
Lemma buildSchedule_sorted :
  collatesTimes h → timesWellFormed tbl = true →
  API.buildSchedule h this tbl dayCycle
  = arraySort (λ a b, String.compare (API.start a) (API.start b))
              (catalogOrder this tbl dayCycle).
Proof.
  intros Hh Hwf. rewrite buildSchedule_catalogOrder.
  apply arraySort_ext. intros x y Hx Hy. unfold API.byStart.
  apply Hh; by eapply catalogOrder_validTime.
Qed.

Lemma buildScheduleItems_sorted :
  collatesTimes h → timesWellFormed tbl = true →
  App.buildScheduleItems h w dayCycle tbl
  = arraySort (λ a b, String.compare (App.start a) (App.start b))
              (catalogOrderItems w dayCycle tbl).
Proof.
  intros Hh Hwf. rewrite buildScheduleItems_catalogOrder.
  apply arraySort_ext. intros x y Hx Hy. unfold App.byStart.
  apply Hh; by eapply catalogOrderItems_validTime.
Qed.

End builder.

Lemma periodNumbers_imap (this : API.TimetableAPI) (dayCycle : option Z) (k : nat)
    (l : list Period) :
  omap API.periodNumber (imap (λ i p, API.periodItem this dayCycle p (k + i)) l)
  = seqZ (Z.of_nat k + 1) (Z.of_nat (length l)).
Proof.
  revert k. induction l as [|p l IH]; intros k; [done|].
  rewrite imap_cons, seqZ_cons by (cbn; lia). cbn [omap list_omap].
  cbn [API.periodNumber API.periodItem]. rewrite Nat.add_0_r. f_equal.
  rewrite (imap_ext _ (λ i p, API.periodItem this dayCycle p (S k + i))).
  - rewrite IH. f_equal; cbn [length]; lia.
  - intros i q _. cbn. f_equal. lia.
Qed.

Lemma catalogOrder_periodNumbers (this : API.TimetableAPI) (tbl : Timetable)
    (dayCycle : option Z) :
  omap API.periodNumber (catalogOrder this tbl dayCycle)
  = seqZ 1 (Z.of_nat (length (periods tbl))).
Proof.
  unfold catalogOrder. rewrite !omap_app.
  replace (omap API.periodNumber (option_list (API.assemblyItem <$> preSchoolAssembly tbl)))
    with (@nil Z) by (by destruct (preSchoolAssembly tbl)).
  replace (omap API.periodNumber ((λ b, API.breakItem b 0) <$> breaks tbl))
    with (@nil Z) by (by induction (breaks tbl)).
  rewrite app_nil_r. cbn [app].
  apply (periodNumbers_imap this dayCycle 0).
Qed.

(** C6 — Stable sort of the catalog order.  For every definition whose
    times are valid [HH:MM] strings (collated by the host as such),
    [buildSchedule] returns a rearrangement of the catalog order (the
    assembly if present, the periods numbered from 1 in definition order,
    the breaks) that is ascending in [start] for the order of the code
    units, and in which the slots of any one start time appear as they do
    in the catalog order.  The same holds of [buildScheduleItems].  The
    period numbers of the catalog order are 1, 2, ... up to the number of
    periods, and its times are those of the definition. *)
Theorem buildSchedule_stable_sort (h : Host) (this : API.TimetableAPI) (w : Globals)
    (tbl : Timetable) (dayCycle : option Z) :
  collatesTimes h →
  timesWellFormed tbl = true →
  (API.buildSchedule h this tbl dayCycle ≡ₚ catalogOrder this tbl dayCycle
   ∧ ascending API.start (API.buildSchedule h this tbl dayCycle)
   ∧ ∀ k, withKey API.start k (API.buildSchedule h this tbl dayCycle)
          = withKey API.start k (catalogOrder this tbl dayCycle))
  ∧ (App.buildScheduleItems h w dayCycle tbl ≡ₚ catalogOrderItems w dayCycle tbl
     ∧ ascending App.start (App.buildScheduleItems h w dayCycle tbl)
     ∧ ∀ k, withKey App.start k (App.buildScheduleItems h w dayCycle tbl)
            = withKey App.start k (catalogOrderItems w dayCycle tbl))
  ∧ omap API.periodNumber (catalogOrder this tbl dayCycle)
    = seqZ 1 (Z.of_nat (length (periods tbl)))
  ∧ (λ x, (API.start x, API.end_ x)) <$> catalogOrder this tbl dayCycle = slotsOf tbl
  ∧ (λ x, (App.start x, App.end_ x)) <$> catalogOrderItems w dayCycle tbl = slotsOf tbl.
Proof.
  intros Hh Hwf. split; [|split; [|split; [|split]]].
  - rewrite buildSchedule_sorted by done.
    split; [apply arraySort_perm|]. split; [apply arraySort_ascending|].
    intros k. apply withKey_arraySort.
  - rewrite buildScheduleItems_sorted by done.
    split; [apply arraySort_perm|]. split; [apply arraySort_ascending|].
    intros k. apply withKey_arraySort.
  - apply catalogOrder_periodNumbers.
  - apply catalogOrder_slots.
  - apply catalogOrderItems_slots.
Qed.

(** A definition with three slots that start at 08:40. *)
Lemma buildSchedule_stable_sort_witness :
  timesWellFormed Ref.tiedDay = true
  ∧ API.start <$> API.buildSchedule (Ref.host 0) Ref.api Ref.tiedDay (Some 6)
    = ["08:00"; "08:40"; "08:40"; "08:40"]
  ∧ API.type <$> API.buildSchedule (Ref.host 0) Ref.api Ref.tiedDay (Some 6)
    = ["period"; "assembly"; "period"; "break"]
  ∧ (API.buildSchedule (Ref.host 0) Ref.api Ref.tiedDay (Some 6)
       ≡ₚ catalogOrder Ref.api Ref.tiedDay (Some 6)
     ∧ ascending API.start (API.buildSchedule (Ref.host 0) Ref.api Ref.tiedDay (Some 6))
     ∧ ∀ k, withKey API.start k (API.buildSchedule (Ref.host 0) Ref.api Ref.tiedDay (Some 6))
            = withKey API.start k (catalogOrder Ref.api Ref.tiedDay (Some 6)))
  ∧ (App.buildScheduleItems (Ref.host 0) Ref.globals (Some 6) Ref.tiedDay
       ≡ₚ catalogOrderItems Ref.globals (Some 6) Ref.tiedDay
     ∧ ascending App.start (App.buildScheduleItems (Ref.host 0) Ref.globals (Some 6) Ref.tiedDay)
     ∧ ∀ k, withKey App.start k (App.buildScheduleItems (Ref.host 0) Ref.globals (Some 6) Ref.tiedDay)
            = withKey App.start k (catalogOrderItems Ref.globals (Some 6) Ref.tiedDay))
  ∧ omap API.periodNumber (catalogOrder Ref.api Ref.tiedDay (Some 6))
    = seqZ 1 (Z.of_nat (length (periods Ref.tiedDay)))
  ∧ (λ x, (API.start x, API.end_ x)) <$> catalogOrder Ref.api Ref.tiedDay (Some 6)
    = slotsOf Ref.tiedDay
  ∧ (λ x, (App.start x, App.end_ x)) <$> catalogOrderItems Ref.globals (Some 6) Ref.tiedDay
    = slotsOf Ref.tiedDay.
Proof.
  split; [by vm_compute|]. split; [by vm_compute|]. split; [by vm_compute|].
  apply (buildSchedule_stable_sort (Ref.host 0) Ref.api Ref.globals Ref.tiedDay (Some 6)).
  - intros a b _ _. reflexivity.
  - by vm_compute.
Defined.

(** *** The store *)

Lemma setArray_setArray (r : nat) (u v : list API.ScheduleItem) (st : Mem.Store) :
  Mem.setArray r v (Mem.setArray r u st) = Mem.setArray r v st.
Proof. unfold Mem.setArray. cbn. by rewrite insert_insert_eq. Qed.

Lemma push_setArray (r : nat) (v : list API.ScheduleItem) (x : API.ScheduleItem)
    (st : Mem.Store) :
  Mem.push r x (Mem.setArray r v st) = ((), Mem.setArray r (v ++ [x]) st).
Proof.
  unfold Mem.push. rewrite setArray_setArray. cbn. by rewrite lookup_insert_eq.
Qed.

Lemma sort_setArray (r : nat) (v : list API.ScheduleItem)
    (cmp : API.ScheduleItem → API.ScheduleItem → comparison) (st : Mem.Store) :
  Mem.sort r cmp (Mem.setArray r v st) = ((), Mem.setArray r (arraySort cmp v) st).
Proof.
  unfold Mem.sort. rewrite setArray_setArray. cbn. by rewrite lookup_insert_eq.
Qed.

(** A loop of pushes into the array [r] leaves the store as it was but
    for [r], which holds what [forEachPush] gives. *)
Lemma forEach_push {A} (f : A → nat → Mem.M ()) (g : A → nat → API.ScheduleItem)
    (r : nat) (st : Mem.Store) (a : list A) (i : nat) (v : list API.ScheduleItem) :
  (∀ x j u, f x j (Mem.setArray r u st) = ((), Mem.setArray r (u ++ [g x j]) st)) →
  Mem.forEach f i a (Mem.setArray r v st) = ((), Mem.setArray r (forEachPush g i a v) st).
Proof.
  intros Hf. revert i v. induction a as [|x a IH]; intros i v; [done|].
  cbn [Mem.forEach forEachPush]. unfold Mem.bind. by rewrite Hf, IH.
Qed.

(** A call of [buildSchedule]: the store is as before, but for one new
    array, which holds the sequence that the function [API.buildSchedule]
    gives for the definition read and the subject table of the store. *)
Lemma buildSchedule_run (h : Host) (this : API.TimetableAPI) (st : Mem.Store)
    (timetable : nat) (tbl : Timetable) (dayCycle : option Z) :
  Mem.definitions st !! timetable = Some tbl →
  API.subjectSchedule this = Mem.subjectSchedule st →
  Mem.buildSchedule h timetable dayCycle st
  = (fresh (dom (Mem.arrays st)),
     Mem.setArray (fresh (dom (Mem.arrays st)))
       (API.buildSchedule h this tbl dayCycle) st).
Proof.
  intros Hdef Hsub. unfold Mem.buildSchedule, API.buildSchedule.
  set (r := fresh (dom (Mem.arrays st))).
  unfold Mem.bind at 1. unfold Mem.newArray. fold r.
  unfold Mem.bind at 1. unfold Mem.field at 1. cbn [Mem.definitions Mem.setArray].
  rewrite Hdef. cbn [fmap option_fmap option_map].
  unfold Mem.bind at 1.
  set (v0 := match preSchoolAssembly tbl with
             | Some a => [] ++ [API.assemblyItem a]
             | None => []
             end).
  assert ((match preSchoolAssembly tbl with
           | Some a => Mem.push r (API.assemblyItem a)
           | None => Mem.ret ()
           end) (Mem.setArray r [] st) = ((), Mem.setArray r v0 st)) as ->.
  { unfold v0. destruct (preSchoolAssembly tbl); [by rewrite push_setArray|done]. }
  unfold Mem.bind at 1. unfold Mem.field at 1. cbn [Mem.definitions Mem.setArray].
  rewrite Hdef. cbn [fmap option_fmap option_map default].
  unfold Mem.bind at 1.
  rewrite (forEach_push _ (API.periodItem this dayCycle) r st (periods tbl) 0 v0).
  2:{ intros x j u. unfold Mem.bind, Mem.subjectOf. cbn [Mem.subjectSchedule Mem.setArray].
      rewrite push_setArray. unfold API.periodItem, API.subjectFor. by rewrite Hsub. }
  unfold Mem.bind at 1. unfold Mem.field at 1. cbn [Mem.definitions Mem.setArray].
  rewrite Hdef. cbn [fmap option_fmap option_map default].
  unfold Mem.bind at 1.
  rewrite (forEach_push _ API.breakItem r st (breaks tbl) 0).
  2:{ intros x j u. by rewrite push_setArray. }
  unfold Mem.bind at 1. by rewrite sort_setArray.
Qed.

(** C7 — Determinism and absence of side effects.  A call of
    [buildSchedule] on a definition of the store writes to one array
    only, which it creates: the definitions, the subject table and every
    array that was there are as before, and it reads no clock.  Two calls
    in a row with the same definition and day cycle return two different
    arrays that hold equal sequences; that sequence is the value of the
    function [API.buildSchedule] on the definition, for every instance
    with the subject table of the store, whatever its other tables. *)
Theorem buildSchedule_deterministic (h : Host) (st : Mem.Store) (timetable : nat)
    (tbl : Timetable) (dayCycle : option Z) :
  Mem.definitions st !! timetable = Some tbl →
  let run1 := Mem.buildSchedule h timetable dayCycle st in
  let run2 := Mem.buildSchedule h timetable dayCycle run1.2 in
  (∃ out, Mem.arrays run1.2 !! run1.1 = Some out
          ∧ Mem.arrays run2.2 !! run1.1 = Some out
          ∧ Mem.arrays run2.2 !! run2.1 = Some out
          ∧ ∀ this, API.subjectSchedule this = Mem.subjectSchedule st →
                    out = API.buildSchedule h this tbl dayCycle)
  ∧ run1.1 ≠ run2.1
  ∧ Mem.arrays st !! run1.1 = None
  ∧ Mem.arrays run1.2 !! run2.1 = None
  ∧ Mem.definitions run2.2 = Mem.definitions st
  ∧ Mem.subjectSchedule run2.2 = Mem.subjectSchedule st
  ∧ Mem.clockReads run2.2 = Mem.clockReads st
  ∧ (∀ a l, Mem.arrays st !! a = Some l → Mem.arrays run2.2 !! a = Some l).
Proof.
  intros Hdef run1 run2.
  set (this := {| API.timetableData := ∅; API.subjectSchedule := Mem.subjectSchedule st;
                  API.dayRotation := ∅; API.specialDates := ∅ |}).
  set (out := API.buildSchedule h this tbl dayCycle).
  set (r1 := fresh (dom (Mem.arrays st))).
  assert (run1 = (r1, Mem.setArray r1 out st)) as H1.
  { unfold run1. by apply buildSchedule_run. }
  set (st1 := Mem.setArray r1 out st).
  set (r2 := fresh (dom (Mem.arrays st1))).
  assert (run2 = (r2, Mem.setArray r2 out st1)) as H2.
  { unfold run2. rewrite H1. cbn [snd]. by apply buildSchedule_run. }
  assert (Mem.arrays st !! r1 = None) as Hf1.
  { apply not_elem_of_dom. apply is_fresh. }
  assert (Mem.arrays st1 !! r2 = None) as Hf2.
  { apply not_elem_of_dom. apply is_fresh. }
  assert (r1 ≠ r2) as Hne.
  { intros Heq. rewrite <- Heq in Hf2. unfold st1 in Hf2. cbn in Hf2.
    by rewrite lookup_insert_eq in Hf2. }
  rewrite H1, H2. cbn [fst snd]. split; [|split; [done|split; [done|split; [done|]]]].
  - exists out. unfold st1. cbn. split; [by rewrite lookup_insert_eq|].
    split; [rewrite lookup_insert_ne by (by apply not_eq_sym); by rewrite lookup_insert_eq|].
    split; [by rewrite lookup_insert_eq|].
    intros this' Hsub. unfold out, API.buildSchedule, API.byStart, API.periodItem, API.subjectFor.
    by rewrite Hsub.
  - repeat split; [done..|]. intros a l Ha.
    assert (r1 ≠ a) as Ha1 by (intros <-; by rewrite Hf1 in Ha).
    assert (Mem.arrays st1 !! a = Some l) as Ha'.
    { unfold st1. cbn. by rewrite lookup_insert_ne. }
    assert (r2 ≠ a) as Ha2 by (intros <-; by rewrite Hf2 in Ha').
    cbn. by rewrite lookup_insert_ne.
Qed.

(** A store with the definition of the normal day under the reference 0,
    an empty array under the reference 0 and three clock readings made:
    two calls in a row create two arrays that hold the schedule of the
    normal day, and leave the definition, the count of readings and the
    array that was there as they were. *)
Lemma buildSchedule_deterministic_witness :
  let st := {| Mem.definitions := {[ 0%nat := Ref.normalDay ]};
               Mem.subjectSchedule := SUBJECT_SCHEDULE Ref.globals;
               Mem.arrays := {[ 0%nat := [] ]};
               Mem.clockReads := 3 |} in
  let run1 := Mem.buildSchedule (Ref.host 0) 0 (Some 6) st in
  let run2 := Mem.buildSchedule (Ref.host 0) 0 (Some 6) run1.2 in
  Mem.definitions st !! 0%nat = Some Ref.normalDay
  ∧ (∃ out, Mem.arrays run2.2 !! run1.1 = Some out
            ∧ Mem.arrays run2.2 !! run2.1 = Some out
            ∧ out = API.buildSchedule (Ref.host 0) Ref.api Ref.normalDay (Some 6))
  ∧ run1.1 ≠ run2.1
  ∧ Mem.definitions run2.2 = Mem.definitions st
  ∧ Mem.clockReads run2.2 = 3%nat
  ∧ Mem.arrays run2.2 !! 0%nat = Some [].
Proof.
  intros st run1 run2. split; [done|].
  destruct (buildSchedule_deterministic (Ref.host 0) st 0 Ref.normalDay (Some 6))
    as ((out & _ & Ho1 & Ho2 & Hout) & Hne & _ & _ & Hdef & _ & Hclock & Hold); [done|].
  split; [|split; [done|split; [done|split; [done|by apply Hold]]]].
  exists out. split; [done|]. split; [done|]. by apply Hout.
Defined.

(** ** The period locator *)

Lemma getByDate_tick (h : Host) (this : API.TimetableAPI) (dateStr : string) (n : nat) :
  (API.getByDate h this dateStr n).2 = S n.
Proof.
  unfold API.getByDate. destruct (parseDate h _); [|done].
  cbn. by repeat case_match.
Qed.

Lemma firstMatch_Some {A} (p : A → bool) (l : list A) (x : A) :
  firstMatch p l = Some x →
  ∃ pre post, l = pre ++ x :: post ∧ p x = true ∧ Forall (λ y, p y = false) pre.
Proof.
  induction l as [|y l IH]; [done|]. cbn.
  destruct (p y) eqn:Hy.
  - intros [= ->]. by exists [], l.
  - intros (pre & post & -> & Hx & Hpre)%IH.
    exists (y :: pre), post. repeat split; [done|]. by constructor.
Qed.

Lemma firstMatch_None {A} (p : A → bool) (l : list A) :
  firstMatch p l = None → Forall (λ y, p y = false) l.
Proof.
  induction l as [|y l IH]; [by constructor|]. cbn.
  destruct (p y) eqn:Hy; [done|]. intros Hl. constructor; auto.
Qed.

Lemma firstMatch_is_Some {A} (p : A → bool) (l : list A) (x : A) :
  x ∈ l → p x = true → is_Some (firstMatch p l).
Proof.
  intros Hx Hp. destruct (firstMatch p l) eqn:Hf; [done|].
  apply firstMatch_None in Hf. rewrite Forall_forall in Hf.
  specialize (Hf x Hx). congruence.
Qed.

(** The result of [getCurrent] on a school day, field by field. *)
Lemma getCurrent_located (h : Host) (this : API.TimetableAPI) (n : nat) (d : API.LocatedData) :
  data (API.getCurrent h this n).1 = Some (API.Located d) →
  let now := clock h n in
  let cur := API.formatTimeForComparison now in
  let sched := todaySchedule h this n in
  API.lo_currentPeriod d
  = firstMatch (λ item, API.isTimeInRange cur (API.start item) (API.end_ item)) sched
  ∧ API.lo_nextPeriod d = firstMatch (λ item, str_gt (API.start item) cur) sched
  ∧ API.lo_status d = from_option API.type "free" (API.lo_currentPeriod d)
  ∧ API.lo_remainingSeconds d
    = (λ item, API.remaining
                 (setHours (clock h (S (S n)))
                    (parseInt (split ":" (API.end_ item) !! 0%nat))
                    (parseInt (split ":" (API.end_ item) !! 1%nat)))
                 now) <$> API.lo_currentPeriod d
  ∧ API.lo_remainingFormatted d
    = match API.lo_remainingSeconds d with
      | Some (Num z) => if truthy z then Some (API.formatSeconds z) else None
      | _ => None
      end.
Proof.
  unfold todaySchedule, todayData, API.getCurrent, bind, newDate.
  pose proof (getByDate_tick h this (API.formatDateToISO (clock h n)) (S n)) as Ht.
  destruct (API.getByDate h this (API.formatDateToISO (clock h n)) (S n)) as [td n'].
  cbn in Ht. subst n'. cbn.
  destruct (data td) as [dd|]; [|done].
  destruct (negb (success td) || negb (API.isSchoolDay dd)); [done|].
  cbn. destruct (firstMatch _ (API.schedule dd)) as [item|]; cbn.
  - intros [= <-]. done.
  - intros [= <-]. done.
Qed.

(** [getCurrent] always returns a [data]. *)
Lemma getCurrent_data (h : Host) (this : API.TimetableAPI) (n : nat) :
  ∃ c, data (API.getCurrent h this n).1 = Some c.
Proof.
  unfold API.getCurrent, bind, newDate.
  destruct (API.getByDate h this (API.formatDateToISO (clock h n)) (S n)) as [td n'].
  cbn. destruct (data td) as [dd|]; [|by eexists].
  destruct (negb (success td) || negb (API.isSchoolDay dd)); [by eexists|].
  cbn. destruct (firstMatch _ (API.schedule dd)); by eexists.
Qed.

(** The relational operators, as statements on the order of strings. *)
Lemma str_le_leb (a b : string) : str_le a b = String.leb a b.
Proof.
  unfold str_le, str_lt, String.ltb, String.leb.
  rewrite String.compare_antisym. by destruct (String.compare a b).
Qed.

Lemma str_le_le (a b : string) : str_le a b = true ↔ String.le a b.
Proof. rewrite str_le_leb. unfold String.le. by destruct (String.leb a b). Qed.

Lemma str_ge_le (a b : string) : str_ge a b = true ↔ String.le b a.
Proof. apply (str_le_le b a). Qed.

Lemma str_lt_le (a b : string) : str_lt a b = true → String.le a b.
Proof.
  unfold str_lt, String.ltb, String.le, String.leb.
  by destruct (String.compare a b).
Qed.

Lemma str_lt_not_le (a b : string) : str_lt a b = true → ¬ String.le b a.
Proof.
  unfold str_lt, String.ltb, String.le, String.leb.
  rewrite (String.compare_antisym a b).
  destruct (String.compare b a); cbn; [done..|tauto].
Qed.

Lemma isTimeInRange_inSlot (cur : string) (x : API.ScheduleItem) :
  API.isTimeInRange cur (API.start x) (API.end_ x) = true ↔ inSlot cur x.
Proof.
  unfold API.isTimeInRange, inSlot.
  by rewrite andb_true_iff, str_ge_le, str_le_le.
Qed.

Lemma isTimeInRange_not_inSlot (cur : string) (x : API.ScheduleItem) :
  API.isTimeInRange cur (API.start x) (API.end_ x) = false ↔ ¬ inSlot cur x.
Proof.
  rewrite <- isTimeInRange_inSlot.
  by destruct (API.isTimeInRange cur (API.start x) (API.end_ x)).
Qed.

(** Slots that are pairwise apart. *)
Lemma apart_sym (x y : string * string) : apart x y = apart y x.
Proof. unfold apart. apply orb_comm. Qed.

Lemma pairwiseApart_cons (x : string * string) (l : list (string * string)) :
  pairwiseApart (x :: l) = true
  ↔ (∀ y, y ∈ l → apart x y = true) ∧ pairwiseApart l = true.
Proof.
  cbn. rewrite andb_true_iff, forallb_forall.
  by setoid_rewrite <- list_elem_of_In.
Qed.

Lemma pairwiseApart_perm (l l' : list (string * string)) :
  l ≡ₚ l' → pairwiseApart l = true → pairwiseApart l' = true.
Proof.
  induction 1 as [|x l l' Hp IH|x y l|l l' l'' _ IH1 _ IH2]; [done|..].
  - rewrite !pairwiseApart_cons. intros [Hx Hl]. split; [|by apply IH].
    intros y Hy. apply Hx. by rewrite Hp.
  - rewrite !pairwiseApart_cons. intros (Hy & Hx & Hl).
    split; [|split; [|done]].
    + intros z [->|Hz]%elem_of_cons; [|by apply Hx].
      rewrite apart_sym. apply Hy. by left.
    + intros z Hz. apply Hy. by right.
  - auto.
Qed.

Lemma pairwiseApart_later (pre post : list (string * string)) (x y : string * string) :
  pairwiseApart (pre ++ x :: post) = true → y ∈ post → apart x y = true.
Proof.
  induction pre as [|z pre IH]; cbn [app].
  - rewrite pairwiseApart_cons. intros [Hx _]. apply Hx.
  - rewrite pairwiseApart_cons. intros [_ Hl]. by apply IH.
Qed.

(** In a sorted schedule of slots that are proper and pairwise apart, the
    slot that ends at [cur] is the first one that contains [cur]. *)
Lemma ending_slot_is_first (sched : list API.ScheduleItem) (cur : string) (a : API.ScheduleItem) :
  ascending API.start sched →
  pairwiseApart ((λ x, (API.start x, API.end_ x)) <$> sched) = true →
  a ∈ sched →
  str_lt (API.start a) (API.end_ a) = true →
  API.end_ a = cur →
  firstMatch (λ item, API.isTimeInRange cur (API.start item) (API.end_ item)) sched = Some a.
Proof.
  intros Hsort Hapart Ha Hlt He.
  assert (inSlot cur a) as Hin.
  { split; [rewrite <- He; by apply str_lt_le | by rewrite He]. }
  destruct (firstMatch_is_Some (λ item, API.isTimeInRange cur (API.start item) (API.end_ item))
              sched a Ha) as [m Hm].
  { by apply isTimeInRange_inSlot. }
  rewrite Hm. f_equal.
  apply firstMatch_Some in Hm as (pre & post & -> & Hmin & Hpre).
  apply isTimeInRange_inSlot in Hmin as [Hm1 Hm2].
  apply elem_of_app in Ha as [Ha|Ha].
  { rewrite Forall_forall in Hpre. apply Hpre, isTimeInRange_not_inSlot in Ha. done. }
  apply elem_of_cons in Ha as [->|Ha]; [done|]. exfalso.
  assert (¬ String.le cur (API.start a)) as Hno.
  { rewrite <- He. by apply str_lt_not_le. }
  rewrite fmap_app, fmap_cons in Hapart.
  apply (pairwiseApart_later _ _ _ (API.start a, API.end_ a)) in Hapart;
    [|by apply (list_elem_of_fmap_2 (λ x, (API.start x, API.end_ x)))].
  unfold apart in Hapart. cbn in Hapart.
  apply orb_true_iff in Hapart as [H1|H2].
  - apply str_le_le in H1. apply Hno. by trans (API.end_ m).
  - apply str_le_le in H2. rewrite He in H2.
    apply StronglySorted_app in Hsort as (_ & _ & Hsort).
    apply StronglySorted_cons in Hsort as [Hsort _].
    rewrite Forall_forall in Hsort. specialize (Hsort a Ha). cbn in Hsort.
    apply Hno. by trans (API.start m).
Qed.

(** ** Wall-clock times *)

Lemma digit_not_colon (c : ascii) (k : nat) :
  Ascii.is_nat c = Some k → Ascii.eqb c ":" = false.
Proof. by destruct c as [[] [] [] [] [] [] [] []]. Qed.

(** What [parseTimeToDate] reads in a string of the form [HH:MM]. *)
Lemma parseInt_clockOf (s : string) (hh mm : Z) :
  clockOf s = Some (hh, mm) →
  parseInt (split ":" s !! 0%nat) = Num hh ∧ parseInt (split ":" s !! 1%nat) = Num mm.
Proof.
  destruct s as [|a [|b [|c0 [|c [|d [|]]]]]]; unfold clockOf; try done;
    destruct c0 as [[] [] [] [] [] [] [] []]; try done.
  destruct (Ascii.is_nat a) as [ka|] eqn:Ha; [|done].
  destruct (Ascii.is_nat b) as [kb|] eqn:Hb; [|done].
  destruct (Ascii.is_nat c) as [kc|] eqn:Hc; [|done].
  destruct (Ascii.is_nat d) as [kd|] eqn:Hd; [|done].
  intros [= <- <-]. unfold split. cbn [split_go].
  rewrite (digit_not_colon a ka Ha), (digit_not_colon b kb Hb).
  change (Ascii.eqb ":" ":") with true. cbn [split_go].
  rewrite (digit_not_colon c kc Hc), (digit_not_colon d kd Hd).
  cbn. rewrite Ha, Hb, Hc, Hd. cbn. split; f_equal; lia.
Qed.

Lemma clockOf_format_all :
  forallb (λ hh, forallb (λ mm,
      bool_decide (clockOf (padStart 2 "0" (toString hh) +:+ ":" +:+ padStart 2 "0" (toString mm))
                   = Some (hh, mm)))
    (seqZ 0 60)) (seqZ 0 24) = true.
Proof. by vm_compute. Qed.

Lemma clockOf_format (hh mm : Z) :
  0 ≤ hh < 24 → 0 ≤ mm < 60 →
  clockOf (padStart 2 "0" (toString hh) +:+ ":" +:+ padStart 2 "0" (toString mm)) = Some (hh, mm).
Proof.
  intros Hh Hm. pose proof clockOf_format_all as Hall.
  apply (forallb_elem_of _ _ hh) in Hall; [|apply elem_of_seqZ; lia].
  apply (forallb_elem_of _ _ mm) in Hall; [|apply elem_of_seqZ; lia].
  by apply bool_decide_eq_true in Hall.
Qed.

Lemma getHours_range (t : Z) : 0 ≤ getHours t < 24.
Proof. unfold getHours. apply Z.mod_pos_bound. lia. Qed.

Lemma getMinutes_range (t : Z) : 0 ≤ getMinutes t < 60.
Proof. unfold getMinutes. apply Z.mod_pos_bound. lia. Qed.

Lemma clockOf_toTimeString5 (t : Z) :
  clockOf (toTimeString5 t) = Some (getHours t, getMinutes t).
Proof. apply clockOf_format; [apply getHours_range | apply getMinutes_range]. Qed.

Lemma validTime_toTimeString5 (t : Z) : validTime (toTimeString5 t) = true.
Proof.
  unfold validTime. rewrite clockOf_toTimeString5.
  pose proof (getHours_range t). pose proof (getMinutes_range t).
  apply andb_true_iff. split; apply Z.ltb_lt; lia.
Qed.

(** A time value is its day, its hour, its minute and what is left of
    the minute. *)
Lemma time_value_split (t : Z) :
  t = Day t * msPerDay + getHours t * msPerHour + getMinutes t * msPerMinute
      + t mod msPerMinute.
Proof.
  unfold Day, getHours, getMinutes, msPerDay, msPerHour, msPerMinute.
  Z.div_mod_to_equations. lia.
Qed.

Lemma setHours_Num (t hh mm : Z) :
  setHours t (Num hh) (Num mm) = Num (Day t * msPerDay + hh * msPerHour + mm * msPerMinute).
Proof. unfold setHours. cbn. f_equal. lia. Qed.

Lemma remaining_Num (e now : Z) : API.remaining (Num e) now = Num (remainingAt e now).
Proof. done. Qed.

(** ** The schedule of today *)

Lemma getByDate_schedule (h : Host) (this : API.TimetableAPI) (dateStr : string) (n : nat)
    (d : API.DayData) :
  data (API.getByDate h this dateStr n).1 = Some d →
  API.schedule d = []
  ∨ ∃ tbl, API.timetableData this !! API.timetableType d = Some tbl
           ∧ API.schedule d = API.buildSchedule h this tbl (API.dayCycle d).
Proof.
  unfold API.getByDate. destruct (parseDate h _); [|done]. cbn.
  destruct (negb _); [|intros [= <-]; by left].
  destruct (API.timetableData this !! _) as [tbl|] eqn:Ht; intros [= <-]; cbn.
  - right. by exists tbl.
  - by left.
Qed.

Lemma todaySchedule_cases (h : Host) (this : API.TimetableAPI) (n : nat) :
  todaySchedule h this n = []
  ∨ ∃ ty tbl dc, API.timetableData this !! ty = Some tbl
                 ∧ todaySchedule h this n = API.buildSchedule h this tbl dc.
Proof.
  unfold todaySchedule, todayData.
  destruct (data _) as [d|] eqn:Hd; [|by left].
  apply getByDate_schedule in Hd as [Hd|(tbl & Ht & Hd)]; [by left|].
  right. by exists (API.timetableType d), tbl, (API.dayCycle d).
Qed.

Lemma validCatalog_lookup (m : gmap string Timetable) (ty : string) (tbl : Timetable) :
  validCatalog m = true → m !! ty = Some tbl → validTimetable tbl = true.
Proof.
  intros Hm Ht. apply elem_of_map_to_list in Ht.
  by apply (forallb_elem_of _ _ _ Hm) in Ht.
Qed.

Lemma buildSchedule_wellFormed (h : Host) (this : API.TimetableAPI) (tbl : Timetable)
    (dayCycle : option Z) :
  collatesTimes h → validTimetable tbl = true →
  wellFormedSchedule (API.buildSchedule h this tbl dayCycle).
Proof.
  intros Hh Hv. unfold validTimetable in Hv.
  apply andb_prop in Hv as [Hv Hapart]. apply andb_prop in Hv as [Hwf Hlt].
  assert (API.buildSchedule h this tbl dayCycle ≡ₚ catalogOrder this tbl dayCycle) as Hp.
  { rewrite buildSchedule_catalogOrder. apply arraySort_perm. }
  split; [|split].
  - rewrite buildSchedule_sorted by done. apply arraySort_ascending.
  - eapply pairwiseApart_perm; [|exact Hapart].
    rewrite <- (catalogOrder_slots this tbl dayCycle). by rewrite Hp.
  - intros x Hx. rewrite Hp in Hx.
    split; [|by eapply catalogOrder_validTime].
    apply (list_elem_of_fmap_2 (λ x, (API.start x, API.end_ x))) in Hx.
    rewrite catalogOrder_slots in Hx.
    by apply (forallb_elem_of _ _ _ Hlt) in Hx.
Qed.

Lemma todaySchedule_wellFormed (h : Host) (this : API.TimetableAPI) (n : nat) :
  collatesTimes h → validCatalog (API.timetableData this) = true →
  wellFormedSchedule (todaySchedule h this n).
Proof.
  intros Hh Hc.
  destruct (todaySchedule_cases h this n) as [->|(ty & tbl & dc & Ht & ->)].
  - split; [constructor|]. split; [done|]. intros x Hx. by apply elem_of_nil in Hx.
  - apply buildSchedule_wellFormed; [done|]. by eapply validCatalog_lookup.
Qed.

Lemma remainingAt_past (e now : Z) : e ≤ now → remainingAt e now = 0.
Proof.
  intros He. unfold remainingAt.
  assert ((e - now) / 1000 ≤ 0); [|lia].
  Z.div_mod_to_equations. lia.
Qed.

(** During the minute that a slot ends, nothing remains of it. *)
Lemma remaining_at_end (now today : Z) (e : string) :
  e = toTimeString5 now → Day today = Day now →
  API.remaining (setHours today (parseInt (split ":" e !! 0%nat))
                   (parseInt (split ":" e !! 1%nat))) now
  = Num 0.
Proof.
  intros -> Hd.
  destruct (parseInt_clockOf _ _ _ (clockOf_toTimeString5 now)) as [-> ->].
  rewrite setHours_Num, remaining_Num, Hd. f_equal.
  apply remainingAt_past.
  pose proof (time_value_split now).
  assert (0 ≤ now mod msPerMinute); [|lia].
  apply Z.mod_pos_bound. unfold msPerMinute. lia.
Qed.

(** C4 — Inclusive containment.  On a school day, with a catalog of valid
    definitions, the schedule that [getCurrent] walks is ascending in
    [start], and the current slot is the first slot [x] of it with
    [start x <= now <= end x], where [now] is the [HH:MM] of the clock; it
    is [null] exactly when no slot contains [now].  When [now] is the end
    of a slot [a] and the start of a slot [b], the current slot is [a]
    (and not [b]), and [remainingSeconds] is [0] (the date read by
    [parseTimeToDate] being of the same day). *)
Theorem current_slot_inclusive (h : Host) (this : API.TimetableAPI) (n : nat)
    (d : API.LocatedData) :
  collatesTimes h →
  validCatalog (API.timetableData this) = true →
  data (API.getCurrent h this n).1 = Some (API.Located d) →
  let cur := API.formatTimeForComparison (clock h n) in
  let sched := todaySchedule h this n in
  ascending API.start sched
  ∧ match API.lo_currentPeriod d with
    | Some x => ∃ pre post, sched = pre ++ x :: post ∧ inSlot cur x
                            ∧ Forall (λ y, ¬ inSlot cur y) pre
    | None => Forall (λ y, ¬ inSlot cur y) sched
    end
  ∧ ∀ a b, a ∈ sched → b ∈ sched → API.end_ a = cur → API.start b = cur →
      API.lo_currentPeriod d = Some a
      ∧ a ≠ b
      ∧ (Day (clock h (S (S n))) = Day (clock h n) →
         API.lo_remainingSeconds d = Some (Num 0)).
Proof.
  intros Hh Hc Hd cur sched.
  destruct (getCurrent_located h this n d Hd) as (Hcur & _ & _ & Hrem & _).
  destruct (todaySchedule_wellFormed h this n Hh Hc) as (Hsort & Hapart & Hok).
  fold sched in Hcur, Hsort, Hapart, Hok. fold cur in Hcur.
  split; [done|]. split.
  - rewrite Hcur. destruct (firstMatch _ sched) as [x|] eqn:Hf.
    + apply firstMatch_Some in Hf as (pre & post & Hs & Hx & Hpre).
      exists pre, post. split; [done|]. split; [by apply isTimeInRange_inSlot|].
      eapply Forall_impl; [exact Hpre|]. intros y Hy. by apply isTimeInRange_not_inSlot.
    + apply firstMatch_None in Hf.
      eapply Forall_impl; [exact Hf|]. intros y Hy. by apply isTimeInRange_not_inSlot.
  - intros a b Ha Hb Hea Hsb.
    destruct (Hok a Ha) as (Hlt & _ & _).
    assert (API.lo_currentPeriod d = Some a) as Hca.
    { rewrite Hcur. by apply ending_slot_is_first. }
    split; [done|]. split.
    + intros ->. apply str_lt_not_le in Hlt. apply Hlt. by rewrite Hea, Hsb.
    + intros Hday. rewrite Hrem, Hca. cbn. f_equal.
      by apply remaining_at_end.
Qed.

(** Monday 2025-12-15 at 09:20:30: the first period ends at 09:20, the
    second one starts at 09:20. *)
Lemma current_slot_inclusive_witness :
  let t := Ref.at_ 2025 12 15 9 20 30 0 in
  let a := API.periodItem Ref.api (Some 6) (Ref.slot "08:40" "09:20") 0%nat in
  let b := API.periodItem Ref.api (Some 6) (Ref.slot "09:20" "10:00") 1%nat in
  ∃ d, data (API.getCurrent (Ref.host t) Ref.api 0%nat).1 = Some (API.Located d)
       ∧ API.formatTimeForComparison (clock (Ref.host t) 0%nat) = "09:20"
       ∧ API.lo_currentPeriod d = Some a
       ∧ a ≠ b
       ∧ API.lo_remainingSeconds d = Some (Num 0).
Proof.
  intros t a b. eexists. split; [by vm_compute|]. split; [by vm_compute|].
  edestruct (current_slot_inclusive (Ref.host t) Ref.api 0%nat) as (_ & _ & Hab).
  - intros x y _ _. reflexivity.
  - by vm_compute.
  - by vm_compute.
  - destruct (Hab a b) as (Ha & Hne & Hrem).
    + apply (list_elem_of_lookup_2 _ 1%nat). by vm_compute.
    + apply (list_elem_of_lookup_2 _ 2%nat). by vm_compute.
    + by vm_compute.
    + by vm_compute.
    + split; [exact Ha|]. split; [exact Hne|]. apply Hrem. by vm_compute.
Defined.

(** ** Remaining time *)

Lemma catalogOrder_type (this : API.TimetableAPI) (tbl : Timetable) (dayCycle : option Z)
    (x : API.ScheduleItem) :
  x ∈ catalogOrder this tbl dayCycle →
  API.type x = "assembly" ∨ API.type x = "period" ∨ API.type x = "break".
Proof.
  unfold catalogOrder. rewrite !elem_of_app.
  intros [Hx|[Hx|Hx]].
  - destruct (preSchoolAssembly tbl); cbn in Hx; [|by apply elem_of_nil in Hx].
    apply list_elem_of_singleton in Hx as ->. by left.
  - apply elem_of_lookup_imap in Hx as (i & p & -> & _). right. by left.
  - apply list_elem_of_fmap in Hx as (b & -> & _). right. by right.
Qed.

Lemma todaySchedule_type (h : Host) (this : API.TimetableAPI) (n : nat) (x : API.ScheduleItem) :
  x ∈ todaySchedule h this n →
  API.type x = "assembly" ∨ API.type x = "period" ∨ API.type x = "break".
Proof.
  destruct (todaySchedule_cases h this n) as [->|(ty & tbl & dc & _ & ->)].
  - intros Hx. by apply elem_of_nil in Hx.
  - rewrite buildSchedule_catalogOrder, arraySort_perm. apply catalogOrder_type.
Qed.

Lemma firstMatch_elem_of {A} (p : A → bool) (l : list A) (x : A) :
  firstMatch p l = Some x → x ∈ l.
Proof. intros (pre & post & -> & _)%firstMatch_Some. set_solver. Qed.

Lemma remainingAt_nonneg (e now : Z) : 0 ≤ remainingAt e now.
Proof. unfold remainingAt. lia. Qed.

Lemma remainingAt_mono (e now1 now2 : Z) :
  now1 ≤ now2 → remainingAt e now2 ≤ remainingAt e now1.
Proof.
  intros Hn. unfold remainingAt.
  assert ((e - now2) / 1000 ≤ (e - now1) / 1000); [|lia].
  apply Z.div_le_mono; lia.
Qed.

Lemma remainingAt_strict (e now1 now2 : Z) :
  now1 + 1000 ≤ now2 → 0 < remainingAt e now1 →
  remainingAt e now2 < remainingAt e now1.
Proof.
  unfold remainingAt. intros Hn Hpos.
  assert ((e - now2) / 1000 ≤ (e - now1) / 1000 - 1); [|lia].
  Z.div_mod_to_equations. lia.
Qed.

(** C5, as stated, fails on "strictly decreasing".  On Monday 2025-12-15
    the first period (08:40 to 09:20) is the current slot at 09:19:30.100
    and at 09:19:30.600, with 29 seconds remaining at both instants; it
    still is the current slot at 09:20:10 and at 09:20:40, with 0 seconds
    remaining at both. *)
Lemma remaining_seconds_plateau :
  let p1 := API.periodItem Ref.api (Some 6) (Ref.slot "08:40" "09:20") 0%nat in
  let run t := data (API.getCurrent (Ref.host t) Ref.api 0%nat).1 in
  Ref.at_ 2025 12 15 9 19 30 100 < Ref.at_ 2025 12 15 9 19 30 600
  ∧ API.currentPeriod <$> run (Ref.at_ 2025 12 15 9 19 30 100) = Some (Some p1)
  ∧ API.currentPeriod <$> run (Ref.at_ 2025 12 15 9 19 30 600) = Some (Some p1)
  ∧ API.remainingSeconds <$> run (Ref.at_ 2025 12 15 9 19 30 100) = Some (Some (Num 29))
  ∧ API.remainingSeconds <$> run (Ref.at_ 2025 12 15 9 19 30 600) = Some (Some (Num 29))
  ∧ Ref.at_ 2025 12 15 9 20 10 0 < Ref.at_ 2025 12 15 9 20 40 0
  ∧ API.currentPeriod <$> run (Ref.at_ 2025 12 15 9 20 10 0) = Some (Some p1)
  ∧ API.currentPeriod <$> run (Ref.at_ 2025 12 15 9 20 40 0) = Some (Some p1)
  ∧ API.remainingSeconds <$> run (Ref.at_ 2025 12 15 9 20 10 0) = Some (Some (Num 0))
  ∧ API.remainingSeconds <$> run (Ref.at_ 2025 12 15 9 20 40 0) = Some (Some (Num 0)).
Proof. repeat split; by vm_compute. Qed.

Lemma endOfSlotToday_day (now now' : Z) (e : string) :
  Day now' = Day now → endOfSlotToday now' e = endOfSlotToday now e.
Proof. unfold endOfSlotToday. by intros ->. Qed.

(** The value of [remainingSeconds] when there is a current slot. *)
Lemma remainingSeconds_value (h : Host) (this : API.TimetableAPI) (n : nat)
    (c : API.CurrentData) (x : API.ScheduleItem) :
  collatesTimes h →
  validCatalog (API.timetableData this) = true →
  data (API.getCurrent h this n).1 = Some c →
  API.currentPeriod c = Some x →
  ∃ z, API.remainingSeconds c = Some (Num z) ∧ 0 ≤ z
       ∧ (Day (clock h (S (S n))) = Day (clock h n) →
          z = remainingAt (endOfSlotToday (clock h n) (API.end_ x)) (clock h n)).
Proof.
  intros Hh Hc Hd Hx. destruct c as [d|d]; [done|]. cbn in Hx |- *.
  destruct (getCurrent_located h this n d Hd) as (Hcur & _ & _ & -> & _).
  rewrite Hx in Hcur |- *. cbn.
  symmetry in Hcur. apply firstMatch_elem_of in Hcur.
  destruct (todaySchedule_wellFormed h this n Hh Hc) as (_ & _ & Hok).
  destruct (Hok x Hcur) as (_ & _ & Hv).
  unfold validTime in Hv. unfold endOfSlotToday.
  destruct (clockOf (API.end_ x)) as [[hh mm]|] eqn:Hck; [|done].
  destruct (parseInt_clockOf _ _ _ Hck) as [-> ->].
  rewrite setHours_Num, remaining_Num. eexists. split; [done|].
  split; [apply remainingAt_nonneg|]. cbn. by intros ->.
Qed.

(** The value of [remainingSeconds] with a current slot, whatever the
    days of the clock readings: the end of the slot is taken on the day
    of the reading that [parseTimeToDate] makes, the third of the call. *)
Lemma remainingSeconds_formula (h : Host) (this : API.TimetableAPI) (n : nat)
    (c : API.CurrentData) (x : API.ScheduleItem) :
  collatesTimes h →
  validCatalog (API.timetableData this) = true →
  data (API.getCurrent h this n).1 = Some c →
  API.currentPeriod c = Some x →
  API.remainingSeconds c
  = Some (Num (remainingAt (endOfSlotToday (clock h (S (S n))) (API.end_ x)) (clock h n))).
Proof.
  intros Hh Hc Hd Hx. destruct c as [d|d]; [done|]. cbn in Hx |- *.
  destruct (getCurrent_located h this n d Hd) as (Hcur & _ & _ & -> & _).
  rewrite Hx in Hcur |- *. cbn.
  symmetry in Hcur. apply firstMatch_elem_of in Hcur.
  destruct (todaySchedule_wellFormed h this n Hh Hc) as (_ & _ & Hok).
  destruct (Hok x Hcur) as (_ & _ & Hv).
  unfold validTime in Hv. unfold endOfSlotToday.
  destruct (clockOf (API.end_ x)) as [[hh mm]|] eqn:Hck; [|done].
  destruct (parseInt_clockOf _ _ _ Hck) as [-> ->].
  by rewrite setHours_Num, remaining_Num.
Qed.

(** The three same-day conditions of C5 cannot be dropped.  With a
    period from 23:00 to 23:59 on Monday 2025-12-15, [remainingSeconds]
    is 1 at 23:58:59 and 0 at 23:59:30; in a call at 23:59:59.998, whose
    third reading of the clock is of Tuesday, the end of the slot is
    taken on Tuesday and [remainingSeconds] is 86340. *)
Lemma remaining_seconds_over_midnight :
  let run t := API.remainingSeconds <$> data (API.getCurrent (Ref.host t) Ref.lateApi 0%nat).1 in
  run (Ref.at_ 2025 12 15 23 58 59 0) = Some (Some (Num 1))
  ∧ run (Ref.at_ 2025 12 15 23 59 30 0) = Some (Some (Num 0))
  ∧ run (Ref.at_ 2025 12 15 23 59 59 998) = Some (Some (Num 86340))
  ∧ Day (clock (Ref.host (Ref.at_ 2025 12 15 23 59 59 998)) 2%nat)
    = Day (clock (Ref.host (Ref.at_ 2025 12 15 23 59 59 998)) 0%nat) + 1.
Proof. repeat split; by vm_compute. Qed.

(** C5 — Remaining seconds, amended.  In the result of [getCurrent], with
    a catalog of valid definitions: [remainingSeconds] is a number exactly
    when there is a current slot, and is [null] or absent when the status
    is ["free"] or ["no-school"]; with a current slot [x] it is a number
    [z >= 0], equal to [max(0, floor((end - now) / 1000))] where [end] is
    the end of [x] on the day of the clock reading of [parseTimeToDate],
    which is the day of [now] when the two readings are of the same day.
    Between two calls with the same current slot, the second one no
    earlier than the first, when the readings of [now] and of
    [parseTimeToDate] of both calls are all of one day: it does not
    increase; it decreases strictly when the calls are a second or more
    apart and it was positive; it is [0] when the second call is at the
    end of the slot or later. *)
Theorem remaining_seconds (h : Host) (this : API.TimetableAPI) (n : nat)
    (c : API.CurrentData) :
  collatesTimes h →
  validCatalog (API.timetableData this) = true →
  data (API.getCurrent h this n).1 = Some c →
  (is_Some (API.remainingSeconds c) ↔ is_Some (API.currentPeriod c))
  ∧ (API.status c = "free" ∨ API.status c = "no-school" → API.remainingSeconds c = None)
  ∧ (∀ x, API.currentPeriod c = Some x →
       ∃ z, API.remainingSeconds c = Some (Num z) ∧ 0 ≤ z
            ∧ z = remainingAt (endOfSlotToday (clock h (S (S n))) (API.end_ x)) (clock h n)
            ∧ (Day (clock h (S (S n))) = Day (clock h n) →
               z = remainingAt (endOfSlotToday (clock h n) (API.end_ x)) (clock h n)))
  ∧ (∀ n' c' x z z',
       data (API.getCurrent h this n').1 = Some c' →
       API.currentPeriod c = Some x →
       API.currentPeriod c' = Some x →
       API.remainingSeconds c = Some (Num z) →
       API.remainingSeconds c' = Some (Num z') →
       Day (clock h (S (S n))) = Day (clock h n) →
       Day (clock h (S (S n'))) = Day (clock h n') →
       Day (clock h n') = Day (clock h n) →
       clock h n ≤ clock h n' →
       z' ≤ z
       ∧ (clock h n + 1000 ≤ clock h n' → 0 < z → z' < z)
       ∧ (endOfSlotToday (clock h n) (API.end_ x) ≤ clock h n' → z' = 0)).
Proof.
  intros Hh Hc Hd. split; [|split; [|split]].
  - destruct c as [d|d]; cbn; [by split; intros []|].
    destruct (getCurrent_located h this n d Hd) as (_ & _ & _ & -> & _).
    by rewrite fmap_is_Some.
  - destruct c as [d|d]; cbn; [done|].
    destruct (getCurrent_located h this n d Hd) as (Hcur & _ & -> & -> & _).
    destruct (API.lo_currentPeriod d) as [x|]; [|done]. cbn.
    symmetry in Hcur. apply firstMatch_elem_of, todaySchedule_type in Hcur.
    intros [Hs|Hs]; rewrite Hs in Hcur; by destruct Hcur as [|[|]].
  - intros x Hx. eexists. split; [by eapply remainingSeconds_formula|].
    split; [apply remainingAt_nonneg|]. split; [done|].
    intros Hday. by rewrite (endOfSlotToday_day _ _ _ Hday).
  - intros n' c' x z z' Hd' Hx Hx' Hz Hz' Hday Hday' Hsame Hle.
    destruct (remainingSeconds_value h this n c x Hh Hc Hd Hx) as (z0 & Hz0 & _ & He).
    destruct (remainingSeconds_value h this n' c' x Hh Hc Hd' Hx') as (z1 & Hz1 & _ & He').
    rewrite Hz in Hz0. injection Hz0 as <-.
    rewrite Hz' in Hz1. injection Hz1 as <-.
    specialize (He Hday). specialize (He' Hday').
    rewrite (endOfSlotToday_day _ _ _ Hsame) in He'. subst z z'.
    split; [by apply remainingAt_mono|]. split.
    + by apply remainingAt_strict.
    + apply remainingAt_past.
Qed.

(** Monday 2025-12-15, a call at 09:19:30 and one two seconds later:
    thirty, then twenty-eight seconds of the first period remain. *)
Lemma remaining_seconds_witness :
  let t := Ref.at_ 2025 12 15 9 19 30 0 in
  let p1 := API.periodItem Ref.api (Some 6) (Ref.slot "08:40" "09:20") 0%nat in
  ∃ c c', data (API.getCurrent (Ref.host t) Ref.api 0%nat).1 = Some c
       ∧ data (API.getCurrent (Ref.host t) Ref.api 2000%nat).1 = Some c'
       ∧ API.currentPeriod c = Some p1
       ∧ API.currentPeriod c' = Some p1
       ∧ API.remainingSeconds c = Some (Num 30)
       ∧ API.remainingSeconds c' = Some (Num 28)
       ∧ 30 = remainingAt (endOfSlotToday (clock (Ref.host t) 0%nat) (API.end_ p1))
                          (clock (Ref.host t) 0%nat)
       ∧ 28 < 30.
Proof.
  intros t p1. eexists _, _.
  split; [by vm_compute|]. split; [by vm_compute|].
  split; [by vm_compute|]. split; [by vm_compute|].
  split; [by vm_compute|]. split; [by vm_compute|].
  edestruct (remaining_seconds (Ref.host t) Ref.api 0%nat) as (_ & _ & Hv & Hcmp).
  - intros x y _ _. reflexivity.
  - by vm_compute.
  - by vm_compute.
  - split.
    + destruct (Hv p1) as (z & Hz & _ & _ & He); [by vm_compute|].
      assert (z = 30) as -> by (vm_compute in Hz; congruence).
      apply He. by vm_compute.
    + edestruct (Hcmp 2000%nat) as (_ & Hlt & _).
      * by vm_compute.
      * by vm_compute.
      * by vm_compute.
      * by vm_compute.
      * by vm_compute.
      * by vm_compute.
      * by vm_compute.
      * by vm_compute.
      * by vm_compute.
      * apply Hlt; by vm_compute.
Defined.

(** ** Formatting of the remaining time *)



(** * Further properties *)

(** ** The two variant resolutions *)

Lemma orNull_None `{Truthy A} (x : option A) : orNull x = None → truthy x = false.
Proof.
  unfold orNull. destruct (truthy x) eqn:Hx; [|done]. intros ->. done.
Qed.

Lemma truthy_orNull `{Truthy A} (x : option A) : truthy (orNull x) = truthy x.
Proof. unfold orNull. by destruct (truthy x) eqn:Hx. Qed.

(** X1 — For every date that the host reads, the [timetableType] of
    [getByDate] is the answer of [getTimetableTypeForDate], and its
    [dayCycle] that of [calculateDayCycle]: the page and the query
    interface resolve a date alike. *)
Theorem resolutions_agree (h : Host) (w : Globals) (dateStr : string) (t : Z) (n : nat) :
  parseDate h (dateStr +:+ "T00:00:00") = Some t →
  ∃ d, data (API.getByDate h (API.new w) dateStr n).1 = Some d
       ∧ API.timetableType d = App.getTimetableTypeForDate h w dateStr
       ∧ API.dayCycle d = App.calculateDayCycle w dateStr
       ∧ (API.isSchoolDay d = true ↔ App.getTimetableTypeForDate h w dateStr ≠ "none").
Proof.
  intros Hp.
  assert (API.resolveType (getDay t) (orNull (DAY_ROTATION w !! dateStr))
            (orNull (SPECIAL_DATES w !! dateStr))
          = App.getTimetableTypeForDate h w dateStr) as Hty.
  { unfold API.resolveType, App.getTimetableTypeForDate, App.isNonSchoolDay.
    rewrite Hp.
    destruct (orNull (SPECIAL_DATES w !! dateStr)) as [tag|] eqn:Hs; [done|].
    rewrite (orNull_None _ Hs), truthy_orNull.
    destruct ((getDay t =? 0) || (getDay t =? 6)); [done|]. cbn.
    by destruct (truthy (DAY_ROTATION w !! dateStr)). }
  unfold API.getByDate. rewrite Hp. cbn. rewrite Hty.
  destruct (negb _) eqn:Hsd.
  - apply negb_true_iff, bool_decide_eq_false in Hsd.
    destruct (TIMETABLE_DATA w !! _); eexists; (split; [reflexivity|]); cbn;
      repeat split; done.
  - apply negb_false_iff, bool_decide_eq_true in Hsd.
    eexists. split; [reflexivity|]. cbn. repeat split; done.
Qed.

Lemma resolutions_agree_witness :
  ∃ d, data (API.getByDate (Ref.host 0) (API.new Ref.globals) "2025-12-19" 0%nat).1 = Some d
       ∧ API.timetableType d = App.getTimetableTypeForDate (Ref.host 0) Ref.globals "2025-12-19"
       ∧ API.dayCycle d = App.calculateDayCycle Ref.globals "2025-12-19"
       ∧ (API.isSchoolDay d = true
          ↔ App.getTimetableTypeForDate (Ref.host 0) Ref.globals "2025-12-19" ≠ "none").
Proof.
  apply (resolutions_agree (Ref.host 0) Ref.globals "2025-12-19" 1766102400000 0%nat).
  by vm_compute.
Defined.

(** X2 — For a string that is the name of no inherited property, that
    the host does not read as a date and that has no override,
    [isNonSchoolDay] is false and [getTimetableTypeForDate] answers
    ["normal"]: the page treats it as an ordinary school day, where
    [getByDate] answers with the error envelope.  (At the name of an
    inherited property, such as ["constructor"], the table of special
    dates gives a truthy member and the page answers a special variant;
    the tables are not read as finite maps there.) *)
Theorem unreadable_date_is_normal (h : Host) (w : Globals) (dateStr : string) (n : nat) :
  Vocab.ownNameOnly dateStr = true →
  parseDate h (dateStr +:+ "T00:00:00") = None →
  truthy (SPECIAL_DATES w !! dateStr) = false →
  App.isNonSchoolDay h w dateStr = false
  ∧ App.getTimetableTypeForDate h w dateStr = "normal"
  ∧ success (API.getByDate h (API.new w) dateStr n).1 = false
  ∧ data (API.getByDate h (API.new w) dateStr n).1 = None.
Proof.
  intros _ Hp Hs.
  assert (App.isNonSchoolDay h w dateStr = false) as Hn.
  { unfold App.isNonSchoolDay. by rewrite Hp. }
  split; [done|]. split.
  - unfold App.getTimetableTypeForDate, orNull. by rewrite Hs, Hn, Hp.
  - unfold API.getByDate. by rewrite Hp.
Qed.

Lemma unreadable_date_is_normal_witness :
  App.isNonSchoolDay (Ref.host 0) Ref.globals "2025-13-40" = false
  ∧ App.getTimetableTypeForDate (Ref.host 0) Ref.globals "2025-13-40" = "normal"
  ∧ success (API.getByDate (Ref.host 0) (API.new Ref.globals) "2025-13-40" 0%nat).1 = false
  ∧ data (API.getByDate (Ref.host 0) (API.new Ref.globals) "2025-13-40" 0%nat).1 = None.
Proof.
  apply (unreadable_date_is_normal (Ref.host 0) Ref.globals "2025-13-40" 0%nat);
    by vm_compute.
Defined.

(** ** The day record *)

Import Vocab.

Lemma countOf_perm (ty : string) (l l' : list API.ScheduleItem) :
  l ≡ₚ l' → countOf ty l = countOf ty l'.
Proof. intros Hp. unfold countOf. by rewrite Hp. Qed.

Lemma countOf_app (ty : string) (l l' : list API.ScheduleItem) :
  countOf ty (l ++ l') = (countOf ty l + countOf ty l')%nat.
Proof. unfold countOf. by rewrite filter_app, length_app. Qed.

Lemma countOf_all (ty : string) (l : list API.ScheduleItem) :
  Forall (λ x, API.type x = ty) l → countOf ty l = length l.
Proof.
  unfold countOf. induction 1 as [|x l Hx _ IH]; [done|].
  rewrite filter_cons, decide_True by done. cbn. by rewrite IH.
Qed.

Lemma countOf_none (ty : string) (l : list API.ScheduleItem) :
  Forall (λ x, API.type x ≠ ty) l → countOf ty l = 0%nat.
Proof.
  unfold countOf. induction 1 as [|x l Hx _ IH]; [done|].
  by rewrite filter_cons, decide_False.
Qed.

Lemma catalogOrder_parts_types (this : API.TimetableAPI) (tbl : Timetable) (dayCycle : option Z) :
  Forall (λ x, API.type x = "assembly")
    (option_list (API.assemblyItem <$> preSchoolAssembly tbl))
  ∧ Forall (λ x, API.type x = "period")
      (imap (λ i p, API.periodItem this dayCycle p i) (periods tbl))
  ∧ Forall (λ x, API.type x = "break") ((λ b, API.breakItem b 0) <$> breaks tbl).
Proof.
  split; [|split]; apply Forall_forall; intros x Hx.
  - destruct (preSchoolAssembly tbl); cbn in Hx; [|by apply elem_of_nil in Hx].
    by apply list_elem_of_singleton in Hx as ->.
  - by apply elem_of_lookup_imap in Hx as (i & p & -> & _).
  - by apply list_elem_of_fmap in Hx as (b & -> & _).
Qed.

Lemma catalogOrder_counts (this : API.TimetableAPI) (tbl : Timetable) (dayCycle : option Z) :
  countOf "period" (catalogOrder this tbl dayCycle) = length (periods tbl)
  ∧ countOf "break" (catalogOrder this tbl dayCycle) = length (breaks tbl)
  ∧ countOf "assembly" (catalogOrder this tbl dayCycle)
    = (if preSchoolAssembly tbl is Some _ then 1 else 0)%nat
  ∧ length (catalogOrder this tbl dayCycle)
    = (length (periods tbl) + length (breaks tbl)
       + if preSchoolAssembly tbl is Some _ then 1 else 0)%nat.
Proof.
  destruct (catalogOrder_parts_types this tbl dayCycle) as (Ha & Hp & Hb).
  unfold catalogOrder. rewrite !countOf_app, !length_app.
  rewrite (countOf_all "period" _ Hp), (countOf_all "break" _ Hb),
    (countOf_all "assembly" _ Ha).
  rewrite !countOf_none, length_imap, length_fmap;
    try (eapply Forall_impl; [eassumption|]; by intros x ->).
  destruct (preSchoolAssembly tbl); cbn; repeat split; lia.
Qed.

(** X3 — In the day record of [getByDate], the counts are present
    exactly when the schedule was built from a definition of the
    catalog; then [periods] and [breaks] are the numbers of periods and
    breaks of that definition and of the schedule, [preSchoolAssembly] is
    present exactly when the schedule has an assembly slot, the length of
    the schedule is the sum of the three, the period numbers in it are 1
    to [periods] in some order, and there is no message. *)
Theorem day_record_counts (h : Host) (this : API.TimetableAPI) (dateStr : string) (n : nat)
    (d : API.DayData) (np : nat) :
  data (API.getByDate h this dateStr n).1 = Some d →
  API.d_periods d = Some np →
  ∃ tbl, API.timetableData this !! API.timetableType d = Some tbl
    ∧ API.isSchoolDay d = true
    ∧ API.message d = None
    ∧ np = length (periods tbl)
    ∧ API.d_breaks d = Some (length (breaks tbl))
    ∧ API.d_preSchoolAssembly d = preSchoolAssembly tbl
    ∧ countOf "period" (API.schedule d) = np
    ∧ countOf "break" (API.schedule d) = length (breaks tbl)
    ∧ countOf "assembly" (API.schedule d) = (if API.d_preSchoolAssembly d is Some _ then 1 else 0)%nat
    ∧ length (API.schedule d)
      = (np + length (breaks tbl) + if API.d_preSchoolAssembly d is Some _ then 1 else 0)%nat
    ∧ omap API.periodNumber (API.schedule d) ≡ₚ seqZ 1 (Z.of_nat np).
Proof.
  unfold API.getByDate. destruct (parseDate h _); [|done]. cbn.
  destruct (negb _) eqn:Hsd; [|by intros [= <-]].
  destruct (API.timetableData this !! _) as [tbl|] eqn:Ht; [|by intros [= <-]].
  intros [= <-].
  cbn [API.d_periods API.schedule API.timetableType API.isSchoolDay API.message
       API.d_breaks API.d_preSchoolAssembly].
  intros [= <-]. exists tbl.
  assert (API.buildSchedule h this tbl (orNull (API.dayRotation this !! dateStr))
          ≡ₚ catalogOrder this tbl (orNull (API.dayRotation this !! dateStr))) as Hp.
  { rewrite buildSchedule_catalogOrder. apply arraySort_perm. }
  destruct (catalogOrder_counts this tbl (orNull (API.dayRotation this !! dateStr)))
    as (Hc1 & Hc2 & Hc3 & Hc4).
  rewrite !(countOf_perm _ _ _ Hp), Hp, Hc1, Hc2, Hc3, Hc4.
  rewrite catalogOrder_periodNumbers. done.
Qed.

(** Monday 2025-12-15: an assembly, three periods and a break. *)
Lemma day_record_counts_witness :
  ∃ d, data (API.getByDate (Ref.host 0) Ref.api "2025-12-15" 0%nat).1 = Some d
    ∧ API.d_periods d = Some 3%nat
    ∧ ∃ tbl, API.timetableData Ref.api !! API.timetableType d = Some tbl
      ∧ API.isSchoolDay d = true
      ∧ API.message d = None
      ∧ 3%nat = length (periods tbl)
      ∧ API.d_breaks d = Some (length (breaks tbl))
      ∧ API.d_preSchoolAssembly d = preSchoolAssembly tbl
      ∧ countOf "period" (API.schedule d) = 3%nat
      ∧ countOf "break" (API.schedule d) = length (breaks tbl)
      ∧ countOf "assembly" (API.schedule d) = (if API.d_preSchoolAssembly d is Some _ then 1 else 0)%nat
      ∧ length (API.schedule d)
        = (3 + length (breaks tbl) + if API.d_preSchoolAssembly d is Some _ then 1 else 0)%nat
      ∧ omap API.periodNumber (API.schedule d) ≡ₚ seqZ 1 (Z.of_nat 3).
Proof.
  eexists. split; [by vm_compute|]. split; [by vm_compute|].
  eapply (day_record_counts (Ref.host 0) Ref.api "2025-12-15" 0%nat); by vm_compute.
Defined.

(** X4 — A variant without a definition.  When the variant resolved for
    a date that the host reads is not ["none"] and the catalog has no
    definition under that name, [getByDate] still answers [success] true
    with [isSchoolDay] true, but with an empty schedule, no counts, and
    the message of a day without school. *)
Theorem variant_without_definition (h : Host) (this : API.TimetableAPI) (dateStr : string)
    (t : Z) (n : nat) :
  parseDate h (dateStr +:+ "T00:00:00") = Some t →
  API.resolveType (getDay t) (orNull (API.dayRotation this !! dateStr))
    (orNull (API.specialDates this !! dateStr)) ≠ "none" →
  API.timetableData this
    !! API.resolveType (getDay t) (orNull (API.dayRotation this !! dateStr))
         (orNull (API.specialDates this !! dateStr)) = None →
  ∃ d, API.getByDate h this dateStr n
       = ({| success := true; timestamp := clock h n; data := Some d; error := None |}, S n)
    ∧ API.isSchoolDay d = true
    ∧ API.timetableType d
      = API.resolveType (getDay t) (orNull (API.dayRotation this !! dateStr))
          (orNull (API.specialDates this !! dateStr))
    ∧ API.schedule d = []
    ∧ API.message d = Some (if API.isWeekend d then "週末休息" else "非上課日")
    ∧ API.d_periods d = None ∧ API.d_breaks d = None ∧ API.d_preSchoolAssembly d = None.
Proof.
  intros Hp Hty Ht. unfold API.getByDate. rewrite Hp. cbn. rewrite Ht.
  rewrite bool_decide_eq_false_2 by done. cbn.
  eexists. split; [reflexivity|]. done.
Qed.

(** Tuesday 2025-12-16 carries the override [C]; a catalog without
    [specialC]. *)
Lemma variant_without_definition_witness :
  let this := {| API.timetableData := {["normal" := Ref.normalDay]};
                 API.subjectSchedule := ∅;
                 API.dayRotation := ∅;
                 API.specialDates := {["2025-12-16" := "C"]} |} in
  ∃ d, API.getByDate (Ref.host 7) this "2025-12-16" 0%nat
       = ({| success := true; timestamp := 7; data := Some d; error := None |}, 1%nat)
    ∧ API.isSchoolDay d = true
    ∧ API.timetableType d = "specialC"
    ∧ API.schedule d = []
    ∧ API.message d = Some "非上課日".
Proof.
  intros this.
  destruct (variant_without_definition (Ref.host 7) this "2025-12-16" 1765843200000 0%nat)
    as (d & Hd & Hs & Hty & Hsch & Hm & _).
  - by vm_compute.
  - by vm_compute.
  - by vm_compute.
  - exists d. split; [exact Hd|]. split; [exact Hs|].
    assert (API.timetableType d = "specialC") as Hc by (rewrite Hty; by vm_compute).
    split; [exact Hc|]. split; [exact Hsch|]. rewrite Hm.
    assert (API.isWeekend d = false) as ->; [|done].
    vm_compute in Hd. by injection Hd as <-.
Defined.

(** ** The current slot and the next one *)

Lemma getByDate_unreadable (h : Host) (this : API.TimetableAPI) (dateStr : string)
    (n : nat) :
  parseDate h (dateStr +:+ "T00:00:00") = None →
  API.getByDate h this dateStr n
  = ({| success := false; timestamp := clock h n; data := None;
        error := Some "Invalid date format. Use YYYY-MM-DD" |}, S n).
Proof. intros Hp. unfold API.getByDate. by rewrite Hp. Qed.

(** X5 — [getCurrent] swallows the failure of [getByDate].  When the host
    does not read the date string that [formatDateToISO] made of its own
    clock reading, [getCurrent] still answers [success] true, with status
    ["no-school"], both slots [null] and the message ["今日沒有課程"]; it
    has then read the clock three times. *)
Theorem getCurrent_unreadable_today (h : Host) (this : API.TimetableAPI) (n : nat) :
  parseDate h (API.formatDateToISO (clock h n) +:+ "T00:00:00") = None →
  API.getCurrent h this n
  = ({| success := true; timestamp := clock h (S (S n));
        data := Some (API.NoSchool
                  {| API.ns_date := API.formatDateToISO (clock h n);
                     API.ns_currentTime := API.formatTimeForComparison (clock h n);
                     API.ns_message := "今日沒有課程" |});
        error := None |}, S (S (S n))).
Proof.
  intros Hp. unfold API.getCurrent, bind, newDate.
  rewrite (getByDate_unreadable h this _ (S n) Hp). done.
Qed.

(** A clock in the year 999: the date string has three digits of year,
    which the reference host does not read. *)
Lemma getCurrent_unreadable_today_witness :
  let t := Ref.at_ 999 6 1 10 30 0 0 in
  API.formatDateToISO (clock (Ref.host t) 0%nat) = "999-06-01"
  ∧ API.getCurrent (Ref.host t) Ref.api 0%nat
    = ({| success := true; timestamp := clock (Ref.host t) 2%nat;
          data := Some (API.NoSchool
                    {| API.ns_date := API.formatDateToISO (clock (Ref.host t) 0%nat);
                       API.ns_currentTime := API.formatTimeForComparison (clock (Ref.host t) 0%nat);
                       API.ns_message := "今日沒有課程" |});
          error := None |}, 3%nat).
Proof.
  intros t. split; [by vm_compute|].
  apply (getCurrent_unreadable_today (Ref.host t) Ref.api 0%nat). by vm_compute.
Defined.

Lemma getByDate_none (h : Host) (this : API.TimetableAPI) (dateStr : string)
    (t : Z) (n : nat) :
  parseDate h (dateStr +:+ "T00:00:00") = Some t →
  API.timetableType <$> data (API.getByDate h this dateStr n).1 = Some "none" →
  ∃ d, API.getByDate h this dateStr n
       = ({| success := true; timestamp := clock h n; data := Some d; error := None |}, S n)
    ∧ API.isSchoolDay d = false
    ∧ API.isWeekend d = bool_decide (getDay t = 0 ∨ getDay t = 6)
    ∧ API.schedule d = []
    ∧ API.message d = Some (if API.isWeekend d then "週末休息" else "非上課日").
Proof.
  intros Hp. unfold API.getByDate. rewrite Hp. cbn.
  set (ty := API.resolveType _ _ _).
  assert (Hwk : (getDay t =? 0) || (getDay t =? 6) = bool_decide (getDay t = 0 ∨ getDay t = 6)).
  { destruct (Z.eqb_spec (getDay t) 0) as [->|?]; [done|].
    destruct (Z.eqb_spec (getDay t) 6) as [->|?]; [done|].
    cbn. symmetry. apply bool_decide_eq_false. lia. }
  intros Hty.
  assert (ty = "none") as Hnone.
  { revert Hty. by repeat case_match; cbn; intros [= ->]. }
  rewrite bool_decide_eq_true_2 by done. cbn.
  eexists. split; [reflexivity|]. cbn. by rewrite Hwk.
Qed.

(** X6 — On a day without school, [getCurrent] answers with status
    ["no-school"], both slots [null], and the message of the day record:
    ["週末休息"] on a Saturday or Sunday, ["非上課日"] otherwise. *)
Theorem getCurrent_no_school (h : Host) (this : API.TimetableAPI) (n : nat) (t : Z) :
  parseDate h (API.formatDateToISO (clock h n) +:+ "T00:00:00") = Some t →
  API.timetableType <$> data (todayData h this n) = Some "none" →
  API.getCurrent h this n
  = ({| success := true; timestamp := clock h (S (S n));
        data := Some (API.NoSchool
                  {| API.ns_date := API.formatDateToISO (clock h n);
                     API.ns_currentTime := API.formatTimeForComparison (clock h n);
                     API.ns_message :=
                       if bool_decide (getDay t = 0 ∨ getDay t = 6)
                       then "週末休息" else "非上課日" |});
        error := None |}, S (S (S n))).
Proof.
  intros Hp Hty. unfold todayData in Hty.
  destruct (getByDate_none h this _ t (S n) Hp Hty)
    as (d & Hd & Hs & Hw & _ & Hm).
  unfold API.getCurrent, bind, newDate. rewrite Hd. cbn. rewrite Hs, Hm, Hw. cbn.
  by destruct (bool_decide _).
Qed.

(** Saturday 2025-12-20 at 10:00. *)
Lemma getCurrent_no_school_witness :
  let t := Ref.at_ 2025 12 20 10 0 0 0 in
  API.getCurrent (Ref.host t) Ref.api 0%nat
  = ({| success := true; timestamp := clock (Ref.host t) 2%nat;
        data := Some (API.NoSchool
                  {| API.ns_date := "2025-12-20";
                     API.ns_currentTime := "10:00";
                     API.ns_message := "週末休息" |});
        error := None |}, 3%nat).
Proof.
  intros t.
  rewrite (getCurrent_no_school (Ref.host t) Ref.api 0%nat 1766188800000);
    by vm_compute.
Defined.

Lemma getByDate_no_definition (h : Host) (this : API.TimetableAPI) (dateStr : string)
    (t : Z) (n : nat) :
  parseDate h (dateStr +:+ "T00:00:00") = Some t →
  API.resolveType (getDay t) (orNull (API.dayRotation this !! dateStr))
    (orNull (API.specialDates this !! dateStr)) ≠ "none" →
  API.timetableData this
    !! API.resolveType (getDay t) (orNull (API.dayRotation this !! dateStr))
         (orNull (API.specialDates this !! dateStr)) = None →
  ∃ d, API.getByDate h this dateStr n
       = ({| success := true; timestamp := clock h n; data := Some d; error := None |}, S n)
    ∧ API.isSchoolDay d = true
    ∧ API.dayCycle d = orNull (API.dayRotation this !! dateStr)
    ∧ API.schedule d = [].
Proof.
  intros Hp Hty Ht. unfold API.getByDate. rewrite Hp. cbn. rewrite Ht.
  rewrite bool_decide_eq_false_2 by done. cbn.
  eexists. split; [reflexivity|]. done.
Qed.

(** X7 — On a day whose variant has no definition in the catalog,
    [getCurrent] answers like in a gap of a school day: status ["free"],
    no current and no next slot, no remaining time; not ["no-school"]. *)
Theorem getCurrent_without_definition (h : Host) (this : API.TimetableAPI) (n : nat) (t : Z) :
  let today := API.formatDateToISO (clock h n) in
  let ty := API.resolveType (getDay t) (orNull (API.dayRotation this !! today))
              (orNull (API.specialDates this !! today)) in
  parseDate h (today +:+ "T00:00:00") = Some t →
  ty ≠ "none" →
  API.timetableData this !! ty = None →
  API.getCurrent h this n
  = ({| success := true; timestamp := clock h (S (S n));
        data := Some (API.Located
                  {| API.lo_date := today;
                     API.lo_currentTime := API.formatTimeForComparison (clock h n);
                     API.lo_dayCycle := orNull (API.dayRotation this !! today);
                     API.lo_status := "free";
                     API.lo_currentPeriod := None;
                     API.lo_nextPeriod := None;
                     API.lo_remainingSeconds := None;
                     API.lo_remainingFormatted := None |});
        error := None |}, S (S (S n))).
Proof.
  intros today ty Hp Hty Ht.
  destruct (getByDate_no_definition h this today t (S n) Hp Hty Ht)
    as (d & Hd & Hs & Hdc & Hsch).
  unfold API.getCurrent, bind, newDate. fold today. rewrite Hd. cbn.
  rewrite Hs, Hsch, Hdc. done.
Qed.

(** Tuesday 2025-12-16 at 10:00, override [C], a catalog without
    [specialC]. *)
Lemma getCurrent_without_definition_witness :
  let t := Ref.at_ 2025 12 16 10 0 0 0 in
  let this := {| API.timetableData := {["normal" := Ref.normalDay]};
                 API.subjectSchedule := ∅;
                 API.dayRotation := ∅;
                 API.specialDates := {["2025-12-16" := "C"]} |} in
  API.status <$> data (API.getCurrent (Ref.host t) this 0%nat).1 = Some "free".
Proof.
  intros t this.
  rewrite (getCurrent_without_definition (Ref.host t) this 0%nat 1765843200000);
    by vm_compute.
Defined.

Lemma str_lt_iff (a b : string) : str_lt a b = true ↔ String.le a b ∧ a ≠ b.
Proof.
  split.
  - intros Hlt. split; [by apply str_lt_le|].
    intros ->. by apply str_lt_not_le in Hlt.
  - intros [Hle Hne]. unfold str_lt, String.ltb.
    unfold String.le, String.leb in Hle.
    destruct (String.compare a b) eqn:Hc; [|done..].
    by apply String.compare_eq_iff in Hc.
Qed.

Lemma str_gt_startsAfter (cur : string) (x : API.ScheduleItem) :
  str_gt (API.start x) cur = true ↔ startsAfter cur x.
Proof. apply str_lt_iff. Qed.

Lemma not_str_gt_le (cur : string) (x : API.ScheduleItem) :
  str_gt (API.start x) cur = false ↔ String.le (API.start x) cur.
Proof.
  unfold str_gt. rewrite <- str_le_le. unfold str_le.
  by destruct (str_lt cur (API.start x)).
Qed.

Lemma pairwiseApart_elem {A} (f : A → string * string) (l : list A) (x y : A) :
  pairwiseApart (f <$> l) = true → x ∈ l → y ∈ l → x ≠ y → apart (f x) (f y) = true.
Proof.
  induction l as [|z l IH]; intros Hl Hx Hy Hne; [by apply elem_of_nil in Hx|].
  rewrite fmap_cons in Hl. apply pairwiseApart_cons in Hl as [Hz Hl].
  apply elem_of_cons in Hx as [->|Hx]; apply elem_of_cons in Hy as [->|Hy].
  - done.
  - apply Hz. by apply list_elem_of_fmap_2.
  - rewrite apart_sym. apply Hz. by apply list_elem_of_fmap_2.
  - by apply IH.
Qed.

(** X8 — The next slot.  On a school day, [nextPeriod] is the first slot
    of the schedule that starts strictly after [now] (the [HH:MM] of the
    clock), and it is [null] exactly when every slot starts at [now] or
    before.  With a catalog of valid definitions, the next slot is not the
    current one and starts no earlier than the current one ends. *)
Theorem next_slot (h : Host) (this : API.TimetableAPI) (n : nat) (d : API.LocatedData) :
  collatesTimes h →
  validCatalog (API.timetableData this) = true →
  data (API.getCurrent h this n).1 = Some (API.Located d) →
  let cur := API.formatTimeForComparison (clock h n) in
  let sched := todaySchedule h this n in
  match API.lo_nextPeriod d with
  | Some y => ∃ pre post, sched = pre ++ y :: post ∧ startsAfter cur y
                          ∧ Forall (λ z, String.le (API.start z) cur) pre
  | None => Forall (λ z, String.le (API.start z) cur) sched
  end
  ∧ ∀ x y, API.lo_currentPeriod d = Some x → API.lo_nextPeriod d = Some y →
           x ≠ y ∧ String.le (API.end_ x) (API.start y).
Proof.
  intros Hh Hc Hd cur sched.
  destruct (getCurrent_located h this n d Hd) as (Hcur & Hnext & _).
  destruct (todaySchedule_wellFormed h this n Hh Hc) as (Hsort & Hapart & Hok).
  fold sched in Hcur, Hnext, Hsort, Hapart, Hok. fold cur in Hcur, Hnext.
  split.
  - rewrite Hnext.
    destruct (firstMatch (λ item, str_gt (API.start item) cur) sched) as [y|] eqn:Hf.
    + apply firstMatch_Some in Hf as (pre & post & Hs & Hy & Hpre).
      exists pre, post. split; [done|]. split; [by apply str_gt_startsAfter|].
      eapply Forall_impl; [exact Hpre|]. intros z Hz. by apply not_str_gt_le.
    + apply firstMatch_None in Hf.
      eapply Forall_impl; [exact Hf|]. intros z Hz. by apply not_str_gt_le.
  - intros x y Hx Hy. rewrite Hx in Hcur. rewrite Hy in Hnext.
    symmetry in Hcur, Hnext.
    pose proof (firstMatch_elem_of _ _ _ Hcur) as Hxin.
    pose proof (firstMatch_elem_of _ _ _ Hnext) as Hyin.
    apply firstMatch_Some in Hcur as (_ & _ & _ & Hxs & _).
    apply firstMatch_Some in Hnext as (_ & _ & _ & Hys & _).
    apply isTimeInRange_inSlot in Hxs as [Hx1 Hx2].
    apply str_gt_startsAfter in Hys as [Hy1 Hy2].
    assert (x ≠ y) as Hne.
    { intros ->. apply Hy2. by apply (anti_symm String.le). }
    split; [done|].
    pose proof (pairwiseApart_elem _ _ _ _ Hapart Hxin Hyin Hne) as Hap.
    unfold apart in Hap. cbn in Hap. apply orb_true_iff in Hap as [H1|H2].
    + by apply str_le_le.
    + exfalso. apply str_le_le in H2.
      destruct (Hok y Hyin) as (Hlt & _). apply str_lt_not_le in Hlt. apply Hlt.
      trans (API.start x); [done|]. by trans cur.
Qed.

(** Monday 2025-12-15 at 09:19:30: the first period is current, the
    second one is next. *)
Lemma next_slot_witness :
  let t := Ref.at_ 2025 12 15 9 19 30 0 in
  let p1 := API.periodItem Ref.api (Some 6) (Ref.slot "08:40" "09:20") 0%nat in
  let p2 := API.periodItem Ref.api (Some 6) (Ref.slot "09:20" "10:00") 1%nat in
  ∃ d, data (API.getCurrent (Ref.host t) Ref.api 0%nat).1 = Some (API.Located d)
       ∧ API.lo_currentPeriod d = Some p1
       ∧ API.lo_nextPeriod d = Some p2
       ∧ p1 ≠ p2 ∧ String.le (API.end_ p1) (API.start p2).
Proof.
  intros t p1 p2. eexists. split; [by vm_compute|].
  split; [by vm_compute|]. split; [by vm_compute|].
  edestruct (next_slot (Ref.host t) Ref.api 0%nat) as (_ & Hxy).
  - intros x y _ _. reflexivity.
  - by vm_compute.
  - by vm_compute.
  - apply (Hxy p1 p2); by vm_compute.
Defined.

(** X9 — The slot that starts at a shared boundary.  On a school day with
    a catalog of valid definitions, when [now] is the end of a slot [a]
    and the start of a slot [b], the slot [b] is neither the current slot
    (that is [a]) nor the next one: during that minute it is not
    reported. *)
Theorem boundary_slot_unreported (h : Host) (this : API.TimetableAPI) (n : nat)
    (d : API.LocatedData) (a b : API.ScheduleItem) :
  collatesTimes h →
  validCatalog (API.timetableData this) = true →
  data (API.getCurrent h this n).1 = Some (API.Located d) →
  a ∈ todaySchedule h this n →
  b ∈ todaySchedule h this n →
  API.end_ a = API.formatTimeForComparison (clock h n) →
  API.start b = API.formatTimeForComparison (clock h n) →
  API.lo_currentPeriod d = Some a
  ∧ API.lo_currentPeriod d ≠ Some b
  ∧ API.lo_nextPeriod d ≠ Some b
  ∧ ∀ y, API.lo_nextPeriod d = Some y → startsAfter (API.start b) y.
Proof.
  intros Hh Hc Hd Ha Hb Hea Hsb.
  destruct (getCurrent_located h this n d Hd) as (Hcur & Hnext & _).
  destruct (todaySchedule_wellFormed h this n Hh Hc) as (Hsort & Hapart & Hok).
  destruct (Hok a Ha) as (Hlt & _).
  assert (API.lo_currentPeriod d = Some a) as Hca.
  { rewrite Hcur. by apply ending_slot_is_first. }
  assert (∀ y, API.lo_nextPeriod d = Some y → startsAfter (API.start b) y) as Hny.
  { intros y Hy. rewrite Hy in Hnext. symmetry in Hnext.
    apply firstMatch_Some in Hnext as (_ & _ & _ & Hys & _).
    rewrite Hsb. by apply str_gt_startsAfter. }
  split; [done|]. split; [|split; [|done]].
  - rewrite Hca. intros [= ->]. apply str_lt_not_le in Hlt. apply Hlt.
    by rewrite Hea, Hsb.
  - intros Hy. by destruct (Hny b Hy) as [_ Hne].
Qed.

(** Monday 2025-12-15 at 09:20:30: the second period, 09:20 to 10:00,
    is neither current nor next. *)
Lemma boundary_slot_unreported_witness :
  let t := Ref.at_ 2025 12 15 9 20 30 0 in
  let p1 := API.periodItem Ref.api (Some 6) (Ref.slot "08:40" "09:20") 0%nat in
  let p2 := API.periodItem Ref.api (Some 6) (Ref.slot "09:20" "10:00") 1%nat in
  ∃ d, data (API.getCurrent (Ref.host t) Ref.api 0%nat).1 = Some (API.Located d)
       ∧ API.lo_currentPeriod d = Some p1
       ∧ API.lo_currentPeriod d ≠ Some p2
       ∧ API.lo_nextPeriod d ≠ Some p2
       ∧ ∀ y, API.lo_nextPeriod d = Some y → startsAfter (API.start p2) y.
Proof.
  intros t p1 p2. eexists. split; [by vm_compute|].
  apply (boundary_slot_unreported (Ref.host t) Ref.api 0%nat).
  - intros x y _ _. reflexivity.
  - by vm_compute.
  - by vm_compute.
  - apply (list_elem_of_lookup_2 _ 1%nat). by vm_compute.
  - apply (list_elem_of_lookup_2 _ 2%nat). by vm_compute.
  - by vm_compute.
  - by vm_compute.
Defined.

(** ** Times as strings *)

Lemma digit_lt_10 (c : ascii) (k : nat) : Ascii.is_nat c = Some k → (k < 10)%nat.
Proof. destruct c as [[] [] [] [] [] [] [] []]; cbn; intros [= <-]; lia. Qed.

Lemma digit_compare (c d : ascii) (k l : nat) :
  Ascii.is_nat c = Some k → Ascii.is_nat d = Some l →
  Ascii.compare c d = Nat.compare k l.
Proof.
  destruct c as [[] [] [] [] [] [] [] []]; cbn; try done; intros [= <-];
    destruct d as [[] [] [] [] [] [] [] []]; cbn; try done; by intros [= <-].
Qed.

Lemma clockOf_inv (s : string) (hh mm : Z) :
  clockOf s = Some (hh, mm) →
  ∃ c1 c2 c3 c4 k1 k2 k3 k4,
    s = String c1 (String c2 (String ":" (String c3 (String c4 EmptyString))))
    ∧ Ascii.is_nat c1 = Some k1 ∧ Ascii.is_nat c2 = Some k2
    ∧ Ascii.is_nat c3 = Some k3 ∧ Ascii.is_nat c4 = Some k4
    ∧ hh = Z.of_nat (10 * k1 + k2) ∧ mm = Z.of_nat (10 * k3 + k4).
Proof.
  destruct s as [|a [|b [|c0 [|c [|d [|]]]]]]; unfold clockOf; try done;
    destruct c0 as [[] [] [] [] [] [] [] []]; try done.
  destruct (Ascii.is_nat a) as [ka|] eqn:Ha; [|done].
  destruct (Ascii.is_nat b) as [kb|] eqn:Hb; [|done].
  destruct (Ascii.is_nat c) as [kc|] eqn:Hc; [|done].
  destruct (Ascii.is_nat d) as [kd|] eqn:Hd; [|done].
  intros [= <- <-]. by exists a, b, c, d, ka, kb, kc, kd.
Qed.

Lemma validTime_clockOf (s : string) :
  validTime s = true → ∃ hh mm, clockOf s = Some (hh, mm) ∧ 0 ≤ hh < 24 ∧ 0 ≤ mm < 60.
Proof.
  unfold validTime. destruct (clockOf s) as [[hh mm]|] eqn:Hc; [|done].
  intros [H1 H2]%andb_prop. exists hh, mm. split; [done|].
  apply clockOf_inv in Hc as (? & ? & ? & ? & ? & ? & ? & ? & _ & _ & _ & _ & _ & -> & ->).
  apply Z.ltb_lt in H1, H2. lia.
Qed.

Lemma minutesOfDay_clockOf (s : string) (hh mm : Z) :
  clockOf s = Some (hh, mm) → minutesOfDay s = hh * 60 + mm.
Proof. unfold minutesOfDay. by intros ->. Qed.

(** On valid times the order of the strings is the order of the times. *)
Lemma compare_validTime (a b : string) :
  validTime a = true → validTime b = true →
  String.compare a b = Z.compare (minutesOfDay a) (minutesOfDay b).
Proof.
  intros (ha & ma & Ha & _ & Hma)%validTime_clockOf (hb & mb & Hb & _ & Hmb)%validTime_clockOf.
  rewrite (minutesOfDay_clockOf _ _ _ Ha), (minutesOfDay_clockOf _ _ _ Hb).
  apply clockOf_inv in Ha as (a1 & a2 & a3 & a4 & k1 & k2 & k3 & k4 & -> & Ha1 & Ha2 & Ha3 & Ha4 & -> & ->).
  apply clockOf_inv in Hb as (b1 & b2 & b3 & b4 & l1 & l2 & l3 & l4 & -> & Hb1 & Hb2 & Hb3 & Hb4 & -> & ->).
  cbn [String.compare].
  rewrite (digit_compare _ _ _ _ Ha1 Hb1), (digit_compare _ _ _ _ Ha2 Hb2),
    (digit_compare _ _ _ _ Ha3 Hb3), (digit_compare _ _ _ _ Ha4 Hb4).
  change (Ascii.compare ":" ":") with Eq. cbn match.
  pose proof (digit_lt_10 _ _ Ha2). pose proof (digit_lt_10 _ _ Hb2).
  pose proof (digit_lt_10 _ _ Ha4). pose proof (digit_lt_10 _ _ Hb4).
  symmetry.
  destruct (Nat.compare_spec k1 l1); [|apply Z.compare_lt_iff; lia|apply Z.compare_gt_iff; lia].
  destruct (Nat.compare_spec k2 l2); [|apply Z.compare_lt_iff; lia|apply Z.compare_gt_iff; lia].
  destruct (Nat.compare_spec k3 l3); [|apply Z.compare_lt_iff; lia|apply Z.compare_gt_iff; lia].
  destruct (Nat.compare_spec k4 l4); [|apply Z.compare_lt_iff; lia|apply Z.compare_gt_iff; lia].
  apply Z.compare_eq_iff. lia.
Qed.

Lemma str_lt_minutes (a b : string) :
  validTime a = true → validTime b = true →
  str_lt a b = true ↔ minutesOfDay a < minutesOfDay b.
Proof.
  intros Ha Hb. unfold str_lt, String.ltb. rewrite (compare_validTime a b Ha Hb).
  destruct (Z.compare_spec (minutesOfDay a) (minutesOfDay b)); split; (done || lia).
Qed.

Lemma str_le_minutes (a b : string) :
  validTime a = true → validTime b = true →
  str_le a b = true ↔ minutesOfDay a ≤ minutesOfDay b.
Proof.
  intros Ha Hb. unfold str_le. rewrite negb_true_iff.
  pose proof (str_lt_minutes b a Hb Ha) as Hlt.
  split.
  - intros Hf. rewrite Hf in Hlt.
    destruct (Z.lt_ge_cases (minutesOfDay b) (minutesOfDay a)) as [Hc|Hc]; [|lia].
    by apply Hlt in Hc.
  - intros Hle. destruct (str_lt b a); [|done].
    assert (minutesOfDay b < minutesOfDay a) by (by apply Hlt). lia.
Qed.

Lemma minutesOfDay_toTimeString5 (t : Z) :
  minutesOfDay (toTimeString5 t) = getHours t * 60 + getMinutes t.
Proof. apply minutesOfDay_clockOf, clockOf_toTimeString5. Qed.

(** X10 — The comparisons of [HH:MM] strings are comparisons of times.
    For every clock value [t] and valid times [s] and [e]:
    [isTimeInRange] holds of the time string of [t] exactly when the
    minute of the day of [t] lies between those of [s] and [e], both
    included, and the test [start > now] of the search for the next slot
    holds exactly when [s] is a later minute than that of [t]. *)
Theorem isTimeInRange_minutes (t : Z) (s e : string) :
  validTime s = true →
  validTime e = true →
  (API.isTimeInRange (API.formatTimeForComparison t) s e = true
   ↔ minutesOfDay s ≤ getHours t * 60 + getMinutes t ≤ minutesOfDay e)
  ∧ (str_gt s (API.formatTimeForComparison t) = true
     ↔ getHours t * 60 + getMinutes t < minutesOfDay s).
Proof.
  intros Hs He. unfold API.formatTimeForComparison.
  pose proof (validTime_toTimeString5 t) as Ht.
  rewrite <- minutesOfDay_toTimeString5. split.
  - unfold API.isTimeInRange. rewrite andb_true_iff.
    change (str_ge (toTimeString5 t) s) with (str_le s (toTimeString5 t)).
    rewrite (str_le_minutes _ _ Hs Ht), (str_le_minutes _ _ Ht He). done.
  - unfold str_gt. by apply str_lt_minutes.
Qed.

Lemma isTimeInRange_minutes_witness :
  (API.isTimeInRange (API.formatTimeForComparison (Ref.at_ 2025 12 15 9 20 30 0))
     "08:40" "09:20" = true
   ↔ minutesOfDay "08:40"
     ≤ getHours (Ref.at_ 2025 12 15 9 20 30 0) * 60 + getMinutes (Ref.at_ 2025 12 15 9 20 30 0)
     ≤ minutesOfDay "09:20")
  ∧ (str_gt "08:40" (API.formatTimeForComparison (Ref.at_ 2025 12 15 9 20 30 0)) = true
     ↔ getHours (Ref.at_ 2025 12 15 9 20 30 0) * 60 + getMinutes (Ref.at_ 2025 12 15 9 20 30 0)
       < minutesOfDay "08:40").
Proof.
  apply (isTimeInRange_minutes (Ref.at_ 2025 12 15 9 20 30 0) "08:40" "09:20");
    by vm_compute.
Defined.

(** ** Durations *)

(** What [calculateDuration] reads in a string of the form [HH:MM]. *)
Lemma toNumber_clockOf (s : string) (hh mm : Z) :
  clockOf s = Some (hh, mm) →
  toNumber <$> split ":" s = [Num hh; Num mm].
Proof.
  intros (c1 & c2 & c3 & c4 & k1 & k2 & k3 & k4 & -> & H1 & H2 & H3 & H4 & -> & ->)%clockOf_inv.
  unfold split. cbn [split_go].
  rewrite (digit_not_colon c1 k1 H1), (digit_not_colon c2 k2 H2).
  change (Ascii.eqb ":" ":") with true. cbn [split_go].
  rewrite (digit_not_colon c3 k3 H3), (digit_not_colon c4 k4 H4).
  cbn. unfold toNumber. cbn. rewrite H1, H2, H3, H4. cbn.
  do 2 f_equal; [|f_equal]; f_equal; lia.
Qed.

Lemma calculateDuration_minutes (s e : string) :
  validTime s = true → validTime e = true →
  API.calculateDuration s e = Num (minutesOfDay e - minutesOfDay s).
Proof.
  intros (hs & ms & Hs & _)%validTime_clockOf (he & me & He & _)%validTime_clockOf.
  unfold API.calculateDuration.
  rewrite (toNumber_clockOf _ _ _ Hs), (toNumber_clockOf _ _ _ He).
  rewrite (minutesOfDay_clockOf _ _ _ Hs), (minutesOfDay_clockOf _ _ _ He). done.
Qed.

Lemma minutesOfDay_range (s : string) :
  validTime s = true → 0 ≤ minutesOfDay s < 1440.
Proof.
  intros (hh & mm & Hc & ? & ?)%validTime_clockOf.
  rewrite (minutesOfDay_clockOf _ _ _ Hc). lia.
Qed.

Lemma catalogOrder_duration (this : API.TimetableAPI) (tbl : Timetable) (dayCycle : option Z)
    (x : API.ScheduleItem) :
  x ∈ catalogOrder this tbl dayCycle →
  API.duration x = API.calculateDuration (API.start x) (API.end_ x).
Proof.
  unfold catalogOrder. rewrite !elem_of_app.
  intros [Hx|[Hx|Hx]].
  - destruct (preSchoolAssembly tbl); cbn in Hx; [|by apply elem_of_nil in Hx].
    by apply list_elem_of_singleton in Hx as ->.
  - by apply elem_of_lookup_imap in Hx as (i & p & -> & _).
  - by apply list_elem_of_fmap in Hx as (b & -> & _).
Qed.

(** X11 — The durations of a day's schedule.  In the schedule that
    [buildSchedule] makes of a valid definition, the [duration] of every
    entry is a number, never [NaN]: the number of minutes from its start
    to its end, more than 0 and less than a day. *)
Theorem schedule_durations (h : Host) (this : API.TimetableAPI) (tbl : Timetable)
    (dayCycle : option Z) (x : API.ScheduleItem) :
  validTimetable tbl = true →
  x ∈ API.buildSchedule h this tbl dayCycle →
  API.duration x = Num (minutesOfDay (API.end_ x) - minutesOfDay (API.start x))
  ∧ 0 < minutesOfDay (API.end_ x) - minutesOfDay (API.start x) < 1440.
Proof.
  intros Hv Hx. unfold validTimetable in Hv.
  apply andb_prop in Hv as [Hv _]. apply andb_prop in Hv as [Hwf Hlt].
  rewrite buildSchedule_catalogOrder in Hx.
  rewrite (arraySort_perm (API.byStart h) (catalogOrder this tbl dayCycle)) in Hx.
  destruct (catalogOrder_validTime this tbl dayCycle x Hwf Hx) as [Hs He].
  assert (str_lt (API.start x) (API.end_ x) = true) as Hse.
  { apply (list_elem_of_fmap_2 (λ x, (API.start x, API.end_ x))) in Hx.
    rewrite catalogOrder_slots in Hx.
    by apply (forallb_elem_of _ _ _ Hlt) in Hx. }
  apply (str_lt_minutes _ _ Hs He) in Hse.
  pose proof (minutesOfDay_range _ Hs). pose proof (minutesOfDay_range _ He).
  split; [|lia].
  rewrite (catalogOrder_duration this tbl dayCycle x Hx).
  by apply calculateDuration_minutes.
Qed.

Lemma schedule_durations_witness :
  ∃ x, API.start x = "08:15" ∧ API.end_ x = "08:40"
       ∧ API.duration x = Num (minutesOfDay (API.end_ x) - minutesOfDay (API.start x))
       ∧ 0 < minutesOfDay (API.end_ x) - minutesOfDay (API.start x) < 1440.
Proof.
  pose (x := API.assemblyItem (Ref.slot "08:15" "08:40")).
  exists x. split; [done|split; [done|]].
  apply (schedule_durations (Ref.host 0) Ref.api Ref.normalDay (Some 6) x).
  - by vm_compute.
  - vm_compute. constructor.
Defined.

(** ** The display of the remaining time *)

Lemma twoDigits_pad_all :
  forallb (λ k, bool_decide (twoDigits (padStart 2 "0" (toString k)) = Some k)) (seqZ 0 100)
  = true.
Proof. by vm_compute. Qed.

Lemma twoDigits_pad (k : Z) :
  0 ≤ k < 100 → twoDigits (padStart 2 "0" (toString k)) = Some k.
Proof.
  intros Hk. pose proof twoDigits_pad_all as Hall.
  apply (forallb_elem_of _ _ k) in Hall; [|apply elem_of_seqZ; lia].
  by apply bool_decide_eq_true in Hall.
Qed.

Lemma twoDigits_inv (s : string) (k : Z) :
  twoDigits s = Some k →
  ∃ a b ka kb, s = String a (String b EmptyString)
               ∧ Ascii.is_nat a = Some ka ∧ Ascii.is_nat b = Some kb
               ∧ k = Z.of_nat (10 * ka + kb).
Proof.
  destruct s as [|a [|b [|]]]; unfold twoDigits; try done.
  destruct (Ascii.is_nat a) as [ka|] eqn:Ha; [|done].
  destruct (Ascii.is_nat b) as [kb|] eqn:Hb; [|done].
  intros [= <-]. by exists a, b, ka, kb.
Qed.

Lemma secondsOf_join (h m s : string) (kh km ks : Z) :
  twoDigits h = Some kh → twoDigits m = Some km → twoDigits s = Some ks →
  secondsOf (h +:+ ":" +:+ m +:+ ":" +:+ s) = Some (kh * 3600 + km * 60 + ks)
  ∧ String.length (h +:+ ":" +:+ m +:+ ":" +:+ s) = 8%nat.
Proof.
  intros (a1 & b1 & ? & ? & -> & H1 & H2 & ->)%twoDigits_inv
         (a2 & b2 & ? & ? & -> & H3 & H4 & ->)%twoDigits_inv
         (a3 & b3 & ? & ? & -> & H5 & H6 & ->)%twoDigits_inv.
  cbv [String.append secondsOf String.length]. by rewrite H1, H2, H3, H4, H5, H6.
Qed.

Lemma formatSeconds_parts (s : Z) :
  0 ≤ s < 360000 →
  secondsOf (API.formatSeconds s) = Some s ∧ String.length (API.formatSeconds s) = 8%nat.
Proof.
  intros Hs. unfold API.formatSeconds.
  rewrite !Z.rem_mod_nonneg by lia.
  assert (s = s / 3600 * 3600 + s mod 3600 / 60 * 60 + s mod 60) as Heq
    by (Z.div_mod_to_equations; lia).
  rewrite Heq at 4.
  apply secondsOf_join; apply twoDigits_pad; Z.div_mod_to_equations; lia.
Qed.

(** X12 — [formatSeconds] can be read back.  For a number of seconds from
    0 to 359999 (less than 100 hours) the text has the 8 characters of
    [HH:MM:SS] and shows that number: hours, minutes and seconds are two
    digits each and add up to the argument; two such numbers with the same
    text are equal. *)
Theorem formatSeconds_roundtrip (s s' : Z) :
  0 ≤ s < 360000 →
  secondsOf (API.formatSeconds s) = Some s
  ∧ String.length (API.formatSeconds s) = 8%nat
  ∧ (0 ≤ s' < 360000 → API.formatSeconds s = API.formatSeconds s' → s = s').
Proof.
  intros Hs. destruct (formatSeconds_parts s Hs) as [Hr Hl].
  split; [done|split; [done|]].
  intros Hs' Heq. destruct (formatSeconds_parts s' Hs') as [Hr' _].
  rewrite Heq in Hr. congruence.
Qed.

Lemma formatSeconds_roundtrip_witness :
  secondsOf (API.formatSeconds 3725) = Some 3725
  ∧ String.length (API.formatSeconds 3725) = 8%nat
  ∧ (0 ≤ 3725 < 360000 → API.formatSeconds 3725 = API.formatSeconds 3725 → 3725 = 3725).
Proof. apply (formatSeconds_roundtrip 3725 3725). lia. Defined.

Lemma endOfSlotToday_minutes (now : Z) (e : string) :
  endOfSlotToday now e - now
  = (minutesOfDay e - (getHours now * 60 + getMinutes now)) * msPerMinute
    - now mod msPerMinute.
Proof.
  unfold endOfSlotToday, minutesOfDay.
  destruct (default (0, 0) (clockOf e)) as [hh mm].
  pose proof (time_value_split now) as Hsplit.
  unfold msPerDay, msPerHour, msPerMinute in *. lia.
Qed.

(** X13 — The displayed remaining time.  With a catalog of valid
    definitions, when [getCurrent] gives a [remainingFormatted] (the date
    read by [parseTimeToDate] being of the same day as [now]): there is a
    current slot, the text reads back as [remainingSeconds], and that
    number is more than 0 and at most 60 times the number of minutes from
    the minute of [now] to the end of the slot, so less than a day. *)
Theorem remaining_display (h : Host) (this : API.TimetableAPI) (n : nat)
    (c : API.CurrentData) (f : string) :
  collatesTimes h →
  validCatalog (API.timetableData this) = true →
  data (API.getCurrent h this n).1 = Some c →
  Day (clock h (S (S n))) = Day (clock h n) →
  API.remainingFormatted c = Some f →
  ∃ x z, API.currentPeriod c = Some x
         ∧ API.remainingSeconds c = Some (Num z)
         ∧ secondsOf f = Some z
         ∧ 0 < z ≤ 60 * (minutesOfDay (API.end_ x)
                          - (getHours (clock h n) * 60 + getMinutes (clock h n)))
         ∧ z < 86400.
Proof.
  intros Hh Hc Hd Hday Hf.
  assert (∃ x, API.currentPeriod c = Some x) as [x Hx].
  { destruct c as [d|d]; [done|]. cbn in Hf |- *.
    destruct (getCurrent_located h this n d Hd) as (_ & _ & _ & Hr & Hfmt).
    rewrite Hfmt, Hr in Hf. destruct (API.lo_currentPeriod d); [by eexists|done]. }
  destruct (remainingSeconds_value h this n c x Hh Hc Hd Hx) as (z & Hz & Hz0 & Hval).
  specialize (Hval Hday).
  assert (f = API.formatSeconds z ∧ z ≠ 0) as [-> Hnz].
  { destruct c as [d|d]; [done|]. cbn in Hf, Hz.
    destruct (getCurrent_located h this n d Hd) as (_ & _ & _ & _ & Hfmt).
    rewrite Hfmt, Hz in Hf. unfold truthy, Z_truthy in Hf.
    destruct (Z.eqb_spec z 0) as [Hz'|Hnz]; cbn in Hf; [done|]. by injection Hf as <-. }
  assert (validTime (API.end_ x) = true) as Hv.
  { destruct c as [d|d]; [done|]. cbn in Hx.
    destruct (getCurrent_located h this n d Hd) as (Hcur & _).
    rewrite Hx in Hcur. symmetry in Hcur. apply firstMatch_elem_of in Hcur.
    destruct (todaySchedule_wellFormed h this n Hh Hc) as (_ & _ & Hok).
    by destruct (Hok x Hcur) as (_ & _ & Hv). }
  pose proof (minutesOfDay_range _ Hv) as Hrange.
  pose proof (getHours_range (clock h n)) as Hhr.
  pose proof (getMinutes_range (clock h n)) as Hmr.
  assert (0 < z ≤ 60 * (minutesOfDay (API.end_ x)
                          - (getHours (clock h n) * 60 + getMinutes (clock h n)))) as Hb.
  { unfold remainingAt in Hval. rewrite endOfSlotToday_minutes in Hval.
    unfold msPerMinute in Hval.
    set (m := minutesOfDay (API.end_ x)
              - (getHours (clock h n) * 60 + getMinutes (clock h n))) in *.
    split; [lia|]. rewrite Hval. Z.div_mod_to_equations. lia. }
  exists x, z. split; [done|]. split; [done|]. split; [|split; [done|lia]].
  apply formatSeconds_parts. lia.
Qed.

Lemma remaining_display_witness :
  let t := Ref.at_ 2025 12 15 9 19 30 0 in
  ∃ c, data (API.getCurrent (Ref.host t) Ref.api 0%nat).1 = Some c
       ∧ API.remainingFormatted c = Some "00:00:30"
       ∧ ∃ x z, API.currentPeriod c = Some x
                ∧ API.remainingSeconds c = Some (Num z)
                ∧ secondsOf "00:00:30" = Some z
                ∧ 0 < z ≤ 60 * (minutesOfDay (API.end_ x)
                                 - (getHours (clock (Ref.host t) 0%nat) * 60
                                    + getMinutes (clock (Ref.host t) 0%nat)))
                ∧ z < 86400.
Proof.
  intros t. eexists. split; [by vm_compute|]. split; [by vm_compute|].
  apply (remaining_display (Ref.host t) Ref.api 0%nat).
  - intros x y _ _. reflexivity.
  - by vm_compute.
  - by vm_compute.
  - by vm_compute.
  - by vm_compute.
Defined.

(** ** The page and the query interface on the current slot *)

Lemma minutesOfDay_inj (a b : string) :
  validTime a = true → validTime b = true → minutesOfDay a = minutesOfDay b → a = b.
Proof.
  intros Ha Hb Hm. apply String.compare_eq_iff.
  rewrite (compare_validTime a b Ha Hb). by apply Z.compare_eq_iff.
Qed.

Lemma inRange_minutes (cur s e : string) :
  validTime cur = true → validTime s = true → validTime e = true →
  API.isTimeInRange cur s e = true
  ↔ minutesOfDay s ≤ minutesOfDay cur ≤ minutesOfDay e.
Proof.
  intros Hc Hs He. unfold API.isTimeInRange. rewrite andb_true_iff.
  change (str_ge cur s) with (str_le s cur).
  by rewrite (str_le_minutes _ _ Hs Hc), (str_le_minutes _ _ Hc He).
Qed.

Lemma apart_minutes (s1 e1 s2 e2 : string) :
  validTime s1 = true → validTime e1 = true → validTime s2 = true → validTime e2 = true →
  apart (s1, e1) (s2, e2) = true
  ↔ minutesOfDay e1 ≤ minutesOfDay s2 ∨ minutesOfDay e2 ≤ minutesOfDay s1.
Proof.
  intros H1 H2 H3 H4. unfold apart. cbn. rewrite orb_true_iff.
  by rewrite (str_le_minutes _ _ H2 H3), (str_le_minutes _ _ H4 H1).
Qed.

Lemma firstMatch_none_iff {A} (p : A → bool) (l : list A) :
  firstMatch p l = None ↔ ∀ x, x ∈ l → p x = false.
Proof.
  split.
  - intros Hf%firstMatch_None. by apply Forall_forall.
  - intros Hall. destruct (firstMatch p l) as [x|] eqn:Hf; [|done].
    pose proof (firstMatch_elem_of _ _ _ Hf) as Hx.
    apply firstMatch_Some in Hf as (_ & _ & _ & Hp & _).
    rewrite (Hall x Hx) in Hp. done.
Qed.

Section page_current.
Context (w : Globals) (dc : option Z) (cur : string).

Lemma checkPeriods_spec (i : nat) (ps : list Period) :
  match Live.checkPeriods w dc cur i ps with
  | Some r => ∃ j p, ps !! j = Some p
                     ∧ API.isTimeInRange cur (p_start p) (p_end p) = true
                     ∧ r = infoOf (API.periodItem (API.new w) dc p (i + j))
  | None => ∀ p, p ∈ ps → API.isTimeInRange cur (p_start p) (p_end p) = false
  end.
Proof.
  revert i. induction ps as [|p ps IH]; intros i; cbn [Live.checkPeriods].
  { intros p Hp. by apply elem_of_nil in Hp. }
  change (Live.isTimeInRange cur (p_start p) (p_end p))
    with (API.isTimeInRange cur (p_start p) (p_end p)).
  destruct (API.isTimeInRange cur (p_start p) (p_end p)) eqn:Hin.
  - exists 0%nat, p. split; [done|]. split; [done|]. by rewrite Nat.add_0_r.
  - specialize (IH (S i)). destruct (Live.checkPeriods w dc cur (S i) ps) as [r|].
    + destruct IH as (j & q & Hq & Hr & ->). exists (S j), q.
      split; [done|]. split; [done|]. by rewrite Nat.add_succ_r.
    + intros q [->|Hq]%elem_of_cons; [done|by apply IH].
Qed.

Lemma checkBreaks_spec (bs : list Break) :
  match Live.checkBreaks cur bs with
  | Some r => ∃ b, b ∈ bs
                   ∧ API.isTimeInRange cur (b_start b) (b_end b) = true
                   ∧ r = infoOf (API.breakItem b 0)
  | None => ∀ b, b ∈ bs → API.isTimeInRange cur (b_start b) (b_end b) = false
  end.
Proof.
  induction bs as [|b bs IH]; cbn [Live.checkBreaks].
  { intros b Hb. by apply elem_of_nil in Hb. }
  change (Live.isTimeInRange cur (b_start b) (b_end b))
    with (API.isTimeInRange cur (b_start b) (b_end b)).
  destruct (API.isTimeInRange cur (b_start b) (b_end b)) eqn:Hin.
  - exists b. split; [by left|done].
  - destruct (Live.checkBreaks cur bs) as [r|].
    + destruct IH as (q & Hq & Hr & ->). exists q. split; [by right|done].
    + intros q [->|Hq]%elem_of_cons; [done|by apply IH].
Qed.

(** [findCurrentPeriod] returns the description of a slot of the
    definition that contains [cur], or the free time when there is none. *)
Lemma findCurrentPeriod_spec (tbl : Timetable) :
  let inRange := λ x, API.isTimeInRange cur (API.start x) (API.end_ x) in
  (Live.findCurrentPeriod w dc cur tbl = Live.freeInfo
   ∧ ∀ x, x ∈ catalogOrder (API.new w) tbl dc → inRange x = false)
  ∨ ∃ y, y ∈ catalogOrder (API.new w) tbl dc ∧ inRange y = true
         ∧ Live.findCurrentPeriod w dc cur tbl = infoOf y.
Proof.
  intros inRange. unfold Live.findCurrentPeriod, catalogOrder.
  pose proof (checkPeriods_spec 0 (periods tbl)) as Hp.
  destruct (Live.checkPeriods w dc cur 0 (periods tbl)) as [r|].
  { destruct Hp as (j & p & Hj & Hin & ->). right.
    exists (API.periodItem (API.new w) dc p j). split; [|done].
    rewrite !elem_of_app. right. left. apply elem_of_lookup_imap. by exists j, p. }
  pose proof (checkBreaks_spec (breaks tbl)) as Hb.
  destruct (Live.checkBreaks cur (breaks tbl)) as [r|].
  { destruct Hb as (b & Hb & Hin & ->). right.
    exists (API.breakItem b 0). split; [|done].
    rewrite !elem_of_app. right. right.
    by apply (list_elem_of_fmap_2 (λ b, API.breakItem b 0)). }
  assert (∀ x, x ∈ imap (λ i p, API.periodItem (API.new w) dc p i) (periods tbl)
                   ++ ((λ b, API.breakItem b 0) <$> breaks tbl) → inRange x = false) as Hrest.
  { intros x [Hx|Hx]%elem_of_app.
    - apply elem_of_lookup_imap in Hx as (i & p & -> & Hi).
      apply Hp. by eapply list_elem_of_lookup_2.
    - apply list_elem_of_fmap in Hx as (b & -> & Hx). by apply Hb. }
  destruct (preSchoolAssembly tbl) as [a|]; cbn [fmap option_fmap option_map option_list].
  - change (Live.isTimeInRange cur (p_start a) (p_end a)) with (inRange (API.assemblyItem a)).
    destruct (inRange (API.assemblyItem a)) eqn:Hin.
    + right. exists (API.assemblyItem a). split; [by left|done].
    + left. split; [done|]. intros x [->|Hx]%elem_of_cons; [done|by apply Hrest].
  - left. split; [done|]. intros x Hx. by apply Hrest.
Qed.

End page_current.

Lemma infoOf_type_not_free (this : API.TimetableAPI) (tbl : Timetable) (dc : option Z)
    (y : API.ScheduleItem) :
  y ∈ catalogOrder this tbl dc → Live.type (infoOf y) ≠ "free".
Proof. intros [Hy|[Hy|Hy]]%catalogOrder_type; cbn; by rewrite Hy. Qed.

(** X14 — The current slot on the page and in the query interface.  For a
    valid definition and a valid time [cur], [findCurrentPeriod] of the
    page and the search of [getCurrent] in the sorted schedule find a slot
    in the same cases; with [x] the slot of the query interface, the page
    describes the same slot (type, name, start, end and subject) whenever
    [cur] is not the end of [x]; they differ only when [cur] is the end of
    [x] and the start of the slot that the page describes. *)
Theorem page_current_agrees (h : Host) (w : Globals) (tbl : Timetable) (dc : option Z)
    (cur : string) :
  collatesTimes h →
  validTimetable tbl = true →
  validTime cur = true →
  let a := firstMatch (λ item, API.isTimeInRange cur (API.start item) (API.end_ item))
             (API.buildSchedule h (API.new w) tbl dc) in
  let p := Live.findCurrentPeriod w dc cur tbl in
  (a = None ↔ Live.type p = "free")
  ∧ ∀ x, a = Some x →
         (cur ≠ API.end_ x → p = infoOf x)
         ∧ (p ≠ infoOf x →
            cur = API.end_ x ∧ Live.start p = cur ∧ Live.type p ≠ "free").
Proof.
  intros Hh Hv Hc a p.
  destruct (buildSchedule_wellFormed h (API.new w) tbl dc Hh Hv) as (Hsort & Hapart & Hok).
  assert (∀ y, y ∈ catalogOrder (API.new w) tbl dc ↔ y ∈ API.buildSchedule h (API.new w) tbl dc)
    as Hmem.
  { intros y. by rewrite buildSchedule_catalogOrder, arraySort_perm. }
  pose proof (findCurrentPeriod_spec w dc cur tbl) as Hspec. cbn zeta in Hspec.
  fold p in Hspec. split.
  - unfold a. rewrite firstMatch_none_iff. split.
    + intros Hnone. destruct Hspec as [[-> _]|(y & Hy & Hin & _)]; [done|].
      apply Hmem in Hy. rewrite (Hnone y Hy) in Hin. done.
    + intros Hfree. destruct Hspec as [[_ Hnone]|(y & Hy & _ & Hp)].
      * intros x Hx. apply Hnone. by apply Hmem.
      * rewrite Hp in Hfree. by apply infoOf_type_not_free in Hy.
  - intros x Hx. pose proof (firstMatch_elem_of _ _ _ Hx) as Hxs.
    pose proof Hx as Hx'.
    apply firstMatch_Some in Hx' as (_ & _ & _ & Hxin & _).
    destruct Hspec as [[_ Hnone]|(y & Hy & Hyin & Hp)].
    { rewrite (Hnone x) in Hxin; [done|by apply Hmem]. }
    destruct (decide (y = x)) as [->|Hne].
    { split; [done|]. intros Hd. by rewrite Hp in Hd. }
    pose proof Hy as Hyc. apply Hmem in Hy.
    destruct (Hok x Hxs) as (Hxlt & Hxs1 & Hxe1).
    destruct (Hok y Hy) as (Hylt & Hys1 & Hye1).
    pose proof (pairwiseApart_elem (λ x, (API.start x, API.end_ x)) _ x y Hapart Hxs Hy
                  (not_eq_sym Hne)) as Hap.
    apply apart_minutes in Hap; [|done..].
    apply inRange_minutes in Hxin, Hyin; [|done..].
    apply str_lt_minutes in Hxlt, Hylt; [|done..].
    destruct Hap as [Hap|Hap].
    + assert (cur = API.end_ x) as Hce by (apply minutesOfDay_inj; [done..|lia]).
      assert (API.start y = cur) as Hsy by (apply minutesOfDay_inj; [done..|lia]).
      split; [done|]. intros _. split; [done|]. rewrite Hp.
      split; [done|]. by eapply infoOf_type_not_free.
    + assert (API.end_ y = cur) as Hey by (apply minutesOfDay_inj; [done..|lia]).
      pose proof (ending_slot_is_first _ cur y Hsort Hapart Hy) as Hfirst.
      unfold a in Hx. rewrite Hfirst in Hx; [congruence| |done].
      by apply str_lt_minutes.
Qed.

Lemma page_current_agrees_witness :
  let cur := "10:20" in
  let a := firstMatch (λ item, API.isTimeInRange cur (API.start item) (API.end_ item))
             (API.buildSchedule (Ref.host 0) (API.new Ref.globals) Ref.normalDay (Some 6)) in
  let p := Live.findCurrentPeriod Ref.globals (Some 6) cur Ref.normalDay in
  ∃ x, a = Some x ∧ API.type x = "break" ∧ Live.type p = "period"
       ∧ cur = API.end_ x ∧ Live.start p = cur ∧ Live.type p ≠ "free".
Proof.
  intros cur a p. eexists. split; [by vm_compute|].
  split; [by vm_compute|]. split; [by vm_compute|].
  edestruct (page_current_agrees (Ref.host 0) Ref.globals Ref.normalDay (Some 6) cur)
    as (_ & Hx).
  - intros x y _ _. reflexivity.
  - by vm_compute.
  - by vm_compute.
  - edestruct Hx as (_ & Hd); [by vm_compute|]. apply Hd. by vm_compute.
Defined.

(** ** The page and the query interface on the next slot *)

Section related.
Context {A B : Type} (R : A → B → Prop).

Lemma sortInsert_Forall2 (c1 : A → A → comparison) (c2 : B → B → comparison)
    (a : A) (b : B) (l1 : list A) (l2 : list B) :
  (∀ x y x' y', R x x' → R y y' → c1 x y = c2 x' y') →
  R a b → Forall2 R l1 l2 → Forall2 R (sortInsert c1 a l1) (sortInsert c2 b l2).
Proof.
  intros Hc Hab. induction 1 as [|x y l1 l2 Hxy Hl IH]; cbn.
  { by repeat constructor. }
  rewrite (Hc a x b y Hab Hxy).
  destruct (c2 b y); by repeat constructor.
Qed.

Lemma arraySort_Forall2 (c1 : A → A → comparison) (c2 : B → B → comparison)
    (l1 : list A) (l2 : list B) :
  (∀ x y x' y', R x x' → R y y' → c1 x y = c2 x' y') →
  Forall2 R l1 l2 → Forall2 R (arraySort c1 l1) (arraySort c2 l2).
Proof.
  intros Hc. induction 1 as [|x y l1 l2 Hxy Hl IH]; cbn; [constructor|].
  by apply sortInsert_Forall2.
Qed.

Lemma firstMatch_Forall2 (p : A → bool) (q : B → bool) (l1 : list A) (l2 : list B) :
  (∀ x y, R x y → p x = q y) →
  Forall2 R l1 l2 → option_Forall2 R (firstMatch p l1) (firstMatch q l2).
Proof.
  intros Hpq. induction 1 as [|x y l1 l2 Hxy Hl IH]; cbn; [constructor|].
  rewrite (Hpq x y Hxy). destruct (q y); [by constructor|done].
Qed.

Lemma imap_Forall2 {C} (f : nat → C → A) (g : nat → C → B) (l : list C) :
  (∀ i x, R (f i x) (g i x)) → Forall2 R (imap f l) (imap g l).
Proof.
  revert f g. induction l as [|x l IH]; intros f g Hfg; cbn; [constructor|].
  constructor; [done|]. apply IH. intros i y. apply Hfg.
Qed.

Lemma fmap_Forall2 {C} (f : C → A) (g : C → B) (l : list C) :
  (∀ x, R (f x) (g x)) → Forall2 R (f <$> l) (g <$> l).
Proof. intros Hfg. induction l; cbn; by constructor. Qed.

End related.

(** X15 — The next slot on the page and in the query interface.  For
    every definition and every time [cur], [findNextPeriod] of the page
    and the search of [getCurrent] for the first slot that starts after
    [cur] both find none, or find the same slot: the same type, name,
    start and end, and the same subject, except that for the assembly the
    page gives the [name] of the definition where the query interface
    gives [Pre-School Assembly]. *)
Theorem page_next_agrees (h : Host) (w : Globals) (tbl : Timetable) (dc : option Z)
    (cur : string) :
  match Live.findNextPeriod h w dc cur tbl,
        firstMatch (λ item, str_gt (API.start item) cur)
          (API.buildSchedule h (API.new w) tbl dc) with
  | Some p, Some x => sameSlot tbl p x
  | None, None => True
  | _, _ => False
  end.
Proof.
  pose (R := λ (s : Live.Slot) (x : API.ScheduleItem),
             Live.s_start s = API.start x ∧ sameSlot tbl (Live.nextInfo w dc s) x).
  assert (option_Forall2 R
            (firstMatch (λ slot, str_gt (Live.s_start slot) cur) (Live.allTimeSlots h tbl))
            (firstMatch (λ item, str_gt (API.start item) cur)
               (API.buildSchedule h (API.new w) tbl dc))) as Hrel.
  { apply firstMatch_Forall2; [by intros s x [-> _]|].
    rewrite buildSchedule_catalogOrder. unfold Live.allTimeSlots, catalogOrder.
    rewrite !forEachPush_imap.
    rewrite (imap_ignore _ (λ b, Live.breakSlot b 0)), <- app_assoc by done.
    apply arraySort_Forall2.
    { intros s1 s2 x1 x2 [H1 _] [H2 _]. unfold Live.byStart, API.byStart. by rewrite H1, H2. }
    apply Forall2_app; [|apply Forall2_app].
    - destruct (preSchoolAssembly tbl) as [a|] eqn:Ha; cbn; [|constructor].
      constructor; [|constructor]. split; [done|].
      repeat split; try done. intros _. by exists a.
    - apply imap_Forall2. intros i p. split; [done|].
      repeat split; try done.
    - apply fmap_Forall2. intros b. split; [done|].
      repeat split; try done. }
  unfold Live.findNextPeriod.
  destruct Hrel as [s x [_ Hsx]|]; cbn; done.
Qed.

(** ** The countdown of the page *)

(** X16 — The countdown of the page.  For a current slot whose end is a
    valid time, with [now] the first reading of the clock and [E] the end
    of the slot on the day of the second reading: once [E] is reached
    [updateCountdown] shows [00:00:00] and the label for time up; before
    that it shows the whole seconds left, written by the rule of
    [formatSeconds], the number that [getCurrent] reports as
    [remainingSeconds], and the label of the type of slot. *)
Theorem countdown_display (h : Host) (info : Live.PeriodInfo) (n : nat) :
  validTime (Live.end_ info) = true →
  let now := clock h n in
  let E := endOfSlotToday (clock h (S n)) (Live.end_ info) in
  (E ≤ now → Live.updateCountdown h (Some info) n = ("00:00:00", "時間已到", S (S n)))
  ∧ (now < E →
     Live.updateCountdown h (Some info) n
     = (API.formatSeconds (remainingAt E now), Live.countdownLabel (Live.type info),
        S (S n))
     ∧ API.remaining (Num E) now = Num (remainingAt E now)).
Proof.
  intros Hv now E.
  assert (truthy (Live.end_ info) = true) as Ht.
  { apply validTime_clockOf in Hv as (hh & mm & Hc & _).
    apply clockOf_inv in Hc as (? & ? & ? & ? & ? & ? & ? & ? & -> & _). done. }
  assert (Live.parseTimeToDate h (Live.end_ info) (S n) = (Num E, S (S n))) as Hp.
  { unfold Live.parseTimeToDate, bind, newDate, ret, E, endOfSlotToday. cbn.
    apply validTime_clockOf in Hv as (hh & mm & Hc & _).
    destruct (parseInt_clockOf _ _ _ Hc) as [-> ->].
    by rewrite setHours_Num, Hc. }
  unfold Live.updateCountdown. rewrite Ht. cbn [negb].
  unfold bind, newDate. rewrite Hp. cbn [num_sub lift2]. fold now. split.
  - intros Hle. by rewrite (proj2 (Z.leb_le (E - now) 0)) by lia.
  - intros Hlt. split; [|done].
    rewrite (proj2 (Z.leb_gt (E - now) 0)) by lia.
    unfold ret, floorDiv, Live.pad2, API.formatSeconds, remainingAt.
    rewrite !Z.rem_mod_nonneg by (try lia; Z.div_mod_to_equations; lia).
    rewrite Z.max_r by (Z.div_mod_to_equations; lia).
    do 2 f_equal. f_equal; [|f_equal; f_equal; [|f_equal]]; do 2 f_equal;
      Z.div_mod_to_equations; lia.
Qed.

Lemma countdown_display_witness :
  let t := Ref.at_ 2025 12 15 9 19 30 0 in
  let info := infoOf (API.periodItem Ref.api (Some 6) (Ref.slot "08:40" "09:20") 0%nat) in
  let now := clock (Ref.host t) 0%nat in
  let E := endOfSlotToday (clock (Ref.host t) 1%nat) (Live.end_ info) in
  API.formatSeconds (remainingAt E now) = "00:00:30"
  ∧ Live.updateCountdown (Ref.host t) (Some info) 0%nat
    = (API.formatSeconds (remainingAt E now), Live.countdownLabel (Live.type info), 2%nat)
  ∧ API.remaining (Num E) now = Num (remainingAt E now).
Proof.
  intros t info now E. split; [by vm_compute|].
  edestruct (countdown_display (Ref.host t) info 0%nat) as (_ & Hlt).
  - by vm_compute.
  - apply Hlt. by vm_compute.
Defined.

(** ** The names of the variants *)

(** X17 — The name of a day's variant on the page and in the query
    interface.  For the variant that a date string resolves to, the
    string being the name of no inherited property (as every date string
    is), [getTimetableTypeText] and [getTimetableTypeName] give the same
    text when the date has no special tag and when its tag is one of A to
    E; with any other tag the page shows the text of the normal timetable
    and the query interface shows the raw variant name. *)
Theorem variant_names (h : Host) (w : Globals) (dateStr : string) :
  ownNameOnly dateStr = true →
  let ty := App.getTimetableTypeForDate h w dateStr in
  match orNull (SPECIAL_DATES w !! dateStr) with
  | Some tag =>
      if bool_decide (tag ∈ ["A"; "B"; "C"; "D"; "E"])
      then Live.getTimetableTypeText ty = API.getTimetableTypeName ty
      else Live.getTimetableTypeText ty = "正常時間表"
           ∧ API.getTimetableTypeName ty = "special" +:+ tag
  | None => Live.getTimetableTypeText ty = API.getTimetableTypeName ty
  end.
Proof.
  intros _ ty. unfold ty, App.getTimetableTypeForDate.
  destruct (orNull (SPECIAL_DATES w !! dateStr)) as [tag|].
  - case_bool_decide as Htag.
    + rewrite !elem_of_cons, elem_of_nil in Htag.
      destruct Htag as [->|[->|[->|[->|[->|[]]]]]]; by vm_compute.
    + unfold Live.getTimetableTypeText, API.getTimetableTypeName.
      rewrite !not_elem_of_list_to_map_1; [done|..].
      * cbn. rewrite !elem_of_cons, elem_of_nil.
        intros [H|[H|[H|[H|[H|[H|[H|[]]]]]]]]; cbv [String.append] in H;
          try discriminate H; injection H as H; apply Htag; rewrite H; set_solver.
      * cbn. rewrite !elem_of_cons, elem_of_nil.
        intros [H|[H|[H|[H|[H|[H|[]]]]]]]; cbv [String.append] in H;
          try discriminate H; injection H as H; apply Htag; rewrite H; set_solver.
  - destruct (App.isNonSchoolDay h w dateStr); [by vm_compute|].
    destruct (parseDate h _); [|by vm_compute].
    destruct (getDay _ =? 5); by vm_compute.
Qed.

(** 2025-12-16 has the tag C, which both tables of names know;
    2025-12-15 has no tag and resolves to the normal timetable. *)
Lemma variant_names_witness :
  ownNameOnly "2025-12-16" = true
  ∧ Live.getTimetableTypeText (App.getTimetableTypeForDate (Ref.host 0) Ref.globals "2025-12-16")
    = API.getTimetableTypeName (App.getTimetableTypeForDate (Ref.host 0) Ref.globals "2025-12-16")
  ∧ API.getTimetableTypeName (App.getTimetableTypeForDate (Ref.host 0) Ref.globals "2025-12-16")
    = "特殊時間表C - 長集會".
Proof.
  split; [by vm_compute|]. split; [|by vm_compute].
  pose proof (variant_names (Ref.host 0) Ref.globals "2025-12-16") as Hv.
  assert (orNull (SPECIAL_DATES Ref.globals !! "2025-12-16") = Some "C") as Ho
    by (by vm_compute).
  cbv zeta in Hv. rewrite Ho in Hv.
  assert (bool_decide ("C" ∈ ["A"; "B"; "C"; "D"; "E"]) = true) as Hb by (by vm_compute).
  rewrite Hb in Hv. apply Hv. by vm_compute.
Defined.

(** ** The week *)

Lemma days_civil_roundtrip (z : Z) :
  let '(y, m, d) := civil_from_days z in days_from_civil y m d = z.
Proof.
  unfold civil_from_days, days_from_civil. cbv zeta.
  repeat match goal with
         | |- context [if ?b then _ else _] => destruct b eqn:?
         end.
  all: Z.div_mod_to_equations; lia.
Qed.

Lemma days_from_civil_add (y m d k : Z) :
  days_from_civil y m (d + k) = days_from_civil y m d + k.
Proof. unfold days_from_civil. cbv zeta. lia. Qed.

(** [setDate] by the day of the month plus [k] moves the date by [k]
    days, across the ends of months and years. *)
Lemma setDate_getDate (t k : Z) : setDate t (getDate t + k) = t + k * msPerDay.
Proof.
  unfold setDate, getFullYear, getMonth, getDate.
  pose proof (days_civil_roundtrip (Day t)) as Hrt.
  destruct (civil_from_days (Day t)) as [[y m] d]. cbn [fst snd].
  replace (m - 1 + 1) with m by lia.
  rewrite <- days_from_civil_add.
  replace (1 + (d + k - 1)) with (d + k) by lia.
  rewrite days_from_civil_add, Hrt.
  unfold Day, msPerDay. Z.div_mod_to_equations. lia.
Qed.

Lemma Day_add (t k : Z) : Day (t + k * msPerDay) = Day t + k.
Proof. unfold Day, msPerDay. Z.div_mod_to_equations. lia. Qed.

Lemma weekLoop_spec (h : Host) (this : API.TimetableAPI) (monday : Z) (i count : nat)
    (acc : list (Response API.DayData)) (n : nat) :
  API.weekLoop h this monday i count acc n
  = (acc ++ ((λ j, (API.getByDate h this
                      (API.formatDateToISO (monday + Z.of_nat (i + j) * msPerDay))
                      (n + j)%nat).1) <$> seq 0 count),
     (n + count)%nat).
Proof.
  revert i acc n. induction count as [|count IH]; intros i acc n; cbn [API.weekLoop].
  { unfold ret. cbn. by rewrite app_nil_r, Nat.add_0_r. }
  unfold bind. rewrite setDate_getDate.
  pose proof (getByDate_tick h this
                (API.formatDateToISO (monday + Z.of_nat i * msPerDay)) n) as Htick.
  destruct (API.getByDate h this _ n) as [r n'] eqn:Hr. cbn in Htick. subst n'.
  rewrite IH. cbn [seq fmap list_fmap]. rewrite <- app_assoc. cbn [app].
  rewrite !Nat.add_0_r, Hr. cbn [fst]. f_equal; [|lia].
  do 2 f_equal. rewrite <- fmap_S_seq, <- list_fmap_compose.
  apply list_fmap_ext. intros _ j _. cbn.
  by rewrite !Nat.add_succ_r.
Qed.

Lemma getWeek_value (h : Host) (this : API.TimetableAPI) (afterElapsed : Z → Z → Z)
    (n : nat) :
  let today := clock h n in
  let monday := today - ((getDay today + 6) mod 7) * msPerDay in
  API.getWeek h this afterElapsed n
  = ({| success := true; timestamp := clock h (n + 8)%nat;
        data := Some
          {| API.weekStart := API.formatDateToISO monday;
             API.weekEnd := API.formatDateToISO (afterElapsed monday (6 * msPerDay));
             API.days :=
               (λ j, data (API.getByDate h this
                             (API.formatDateToISO (monday + Z.of_nat j * msPerDay))
                             (n + 1 + j)%nat).1) <$> seq 0 7 |};
        error := None |}, (n + 9)%nat).
Proof.
  intros today monday.
  assert (setDate today (getDate today - (if getDay today =? 0 then 6 else getDay today - 1))
          = monday) as Hm.
  { replace (getDate today - (if getDay today =? 0 then 6 else getDay today - 1))
      with (getDate today + - ((getDay today + 6) mod 7)).
    - rewrite setDate_getDate. unfold monday. lia.
    - unfold getDay. destruct (Z.eqb_spec ((Day today + 4) mod 7) 0);
        Z.div_mod_to_equations; lia. }
  unfold API.getWeek, bind, newDate. fold today. rewrite Hm, weekLoop_spec.
  unfold ret. f_equal; [|lia]. f_equal; [f_equal; lia|].
  do 2 f_equal. rewrite app_nil_l, <- list_fmap_compose.
  apply list_fmap_ext. intros _ j _. cbn. do 3 f_equal. lia.
Qed.

Lemma formatDateToISO_same_day (t t' : Z) :
  Day t = Day t' → API.formatDateToISO t = API.formatDateToISO t'.
Proof. unfold API.formatDateToISO, getFullYear, getMonth, getDate. by intros ->. Qed.

Lemma getHours_add_days (t k : Z) : getHours (t + k * msPerDay) = getHours t.
Proof.
  unfold getHours, msPerDay, msPerHour.
  replace (t + k * 86400000) with (t + (k * 24) * 3600000) by lia.
  rewrite Z.div_add by lia. apply Z_mod_plus_full.
Qed.

Lemma Day_add_hour (t : Z) : 23 ≤ getHours t → Day (t + msPerHour) = Day t + 1.
Proof.
  unfold Day, getHours, msPerDay, msPerHour. intros Hh.
  Z.div_mod_to_equations. lia.
Qed.

Lemma Day_monday (today : Z) :
  Day (today - ((getDay today + 6) mod 7) * msPerDay)
  = Day today - (getDay today + 6) mod 7.
Proof.
  replace (today - (getDay today + 6) mod 7 * msPerDay)
    with (today + - ((getDay today + 6) mod 7) * msPerDay) by lia.
  rewrite Day_add. lia.
Qed.

Lemma getDay_monday (today : Z) :
  getDay (today - ((getDay today + 6) mod 7) * msPerDay) = 1.
Proof.
  unfold getDay at 1. rewrite Day_monday. unfold getDay.
  Z.div_mod_to_equations. lia.
Qed.

(** X18 — The week of [getWeek].  The week starts on the Monday on or
    before today: [weekStart] is the date of a Monday at most 6 days
    before today, and [days] holds the [data] of [getByDate] for the 7
    dates from [weekStart] on, each one the day after the one before,
    across the ends of months and years.  [weekEnd] is the date of the
    instant 6 times 24 hours of elapsed time after the Monday instant:
    the date of the last of the 7 days when that instant is of the sixth
    day after Monday, as it is without a change of the zone offset, and
    the date after it when the clocks have gone forward by an hour and
    the time of day is 23:00 or later.  The call
    succeeds whatever the days hold and reads the clock 9 times. *)
Theorem getWeek_week (h : Host) (this : API.TimetableAPI) (afterElapsed : Z → Z → Z)
    (n : nat) :
  let today := clock h n in
  let monday := today - ((getDay today + 6) mod 7) * msPerDay in
  let sunday := afterElapsed monday (6 * msPerDay) in
  API.getWeek h this afterElapsed n
  = ({| success := true; timestamp := clock h (n + 8)%nat;
        data := Some
          {| API.weekStart := API.formatDateToISO monday;
             API.weekEnd := API.formatDateToISO sunday;
             API.days :=
               (λ j, data (API.getByDate h this
                             (API.formatDateToISO (monday + Z.of_nat j * msPerDay))
                             (n + 1 + j)%nat).1) <$> seq 0 7 |};
        error := None |}, (n + 9)%nat)
  ∧ getDay monday = 1
  ∧ Day monday ≤ Day today ≤ Day monday + 6
  ∧ (Day sunday = Day monday + 6 →
     API.formatDateToISO sunday = API.formatDateToISO (monday + 6 * msPerDay))
  ∧ (sunday = monday + 6 * msPerDay + msPerHour → 23 ≤ getHours today →
     API.formatDateToISO sunday = API.formatDateToISO (monday + 7 * msPerDay)).
Proof.
  intros today monday sunday.
  split; [apply getWeek_value|]. split; [apply getDay_monday|]. split; [|split].
  - unfold monday. rewrite Day_monday. unfold getDay. Z.div_mod_to_equations. lia.
  - intros Hd. apply formatDateToISO_same_day. rewrite Day_add. lia.
  - intros -> Hh. apply formatDateToISO_same_day.
    replace (monday + 6 * msPerDay + msPerHour) with (monday + msPerHour + 6 * msPerDay)
      by lia.
    rewrite !Day_add.
    assert (Day (monday + msPerHour) = Day monday + 1); [|lia].
    apply Day_add_hour. unfold monday.
    replace (today - (getDay today + 6) mod 7 * msPerDay)
      with (today + - ((getDay today + 6) mod 7) * msPerDay) by lia.
    by rewrite getHours_add_days.
Qed.

(** Wednesday 2025-12-17 at 23:30: the week is that of Monday the 15th;
    with no change of the zone offset it ends on Sunday the 21st, and
    with the clocks gone forward by an hour on Monday the 22nd. *)
Lemma getWeek_week_witness :
  let t := Ref.at_ 2025 12 17 23 30 0 0 in
  let monday := Ref.at_ 2025 12 15 23 30 0 0 in
  (API.weekStart <$> data (API.getWeek (Ref.host t) Ref.api Z.add 0%nat).1 = Some "2025-12-15"
   ∧ API.weekEnd <$> data (API.getWeek (Ref.host t) Ref.api Z.add 0%nat).1 = Some "2025-12-21"
   ∧ API.formatDateToISO (Z.add monday (6 * msPerDay))
     = API.formatDateToISO (monday + 6 * msPerDay))
  ∧ (API.weekEnd
       <$> data (API.getWeek (Ref.host t) Ref.api (λ a ms, a + ms + msPerHour) 0%nat).1
     = Some "2025-12-22"
     ∧ API.formatDateToISO (monday + 6 * msPerDay + msPerHour)
       = API.formatDateToISO (monday + 7 * msPerDay)).
Proof.
  intros t monday. split.
  - split; [by vm_compute|]. split; [by vm_compute|].
    destruct (getWeek_week (Ref.host t) Ref.api Z.add 0%nat) as (_ & _ & _ & Hsame & _).
    apply Hsame. by vm_compute.
  - split; [by vm_compute|].
    destruct (getWeek_week (Ref.host t) Ref.api (λ a ms, a + ms + msPerHour) 0%nat)
      as (_ & _ & _ & _ & Hdst).
    apply Hdst; by vm_compute.
Defined.

(** X19 — The days of the week of [getWeek].  [days] has 7 entries.
    Entry [j] is [null] when the host does not read its date; when the
    host reads the date as a time of that day, the entry is the record of
    that date, its [dayOfWeekNumber] is [(j + 1) mod 7], so that the list
    runs from Monday to Sunday, and it is a weekend exactly for the last
    two entries. *)
Theorem getWeek_days (h : Host) (this : API.TimetableAPI) (afterElapsed : Z → Z → Z)
    (n j : nat) :
  (j < 7)%nat →
  let today := clock h n in
  let monday := today - ((getDay today + 6) mod 7) * msPerDay in
  let dateStr := API.formatDateToISO (monday + Z.of_nat j * msPerDay) in
  ∃ wd, data (API.getWeek h this afterElapsed n).1 = Some wd
        ∧ length (API.days wd) = 7%nat
        ∧ match parseDate h (dateStr +:+ "T00:00:00") with
          | None => API.days wd !! j = Some None
          | Some t =>
              Day t = Day monday + Z.of_nat j →
              ∃ d, API.days wd !! j = Some (Some d)
                   ∧ API.date d = dateStr
                   ∧ API.dayOfWeekNumber d = (Z.of_nat j + 1) mod 7
                   ∧ API.isWeekend d = bool_decide (5 ≤ j)%nat
          end.
Proof.
  intros Hj today monday dateStr.
  pose proof (getWeek_value h this afterElapsed n) as Hw. cbv zeta in Hw.
  fold today monday in Hw.
  rewrite Hw. cbn [fst data]. eexists. split; [done|].
  cbn [API.days]. split; [done|].
  rewrite list_lookup_fmap, lookup_seq_lt by done. cbn [fmap option_fmap option_map].
  rewrite Nat.add_0_l. fold dateStr. unfold API.getByDate.
  destruct (parseDate h (dateStr +:+ "T00:00:00")) as [t|]; [|done].
  intros Ht.
  assert (getDay t = (Z.of_nat j + 1) mod 7) as Hday.
  { pose proof (getDay_monday today) as Hmon. fold monday in Hmon.
    unfold getDay in *. rewrite Ht. Z.div_mod_to_equations. lia. }
  assert ((getDay t =? 0) || (getDay t =? 6) = bool_decide (5 ≤ j)%nat) as Hwe.
  { rewrite Hday. case_bool_decide as H5.
    - assert (j = 5 ∨ j = 6)%nat as [-> | ->] by lia; done.
    - assert (j = 0 ∨ j = 1 ∨ j = 2 ∨ j = 3 ∨ j = 4)%nat
        as [-> | [-> | [-> | [-> | ->]]]] by lia; done. }
  unfold bind, newDate, ret.
  repeat case_match; eexists; (split; [done|]); cbn; by rewrite ?Hwe, ?Hday.
Qed.

Lemma getWeek_days_witness :
  let t := Ref.at_ 2025 12 17 9 0 0 0 in
  ∃ wd d, data (API.getWeek (Ref.host t) Ref.api Z.add 0%nat).1 = Some wd
          ∧ length (API.days wd) = 7%nat
          ∧ API.days wd !! 5%nat = Some (Some d)
          ∧ API.date d = "2025-12-20"
          ∧ API.dayOfWeekNumber d = 6
          ∧ API.isWeekend d = true.
Proof.
  intros t.
  destruct (getWeek_days (Ref.host t) Ref.api Z.add 0%nat 5%nat)
    as (wd & Hwd & Hlen & Hd); [lia|].
  destruct (parseDate _ _) as [t'|] eqn:Hp in Hd; [|by vm_compute in Hp].
  destruct Hd as (d & Hd & Hdate & Hdow & Hwe).
  { vm_compute in Hp. injection Hp as <-. by vm_compute. }
  exists wd, d. split; [done|]. split; [done|]. split; [done|].
  split; [rewrite Hdate; by vm_compute|]. split; [rewrite Hdow; by vm_compute|].
  rewrite Hwe. by vm_compute.
Defined.

(** ** Reminders *)

Lemma parseInt_toString_all :
  forallb (λ z, bool_decide (parseInt (Some (toString z)) = Num z)) (seqZ 1 30) = true.
Proof. by vm_compute. Qed.

Lemma parseInt_toString (z : Z) : 1 ≤ z ≤ 30 → parseInt (Some (toString z)) = Num z.
Proof.
  intros Hz. pose proof parseInt_toString_all as Hall.
  apply (forallb_elem_of _ _ z) in Hall; [|apply elem_of_seqZ; lia].
  by apply bool_decide_eq_true in Hall.
Qed.

(** X20 — The reminder time is kept within 1 to 30 minutes and survives
    a reload.  [setReminderTime] of an integer sets [reminderMinutes] to
    that number brought into the range from 1 to 30, and a manager
    constructed from the storage that it leaves has the same
    [reminderMinutes] and the [enabled] of before.  With [NaN] the manager
    holds [NaN] and a manager constructed afterwards holds 5, as does one
    constructed from a storage without the entry. *)
Theorem reminder_time_persists (b : Notifications.Browser) (st : Notifications.World) (m : Z) :
  let st' := Notifications.setReminderTime (Num m) st in
  let nan := Notifications.setReminderTime NaN st in
  Notifications.reminderMinutes (Notifications.this st') = Num (Z.max 1 (Z.min 30 m))
  ∧ Notifications.reminderMinutes
      (Notifications.constructor b (Notifications.localStorage st'))
    = Num (Z.max 1 (Z.min 30 m))
  ∧ Notifications.enabled (Notifications.constructor b (Notifications.localStorage st'))
    = Notifications.enabled (Notifications.constructor b (Notifications.localStorage st))
  ∧ Notifications.reminderMinutes (Notifications.this nan) = NaN
  ∧ Notifications.reminderMinutes
      (Notifications.constructor b (Notifications.localStorage nan)) = Num 5
  ∧ Notifications.reminderMinutes
      (Notifications.constructor b (delete "reminder-minutes" (Notifications.localStorage st)))
    = Num 5.
Proof.
  intros st' nan. split; [done|]. split; [|split; [|split; [done|split]]].
  - unfold st', Notifications.setReminderTime, Notifications.constructor. cbn.
    rewrite lookup_insert_eq, parseInt_toString by lia.
    unfold truthy, Number_truthy, truthy, Z_truthy.
    destruct (Z.eqb_spec (Z.max 1 (Z.min 30 m)) 0); [lia|done].
  - unfold st', Notifications.setReminderTime, Notifications.constructor. cbn.
    by rewrite lookup_insert_ne.
  - unfold nan, Notifications.setReminderTime, Notifications.constructor. cbn.
    by rewrite lookup_insert_eq.
  - unfold Notifications.constructor. cbn. by rewrite lookup_delete_eq.
Qed.

Section reminders.
Context (h : Host) (api : option API.TimetableAPI).

(** A check changes nothing, or it has passed every test of
    [checkUpcomingClasses]. *)
Lemma check_cases (st : Notifications.World) (n : nat) :
  (Notifications.checkUpcomingClasses h api st n).1 = st
  ∨ ∃ a c next z,
    api = Some a
    ∧ Notifications.enabled (Notifications.this st) = true
    ∧ Notifications.permission (Notifications.this st) = "granted"
    ∧ data (API.getCurrent h a n).1 = Some c
    ∧ API.nextPeriod c = Some next
    ∧ API.type next = "period"
    ∧ floorDiv
        (num_sub
           (setHours (clock h (S (API.getCurrent h a n).2))
              (default NaN ((toNumber <$> split ":" (API.start next)) !! 0%nat))
              (default NaN ((toNumber <$> split ":" (API.start next)) !! 1%nat)))
           (Num (clock h (API.getCurrent h a n).2))) 60000 = Num z
    ∧ 0 < z
    ∧ Notifications.num_le (Num z) (Notifications.reminderMinutes (Notifications.this st))
      = true
    ∧ ((API.start next +:+ "-" +:+ API.name next)
       ∉ Notifications.scheduledNotifications (Notifications.this st))
    ∧ Notifications.checkUpcomingClasses h api st n
      = ({| Notifications.this :=
              {| Notifications.permission := "granted";
                 Notifications.enabled := true;
                 Notifications.reminderMinutes :=
                   Notifications.reminderMinutes (Notifications.this st);
                 Notifications.scheduledNotifications :=
                   {[API.start next +:+ "-" +:+ API.name next]}
                   ∪ Notifications.scheduledNotifications (Notifications.this st);
                 Notifications.checkInterval :=
                   Notifications.checkInterval (Notifications.this st) |};
            Notifications.localStorage := Notifications.localStorage st;
            Notifications.events :=
              (Notifications.events st
               ++ [Notifications.Shown
                     {| Notifications.title := API.name next +:+ " 即將開始";
                        Notifications.body :=
                          API.subject next +:+ Notifications.newline +:+ toString z
                          +:+ " 分鐘後開始 (" +:+ API.start next +:+ ")";
                        Notifications.icon := "./icons/icon-192.png";
                        Notifications.badge := "./icons/icon-72.png";
                        Notifications.tag := "class-reminder-" +:+ API.start next;
                        Notifications.requireInteraction := true;
                        Notifications.silent := false;
                        Notifications.vibrate := [200; 100; 200] |}])
              ++ [Notifications.TimeoutSet (API.start next +:+ "-" +:+ API.name next)
                    (Num ((z + 1) * 60000))] |},
         S (S (API.getCurrent h a n).2)).
Proof.
  remember (Notifications.checkUpcomingClasses h api st n) as res eqn:Hres.
  unfold Notifications.checkUpcomingClasses in Hres.
  destruct (Notifications.enabled (Notifications.this st)) eqn:Hen; [|left; by subst res].
  case_bool_decide as Hperm; [|left; by subst res]. cbn [negb orb] in Hres.
  destruct api as [a|]; [|left; by subst res].
  unfold bind at 1 in Hres. destruct (API.getCurrent h a n) as [current n1] eqn:Hcur.
  destruct (success current); [|left; by subst res].
  destruct (data current) as [c|] eqn:Hc; [|left; by subst res].
  cbn [mbind option_bind] in Hres.
  destruct (API.nextPeriod c) as [next|] eqn:Hnext; [|left; by subst res].
  case_bool_decide as Hty; [|left; by subst res]. cbn [negb] in Hres.
  unfold bind, newDate, ret in Hres.
  destruct (floorDiv _ 60000) as [z|] eqn:Hz in Hres; [|left; by subst res].
  cbn [Notifications.num_pos] in Hres.
  destruct (Z.ltb_spec 0 z) as [Hpos|]; [|left; by subst res]. cbn [andb] in Hres.
  destruct (Notifications.num_le _ _) eqn:Hle in Hres; [|left; by subst res].
  case_bool_decide as Hkey; [left; by subst res|]. right.
  exists a, c, next, z. rewrite Hcur. cbn [fst snd].
  repeat (split; [done|]). subst res.
  unfold Notifications.show, Notifications.emit, Notifications.set_this.
  destruct st as [[p e r s ci] ls ev].
  cbn [Notifications.this Notifications.permission Notifications.enabled] in Hperm, Hen.
  subst p e. reflexivity.
Qed.

End reminders.

(** X21 — When a reminder is shown.  If [checkUpcomingClasses] adds an
    event, then: notifications are enabled and permitted; [getCurrent]
    reports a next slot that is a period, never a break or the assembly;
    its start [T] on the day of the reading is at least one minute and
    less than [reminderMinutes + 1] minutes after [now]; its key was not
    scheduled and is scheduled afterwards; exactly one notification is
    shown, which requires interaction, and one timer is set, and that
    timer runs out after the period has started, at most a minute after. *)
Theorem reminder_due (h : Host) (api : option API.TimetableAPI) (st : Notifications.World)
    (n : nat) :
  let st' := (Notifications.checkUpcomingClasses h api st n).1 in
  Notifications.events st' ≠ Notifications.events st →
  ∃ a c next r T e d,
    api = Some a
    ∧ Notifications.enabled (Notifications.this st) = true
    ∧ Notifications.permission (Notifications.this st) = "granted"
    ∧ data (API.getCurrent h a n).1 = Some c
    ∧ API.nextPeriod c = Some next
    ∧ API.type next = "period"
    ∧ Notifications.reminderMinutes (Notifications.this st) = Num r
    ∧ setHours (clock h (S (API.getCurrent h a n).2))
        (default NaN ((toNumber <$> split ":" (API.start next)) !! 0%nat))
        (default NaN ((toNumber <$> split ":" (API.start next)) !! 1%nat)) = Num T
    ∧ 60000 ≤ T - clock h (API.getCurrent h a n).2 < (r + 1) * 60000
    ∧ ((API.start next +:+ "-" +:+ API.name next)
       ∉ Notifications.scheduledNotifications (Notifications.this st))
    ∧ Notifications.scheduledNotifications (Notifications.this st')
      = {[API.start next +:+ "-" +:+ API.name next]}
        ∪ Notifications.scheduledNotifications (Notifications.this st)
    ∧ Notifications.events st'
      = Notifications.events st
        ++ [Notifications.Shown e;
            Notifications.TimeoutSet (API.start next +:+ "-" +:+ API.name next) (Num d)]
    ∧ Notifications.title e = API.name next +:+ " 即將開始"
    ∧ Notifications.requireInteraction e = true
    ∧ T - clock h (API.getCurrent h a n).2 < d
      ≤ T - clock h (API.getCurrent h a n).2 + 60000.
Proof.
  intros st' Hev. subst st'.
  destruct (check_cases h api st n)
    as [Hsame|(a & c & next & z & -> & Hen & Hperm & Hc & Hnext & Hty & Hz & Hpos & Hle
               & Hkey & Hres)].
  { by rewrite Hsame in Hev. }
  destruct (Notifications.reminderMinutes (Notifications.this st)) as [r|] eqn:Hr; [|done].
  destruct (setHours _ _ _) as [T|] eqn:HT in Hz; [|done].
  cbn [floorDiv num_sub lift2] in Hz. injection Hz as Hz.
  cbn [Notifications.num_le] in Hle. apply Z.leb_le in Hle.
  rewrite Hres. cbn [fst Notifications.this Notifications.events
                       Notifications.scheduledNotifications].
  eexists a, c, next, r, T, _, ((z + 1) * 60000).
  repeat (split; [done|]).
  split; [subst z; Z.div_mod_to_equations; lia|].
  split; [done|]. split; [done|]. split; [by rewrite <- app_assoc|].
  split; [done|]. split; [done|].
  subst z. Z.div_mod_to_equations. lia.
Qed.

Lemma reminder_due_witness :
  let t := Ref.at_ 2025 12 15 9 17 0 0 in
  let st :=
    {| Notifications.this :=
         {| Notifications.permission := "granted"; Notifications.enabled := true;
            Notifications.reminderMinutes := Num 5;
            Notifications.scheduledNotifications := ∅;
            Notifications.checkInterval := false |};
       Notifications.localStorage := ∅; Notifications.events := [] |} in
  let st' := (Notifications.checkUpcomingClasses (Ref.host t) (Some Ref.api) st 0%nat).1 in
  ∃ next r T e d,
    API.type next = "period"
    ∧ Notifications.reminderMinutes (Notifications.this st) = Num r
    ∧ 60000 ≤ T - clock (Ref.host t) (API.getCurrent (Ref.host t) Ref.api 0%nat).2
      < (r + 1) * 60000
    ∧ Notifications.events st'
      = Notifications.events st
        ++ [Notifications.Shown e;
            Notifications.TimeoutSet (API.start next +:+ "-" +:+ API.name next) (Num d)]
    ∧ T - clock (Ref.host t) (API.getCurrent (Ref.host t) Ref.api 0%nat).2 < d.
Proof.
  intros t st st'.
  destruct (reminder_due (Ref.host t) (Some Ref.api) st 0%nat)
    as (a & c & next & r & T & e & d & Ha & _ & _ & _ & _ & Hty & Hr & _ & HS & _ & _ & Hev
        & _ & _ & Hd & _).
  { vm_compute. discriminate. }
  injection Ha as <-. exists next, r, T, e, d.
  split; [exact Hty|]. split; [exact Hr|]. split; [exact HS|].
  split; [exact Hev|exact Hd].
Defined.

(** X22 — No reminder twice.  After a check that has shown a reminder,
    a later check at which [getCurrent] reports a next slot with the same
    start and name changes nothing: no second notification and no second
    timer, as long as the key is scheduled. *)
Theorem reminder_not_repeated (h : Host) (a : API.TimetableAPI) (st : Notifications.World)
    (n n' : nat) (c c' : API.CurrentData) (next next' : API.ScheduleItem) :
  let st1 := (Notifications.checkUpcomingClasses h (Some a) st n).1 in
  st1 ≠ st →
  data (API.getCurrent h a n).1 = Some c → API.nextPeriod c = Some next →
  data (API.getCurrent h a n').1 = Some c' → API.nextPeriod c' = Some next' →
  API.start next' = API.start next → API.name next' = API.name next →
  (Notifications.checkUpcomingClasses h (Some a) st1 n').1 = st1.
Proof.
  intros st1 Hne Hc Hnext Hc' Hnext' Hs Hn.
  destruct (check_cases h (Some a) st n)
    as [Hsame|(a0 & c0 & next0 & z & [= <-] & _ & _ & Hc0 & Hnext0 & _ & _ & _ & _ & _ & Hres)].
  { done. }
  rewrite Hc in Hc0. injection Hc0 as <-. rewrite Hnext in Hnext0. injection Hnext0 as <-.
  destruct (check_cases h (Some a) st1 n')
    as [Hsame|(a1 & c1 & next1 & z1 & [= <-] & _ & _ & Hc1 & Hnext1 & _ & _ & _ & _ & Hkey & _)].
  { done. }
  rewrite Hc' in Hc1. injection Hc1 as <-. rewrite Hnext' in Hnext1. injection Hnext1 as <-.
  exfalso. apply Hkey. unfold st1. rewrite Hres, Hs, Hn.
  cbn [fst Notifications.this Notifications.scheduledNotifications]. set_solver.
Qed.

Lemma reminder_not_repeated_witness :
  let t := Ref.at_ 2025 12 15 9 17 0 0 in
  let st :=
    {| Notifications.this :=
         {| Notifications.permission := "granted"; Notifications.enabled := true;
            Notifications.reminderMinutes := Num 5;
            Notifications.scheduledNotifications := ∅;
            Notifications.checkInterval := false |};
       Notifications.localStorage := ∅; Notifications.events := [] |} in
  let st1 := (Notifications.checkUpcomingClasses (Ref.host t) (Some Ref.api) st 0%nat).1 in
  length (Notifications.events st1) = 2%nat
  ∧ (Notifications.checkUpcomingClasses (Ref.host t) (Some Ref.api) st1 2000%nat).1 = st1.
Proof.
  intros t st st1. split; [by vm_compute|].
  eapply (reminder_not_repeated (Ref.host t) Ref.api st 0%nat 2000%nat).
  - intros Heq. apply (f_equal Notifications.events) in Heq. vm_compute in Heq. discriminate.
  - by vm_compute.
  - by vm_compute.
  - by vm_compute.
  - by vm_compute.
  - by vm_compute.
  - by vm_compute.
Defined.

(** X23 — Switching notifications off.  After [disable] nothing is
    scheduled, the checker holds no timer, and the only event is the
    clearing of a timer that was held; checks and the notice of a special
    schedule then change nothing, and a manager constructed from the
    storage is disabled. *)
Theorem disable_silences (h : Host) (b : Notifications.Browser)
    (api : option API.TimetableAPI) (st : Notifications.World) (n : nat)
    (ty name : string) :
  let st' := Notifications.disable st in
  Notifications.enabled (Notifications.this st') = false
  ∧ Notifications.scheduledNotifications (Notifications.this st') = ∅
  ∧ Notifications.checkInterval (Notifications.this st') = false
  ∧ Notifications.events st'
    = Notifications.events st
      ++ (if Notifications.checkInterval (Notifications.this st)
          then [Notifications.IntervalCleared] else [])
  ∧ Notifications.checkUpcomingClasses h api st' n = (st', n)
  ∧ Notifications.notifySpecialSchedule ty name st' = st'
  ∧ Notifications.enabled (Notifications.constructor b (Notifications.localStorage st'))
    = false.
Proof.
  intros st'.
  assert (Notifications.enabled (Notifications.this st') = false) as Hen.
  { unfold st', Notifications.disable, Notifications.stopNotificationChecker.
    cbn. destruct (Notifications.checkInterval (Notifications.this st)) eqn:Hci; cbn;
      by rewrite ?Hci. }
  split; [done|]. split; [|split; [|split; [|split; [|split]]]].
  - unfold st', Notifications.disable, Notifications.stopNotificationChecker.
    cbn. destruct (Notifications.checkInterval (Notifications.this st)) eqn:Hci; cbn;
      by rewrite ?Hci.
  - unfold st', Notifications.disable, Notifications.stopNotificationChecker.
    cbn. destruct (Notifications.checkInterval (Notifications.this st)) eqn:Hci; cbn;
      by rewrite ?Hci.
  - unfold st', Notifications.disable, Notifications.stopNotificationChecker.
    cbn. destruct (Notifications.checkInterval (Notifications.this st)) eqn:Hci; cbn;
      by rewrite ?app_nil_r.
  - unfold Notifications.checkUpcomingClasses. rewrite Hen. reflexivity.
  - unfold Notifications.notifySpecialSchedule. rewrite Hen. reflexivity.
  - unfold st', Notifications.disable, Notifications.stopNotificationChecker,
      Notifications.constructor.
    cbn. destruct (Notifications.checkInterval (Notifications.this st)) eqn:Hci; cbn;
      by rewrite lookup_insert_eq.
Qed.

(** What a check keeps and what it may add. *)
Lemma check_fields (h : Host) (api : option API.TimetableAPI) (st : Notifications.World)
    (n : nat) :
  let st' := (Notifications.checkUpcomingClasses h api st n).1 in
  Notifications.permission (Notifications.this st')
  = Notifications.permission (Notifications.this st)
  ∧ Notifications.enabled (Notifications.this st')
    = Notifications.enabled (Notifications.this st)
  ∧ Notifications.reminderMinutes (Notifications.this st')
    = Notifications.reminderMinutes (Notifications.this st)
  ∧ Notifications.checkInterval (Notifications.this st')
    = Notifications.checkInterval (Notifications.this st)
  ∧ Notifications.localStorage st' = Notifications.localStorage st
  ∧ (st' = st
     ∨ Notifications.enabled (Notifications.this st) = true
       ∧ Notifications.permission (Notifications.this st) = "granted"
       ∧ ∃ k e d,
           Notifications.scheduledNotifications (Notifications.this st')
           = {[k]} ∪ Notifications.scheduledNotifications (Notifications.this st)
           ∧ Notifications.events st'
             = Notifications.events st
               ++ [Notifications.Shown e; Notifications.TimeoutSet k d]).
Proof.
  intros st'. subst st'.
  destruct (check_cases h api st n)
    as [->|(a & c & next & z & -> & Hen & Hperm & _ & _ & _ & _ & _ & _ & _ & ->)].
  { repeat (split; [done|]). by left. }
  cbn [fst Notifications.this Notifications.permission Notifications.enabled
         Notifications.reminderMinutes Notifications.checkInterval
         Notifications.localStorage Notifications.scheduledNotifications
         Notifications.events].
  repeat (split; [done|]). right. split; [done|]. split; [done|].
  eexists _, _, _. split; [done|]. by rewrite <- app_assoc.
Qed.

Lemma startNotificationChecker_fields (h : Host) (api : option API.TimetableAPI)
    (st : Notifications.World) (n : nat) :
  let st1 := (Notifications.startNotificationChecker h api st n).1 in
  Notifications.permission (Notifications.this st1)
  = Notifications.permission (Notifications.this st)
  ∧ Notifications.enabled (Notifications.this st1)
    = Notifications.enabled (Notifications.this st)
  ∧ Notifications.checkInterval (Notifications.this st1) = true
  ∧ Notifications.localStorage st1 = Notifications.localStorage st
  ∧ Notifications.IntervalSet 30000 ∈ Notifications.events st1.
Proof.
  intros st1. subst st1. unfold Notifications.startNotificationChecker.
  match goal with
  | |- context [Notifications.checkUpcomingClasses h api ?w0 n] => set (w := w0)
  end.
  assert (Notifications.permission (Notifications.this w)
          = Notifications.permission (Notifications.this st)
          ∧ Notifications.enabled (Notifications.this w)
            = Notifications.enabled (Notifications.this st)
          ∧ Notifications.checkInterval (Notifications.this w) = true
          ∧ Notifications.localStorage w = Notifications.localStorage st
          ∧ Notifications.IntervalSet 30000 ∈ Notifications.events w)
    as (Hw1 & Hw2 & Hw3 & Hw4 & Hw5).
  { unfold w. destruct (Notifications.checkInterval (Notifications.this st)); cbn;
      repeat split; set_solver. }
  destruct (check_fields h api w n) as (H1 & H2 & _ & H4 & H5 & H6). cbn zeta in *.
  rewrite H1, H2, H4, H5. repeat (split; [done|]).
  destruct H6 as [->|(_ & _ & k & e & d & _ & ->)]; [done|].
  apply elem_of_app. by left.
Qed.

(** X24 — Switching notifications on.  [enable] succeeds only with a
    granted permission: then the manager is enabled and holds the timer
    of the checker, which was set, and a manager constructed from the
    storage is enabled.  When it fails, it gives a reason and leaves
    [enabled], the storage and the events as they were. *)
Theorem enable_outcome (h : Host) (b : Notifications.Browser)
    (api : option API.TimetableAPI) (st : Notifications.World) (n : nat) :
  let r := (Notifications.enable h b api st n).1.1 in
  let st' := (Notifications.enable h b api st n).1.2 in
  if Notifications.r_success r
  then Notifications.supported b = true
       ∧ Notifications.permission (Notifications.this st') = "granted"
       ∧ Notifications.enabled (Notifications.this st') = true
       ∧ Notifications.checkInterval (Notifications.this st') = true
       ∧ Notifications.IntervalSet 30000 ∈ Notifications.events st'
       ∧ Notifications.enabled
           (Notifications.constructor b (Notifications.localStorage st')) = true
  else is_Some (Notifications.r_reason r)
       ∧ Notifications.enabled (Notifications.this st')
         = Notifications.enabled (Notifications.this st)
       ∧ Notifications.localStorage st' = Notifications.localStorage st
       ∧ Notifications.events st' = Notifications.events st.
Proof.
  intros r st'. subst r st'.
  unfold Notifications.enable, Notifications.requestPermission.
  destruct (Notifications.supported b) eqn:Hsup; cbn [negb].
  2:{ cbn. split; [by eexists|done]. }
  case_bool_decide as Hg.
  { cbn [Notifications.r_success]. unfold bind, ret.
    match goal with
    | |- context [Notifications.startNotificationChecker h api ?w0 n] =>
        pose proof (startNotificationChecker_fields h api w0 n) as Hst;
        destruct (Notifications.startNotificationChecker h api w0 n) as [st1 n1]
    end.
    cbn [fst snd Notifications.r_success] in *.
    destruct Hst as (H1 & H2 & H3 & H4 & H5).
    split; [done|]. split; [by rewrite H1|]. split; [by rewrite H2|].
    split; [done|]. split; [done|].
    unfold Notifications.constructor. rewrite H4. cbn. by rewrite lookup_insert_eq. }
  case_bool_decide as Hd.
  { cbn. split; [by eexists|done]. }
  destruct (Notifications.promptAnswer b) as [result|message].
  2:{ cbn. split; [by eexists|done]. }
  case_bool_decide as Hres.
  2:{ cbn. split; [by eexists|done]. }
  cbn [Notifications.r_success]. unfold bind, ret.
  match goal with
  | |- context [Notifications.startNotificationChecker h api ?w0 n] =>
      pose proof (startNotificationChecker_fields h api w0 n) as Hst;
      destruct (Notifications.startNotificationChecker h api w0 n) as [st1 n1]
  end.
  cbn [fst snd Notifications.r_success] in *.
  destruct Hst as (H1 & H2 & H3 & H4 & H5).
  subst result. unfold Notifications.showTestNotification, Notifications.show in *.
  cbn in H1, H2, H4.
  split; [done|]. split; [done|]. split; [done|].
  split; [done|]. split; [done|].
  unfold Notifications.constructor. rewrite H4. cbn. by rewrite lookup_insert_eq.
Qed.

(** ** An invariant of the manager *)

Section invariant.
Context (h : Host) (b : Notifications.Browser) (api : option API.TimetableAPI).

Lemma show_consistent (o : Notifications.Options) (st : Notifications.World) :
  consistent st → consistent (Notifications.show o st).
Proof.
  intros (I1 & I2 & I3). unfold Notifications.show.
  case_bool_decide as Hg; cbn [negb]; [|done].
  split; [done|]. split; [apply I2|apply I3].
Qed.

Lemma check_consistent (st : Notifications.World) (n : nat) :
  consistent st → consistent (Notifications.checkUpcomingClasses h api st n).1.
Proof.
  intros (I1 & I2 & I3).
  destruct (check_fields h api st n) as (H1 & H2 & _ & H4 & _ & H6). cbn zeta in *.
  destruct H6 as [->|(Hen & Hg & _)]; [done|].
  unfold consistent. rewrite H1, H2, H4. auto.
Qed.

Lemma startNotificationChecker_consistent (st : Notifications.World) (n : nat) :
  Notifications.enabled (Notifications.this st) = true →
  Notifications.permission (Notifications.this st) = "granted" →
  consistent (Notifications.startNotificationChecker h api st n).1.
Proof.
  intros Hen Hg.
  destruct (startNotificationChecker_fields h api st n) as (H1 & H2 & _). cbn zeta in *.
  unfold consistent. rewrite H1, H2. auto.
Qed.

Lemma step_consistent (st st' : Notifications.World) :
  step h b api st st' → consistent st → consistent st'.
Proof.
  intros Hstep Hc. destruct Hstep as [o st|st|st n|key st|st|st n|st|minutes st|ty name st].
  - by apply show_consistent.
  - unfold Notifications.showTestNotification.
    case_bool_decide; cbn [negb]; [by apply show_consistent|done].
  - by apply check_consistent.
  - destruct Hc as (I1 & I2 & I3). split; [done|]. split; [|done].
    cbn. intros Hne. apply I2. intros Heq. apply Hne. rewrite Heq.
    apply leibniz_equiv, elem_of_equiv_empty. intros x [Hx _]%elem_of_difference.
    by apply not_elem_of_empty in Hx.
  - destruct Hc as (I1 & I2 & I3). unfold Notifications.requestPermission.
    destruct (Notifications.supported b); cbn [negb snd]; [|done].
    case_bool_decide as Hg; [done|]. case_bool_decide as Hd; [done|].
    destruct (Notifications.promptAnswer b) as [result|message]; [|done].
    case_bool_decide as Hres; cbn [snd].
    + subst result. unfold Notifications.showTestNotification, Notifications.show. cbn.
      split; [done|]. split; intros Hp; [by destruct (I2 Hp)|by destruct (I3 Hp)].
    + split; [|split]; cbn; intros Hp;
        [by specialize (I1 Hp)|by destruct (I2 Hp)|by destruct (I3 Hp)].
  - destruct Hc as (I1 & I2 & I3).
    unfold Notifications.enable, Notifications.requestPermission.
    destruct (Notifications.supported b); cbn [negb]; [|done].
    case_bool_decide as Hg.
    { cbn [Notifications.r_success]. unfold bind, ret.
      match goal with
      | |- context [Notifications.startNotificationChecker h api ?w0 n] =>
          pose proof (startNotificationChecker_consistent w0 n) as Hst;
          destruct (Notifications.startNotificationChecker h api w0 n) as [st1 n1]
      end.
      cbn [fst snd] in *. by apply Hst. }
    case_bool_decide as Hd; [done|].
    destruct (Notifications.promptAnswer b) as [result|message]; [|done].
    case_bool_decide as Hres.
    + cbn [Notifications.r_success]. unfold bind, ret.
      match goal with
      | |- context [Notifications.startNotificationChecker h api ?w0 n] =>
          pose proof (startNotificationChecker_consistent w0 n) as Hst;
          destruct (Notifications.startNotificationChecker h api w0 n) as [st1 n1]
      end.
      cbn [fst snd] in *. apply Hst; [done|]. subst result.
      unfold Notifications.showTestNotification, Notifications.show. by cbn.
    + cbn. split; [|split]; cbn; intros Hp;
        [by specialize (I1 Hp)|by destruct (I2 Hp)|by destruct (I3 Hp)].
  - destruct Hc as (I1 & I2 & I3).
    unfold Notifications.disable, Notifications.stopNotificationChecker. cbn.
    destruct (Notifications.checkInterval (Notifications.this st)) eqn:Hci; cbn.
    + split; [|done]. intros [e He]. apply I1. exists e.
      apply elem_of_app in He as [He|He]; [done|].
      by apply list_elem_of_singleton in He.
    + split; [done|]. split; [done|]. cbn. rewrite Hci. by intros [=].
  - done.
  - unfold Notifications.notifySpecialSchedule.
    destruct (negb _ || negb _); [done|].
    destruct (negb _ && negb _); [by apply show_consistent|done].
Qed.

End invariant.

(** X25 — An invariant of the manager.  From the loading of the script
    on, through any calls of [show], [showTestNotification],
    [checkUpcomingClasses], [requestPermission], [enable], [disable],
    [setReminderTime] and [notifySpecialSchedule] and any firing of the
    timers set: a notification has been shown only if the permission is
    granted, and a key is scheduled or the checker holds its timer only
    if notifications are enabled and the permission is granted. *)
Theorem manager_consistent (h : Host) (b : Notifications.Browser)
    (api : option API.TimetableAPI) (storage : gmap string string)
    (st : Notifications.World) :
  rtc (step h b api) (loaded b storage) st → consistent st.
Proof.
  intros Hrtc. refine (rtc_ind_r (λ z, consistent z) (loaded b storage) _ _ st Hrtc).
  - split; [|split]; cbn; [by intros [e He%elem_of_nil]|done..].
  - intros y z _ Hstep Hy. by eapply step_consistent.
Qed.

Lemma manager_consistent_witness :
  let b := {| Notifications.supported := true;
              Notifications.browserPermission := "default";
              Notifications.promptAnswer := inl "granted" |} in
  let t := Ref.at_ 2025 12 15 9 17 0 0 in
  let st := (Notifications.enable (Ref.host t) b (Some Ref.api) (loaded b ∅) 0%nat).1.2 in
  length (Notifications.events st) = 4%nat ∧ consistent st.
Proof.
  intros b t st. split; [by vm_compute|].
  apply (manager_consistent (Ref.host t) b (Some Ref.api) ∅).
  apply rtc_once. apply step_enable.
Defined.

(** ** Date strings *)

Lemma civil_from_days_range (z : Z) :
  let '(y, m, d) := civil_from_days z in 1 ≤ m ≤ 12 ∧ 1 ≤ d ≤ 31.
Proof.
  unfold civil_from_days. cbv zeta.
  repeat match goal with
         | |- context [if ?b then _ else _] => destruct b eqn:?
         end.
  all: Z.div_mod_to_equations; lia.
Qed.

Lemma length_append (a b : string) :
  String.length (a +:+ b) = (String.length a + String.length b)%nat.
Proof.
  induction a as [|x a IH]; [done|].
  change (S (String.length (a +:+ b)) = S (String.length a + String.length b)).
  by rewrite IH.
Qed.

Lemma append_inj_length (a b c d : string) :
  String.length c = String.length d → a +:+ c = b +:+ d → a = b ∧ c = d.
Proof.
  revert b. induction a as [|x a IH]; intros [|y b] Hlen Heq.
  - done.
  - change (c = String y (b +:+ d)) in Heq. subst c.
    change (S (String.length (b +:+ d)) = String.length d) in Hlen.
    rewrite length_append in Hlen. lia.
  - change (String x (a +:+ c) = d) in Heq. subst d.
    change (String.length c = S (String.length (a +:+ c))) in Hlen.
    rewrite length_append in Hlen. lia.
  - change (String x (a +:+ c) = String y (b +:+ d)) in Heq.
    injection Heq as -> Heq. destruct (IH b Hlen Heq) as [-> ->]. done.
Qed.

Lemma pad2_length (k : Z) : 0 ≤ k < 100 → String.length (padStart 2 "0" (toString k)) = 2%nat.
Proof.
  intros Hk. pose proof (twoDigits_pad k Hk) as Ht.
  apply twoDigits_inv in Ht as (a & b & ? & ? & -> & _). done.
Qed.

Lemma pad2_inj (k k' : Z) :
  0 ≤ k < 100 → 0 ≤ k' < 100 →
  padStart 2 "0" (toString k) = padStart 2 "0" (toString k') → k = k'.
Proof.
  intros Hk Hk' Heq. pose proof (twoDigits_pad k Hk) as Ht.
  rewrite Heq, (twoDigits_pad k' Hk') in Ht. congruence.
Qed.

(** X26 — Date strings name days.  Two time values have the same
    [formatDateToISO] exactly when they are times of the same day; the
    string ends with the two digits of the month and of the day, whatever
    the year. *)
Theorem formatDateToISO_day (t t' : Z) :
  API.formatDateToISO t = API.formatDateToISO t' ↔ Day t = Day t'.
Proof.
  split.
  - unfold API.formatDateToISO, getFullYear, getMonth, getDate.
    pose proof (days_civil_roundtrip (Day t)) as Hrt.
    pose proof (days_civil_roundtrip (Day t')) as Hrt'.
    pose proof (civil_from_days_range (Day t)) as Hr.
    pose proof (civil_from_days_range (Day t')) as Hr'.
    destruct (civil_from_days (Day t)) as [[y m] d].
    destruct (civil_from_days (Day t')) as [[y' m'] d']. cbn [fst snd].
    replace (m - 1 + 1) with m by lia. replace (m' - 1 + 1) with m' by lia.
    intros Heq.
    apply append_inj_length in Heq as [Hy Heq].
    2:{ rewrite !length_append, !pad2_length by lia. done. }
    change (String "-" (padStart 2 "0" (toString m) +:+ "-" +:+ padStart 2 "0" (toString d))
            = String "-" (padStart 2 "0" (toString m') +:+ "-"
                          +:+ padStart 2 "0" (toString d'))) in Heq.
    injection Heq as Heq.
    apply append_inj_length in Heq as [Hm Heq].
    2:{ rewrite !length_append, !pad2_length by lia. done. }
    change (String "-" (padStart 2 "0" (toString d))
            = String "-" (padStart 2 "0" (toString d'))) in Heq.
    injection Heq as Hd.
    apply (inj pretty) in Hy. apply pad2_inj in Hm, Hd; [|lia..].
    congruence.
  - unfold API.formatDateToISO, getFullYear, getMonth, getDate. by intros ->.
Qed.
